(** * video-uploader: compress a video, upload it to Webflow, poll for its URL

    A shallow embedding of [main.py].  The script talks to four outside
    parties: the Webflow REST API (through the [webflow] SDK), the pre-signed
    S3 upload target (through [requests]), the local machine (files,
    [ffmpeg], the terminal, the environment) and the clock.  They are
    gathered in one record of operations over an abstract [World]; the
    Python functions become computations in a small monad that threads the
    world, carries Python's three ways of leaving a function (return, raise,
    [sys.exit]) and logs every interaction, request and answer, in a trace. *)

From Stdlib Require Import ZArith QArith List String Ascii Bool Lia.
From Stdlib Require Import Strings.Byte DecimalString.
Import ListNotations.

Local Open Scope string_scope.
Local Open Scope Z_scope.
Local Open Scope list_scope.

(** ** Python values *)

(** The exceptions the script can meet.  All of them derive from
    [Exception]; [FileNotFoundError] also derives from [OSError]. *)
Inductive exn : Type :=
| ApiError (status : Z)            (* webflow SDK: transport/auth/4xx/5xx *)
| RequestException                 (* requests: transport failure *)
| OSError
| FileNotFoundError
| CalledProcessError (returncode : Z)
| ZeroDivisionError
| EOFError
| OtherException (name : string).

Definition is_OSError (e : exn) : bool :=
  match e with OSError | FileNotFoundError => true | _ => false end.

Definition is_CalledProcessError (e : exn) : bool :=
  match e with CalledProcessError _ => true | _ => false end.

Definition is_FileNotFoundError (e : exn) : bool :=
  match e with FileNotFoundError => true | _ => false end.

(** What a call to an outside party gives back. *)
Definition answer (A : Type) : Type := (exn + A)%type.

(** An attribute that holds a string or [None] (or is absent, which
    [getattr(x, name, None)] turns into [None]). *)
Definition truthy (v : option string) : bool :=
  match v with
  | Some s => negb (s =? EmptyString)%string
  | None => false
  end.

Definition str_truthy (s : string) : bool := negb (s =? EmptyString)%string.

(** [a or b]: [a] when it is truthy, [b] otherwise. *)
Definition py_or (a b : option string) : option string :=
  if truthy a then a else b.

(** [str(n)] for an [int]. *)
Definition str_of_int (n : Z) : string := NilZero.string_of_int (Z.to_int n).

(** *** [str.strip] and [str.lower]

    Characters are code points below 256 (Latin-1).  [is_space] is
    CPython's whitespace table restricted to that range; [lower_char] is the
    simple lower-case mapping there. *)
Definition is_space (c : ascii) : bool :=
  let n := Z.of_N (N_of_ascii c) in
  ((9 <=? n) && (n <=? 13)) || ((28 <=? n) && (n <=? 32))
  || (n =? 133) || (n =? 160).

Definition lower_char (c : ascii) : ascii :=
  let n := Z.of_N (N_of_ascii c) in
  if ((65 <=? n) && (n <=? 90))
     || ((192 <=? n) && (n <=? 214))
     || ((216 <=? n) && (n <=? 222))
  then ascii_of_N (Z.to_N (n + 32))
  else c.

Fixpoint lower (s : string) : string :=
  match s with
  | EmptyString => EmptyString
  | String c r => String (lower_char c) (lower r)
  end.

Fixpoint lstrip (s : string) : string :=
  match s with
  | EmptyString => EmptyString
  | String c r => if is_space c then lstrip r else s
  end.

Fixpoint rstrip (s : string) : string :=
  match s with
  | EmptyString => EmptyString
  | String c r =>
      let r' := rstrip r in
      if is_space c && (r' =? EmptyString)%string then EmptyString else String c r'
  end.

Definition strip (s : string) : string := rstrip (lstrip s).

(** ** The SDK's data *)

Record AssetFolder : Type := {
  folder_id : string;
  display_name : option string
}.

Record Asset : Type := {
  asset_id : string;
  original_url : option string;
  hosted_url : option string;
  url : option string
}.

(** [upload_init.upload_details]: the pre-signed form fields. *)
Record UploadDetails : Type := {
  acl : string;
  bucket : string;
  x_amz_algorithm : string;
  x_amz_credential : string;
  x_amz_date : string;
  key : string;
  policy : string;
  x_amz_signature : string;
  success_action_status : string;
  content_type : string;
  cache_control : string
}.

(** The answer of [webflow.assets.create]: the upload session. *)
Record AssetUpload : Type := {
  upload_id : string;
  upload_url : string;
  upload_details : UploadDetails
}.

(** The [file] part of the multipart body: name, bytes, content type. *)
Definition FilePart : Type := (string * list byte * string)%type.

(** ** What the script prints *)

Inductive Message : Type :=
| MsgMissingEnv
| MsgMkdirFailed (dir : string) (e : exn)
| MsgCompressing (input_name output_name : string) (crf : Z)
| MsgCompressionFinished
| MsgFfmpegFailed
| MsgFfmpegNotFound
| MsgCreatingFolder (name : string)
| MsgPolling (budget_seconds : Z)
| MsgUrlGenerating (attempt : Z)
| MsgNotListedYet (attempt : Z)
| MsgAttemptFailed (attempt : Z) (e : exn)
| MsgPreparing (file_name : string)
| MsgUploading
| MsgS3Successful
| MsgFileReady (cdn_url : string)
| MsgTimedOut
| MsgFailedStatus (status_code : Z)
| MsgErrorDuringUpload (e : exn)
| MsgInputNotFound (input_file : string)
| MsgSizeComparison (original compressed : Q) (reduction : Q)
| MsgCancelled.

(** ** The trace: every interaction with its answer *)

Inductive Event : Type :=
| EListFolders (site : option string) (r : answer (list AssetFolder))
| ECreateFolder (site : option string) (name : string) (r : answer AssetFolder)
| ECreateAsset (site : option string) (parent_folder file_name file_hash : string)
    (r : answer AssetUpload)
| EListAssets (site : option string) (r : answer (list Asset))
| EPost (target : string) (data : list (string * string)) (file : FilePart)
    (r : answer Z)
| ESleep (seconds : Z)
| ESay (m : Message)
| EIsFile (path : string) (r : bool)
| EMkdir (dir : string) (r : answer unit)
| ERun (command : list string) (r : answer unit)
| EStat (path : string) (r : answer Z)
| EOpen (path : string) (r : answer (list byte))
| EInput (prompt : string) (r : answer string).

(** A request to the Webflow API or to the upload target. *)
Definition is_remote_call (e : Event) : bool :=
  match e with
  | EListFolders _ _ | ECreateFolder _ _ _ | ECreateAsset _ _ _ _ _
  | EListAssets _ _ | EPost _ _ _ _ => true
  | _ => false
  end.

Definition is_create_folder (e : Event) : bool :=
  match e with ECreateFolder _ _ _ => true | _ => false end.

Definition is_list_assets (e : Event) : bool :=
  match e with EListAssets _ _ => true | _ => false end.

Definition is_sleep (e : Event) : bool :=
  match e with ESleep _ => true | _ => false end.

Definition is_input (e : Event) : bool :=
  match e with EInput _ _ => true | _ => false end.

Definition count (p : Event -> bool) (t : list Event) : nat :=
  List.length (filter p t).

(** ** The outside world *)

(** Every operation takes the world and gives its answer, the exception
    raised or the value returned, with the world after the call.  The two
    listing calls answer with the list itself ([.asset_folders], [.assets]
    of the SDK's response when it has that attribute). *)
Record Services (World : Type) : Type := {
  (* the Webflow SDK *)
  assets_list_folders : option string -> World -> answer (list AssetFolder) * World;
  assets_create_folder : option string -> string -> World -> answer AssetFolder * World;
  assets_create : option string -> string -> string -> string -> World
                  -> answer AssetUpload * World;
  assets_list : option string -> World -> answer (list Asset) * World;
  (* requests.post: the status code of the response *)
  requests_post : string -> list (string * string) -> FilePart -> World
                  -> answer Z * World;
  (* time.sleep *)
  time_sleep : Z -> World -> World;
  (* the local machine *)
  os_getenv : string -> World -> option string;
  path_is_file : string -> World -> bool;
  path_mkdir : string -> World -> answer unit * World;
  subprocess_run : list string -> World -> answer unit * World;
  stat_st_size : string -> World -> answer Z;
  open_rb : string -> World -> answer (list byte);
  input : string -> World -> answer string * World;
  (* pure library functions *)
  md5_hexdigest : list byte -> string;       (* hex of the MD5 of a message *)
  os_path_basename : string -> string;
  pathlib_Path : string -> string;           (* str(Path(s)) *)
  path_name : string -> string;              (* Path(p).name *)
  with_suffix : string -> string -> string   (* Path(p).with_suffix(s) *)
}.

Arguments assets_list_folders {World}.
Arguments assets_create_folder {World}.
Arguments assets_create {World}.
Arguments assets_list {World}.
Arguments requests_post {World}.
Arguments time_sleep {World}.
Arguments os_getenv {World}.
Arguments path_is_file {World}.
Arguments path_mkdir {World}.
Arguments subprocess_run {World}.
Arguments stat_st_size {World}.
Arguments open_rb {World}.
Arguments input {World}.
Arguments md5_hexdigest {World}.
Arguments os_path_basename {World}.
Arguments pathlib_Path {World}.
Arguments path_name {World}.
Arguments with_suffix {World}.

(** ** The monad *)

(** How a Python function ends: it returns, an exception leaves it, or
    [sys.exit] does ([SystemExit] is not an [Exception]: [except Exception]
    lets it through). *)
Inductive Outcome (A : Type) : Type :=
| Return (a : A)
| Raise (e : exn)
| Exit (code : Z).

Arguments Return {A}.
Arguments Raise {A}.
Arguments Exit {A}.

(** The exit status of the interpreter: 0 when the script ends normally, 1
    on an uncaught exception, the argument of [sys.exit] otherwise. *)
Definition exit_code {A : Type} (o : Outcome A) : Z :=
  match o with
  | Return _ => 0
  | Raise _ => 1
  | Exit c => c
  end.

Definition M (World A : Type) : Type := World -> Outcome A * World * list Event.

Section Monad.
Context {World : Type}.

Definition ret {A} (a : A) : M World A := fun w => (Return a, w, []).

Definition bind {A B} (m : M World A) (f : A -> M World B) : M World B :=
  fun w =>
    match m w with
    | (Return a, w1, t1) =>
        let '(o, w2, t2) := f a w1 in (o, w2, t1 ++ t2)
    | (Raise e, w1, t1) => (Raise e, w1, t1)
    | (Exit c, w1, t1) => (Exit c, w1, t1)
    end.

Definition raise {A} (e : exn) : M World A := fun w => (Raise e, w, []).

Definition sys_exit {A} (code : Z) : M World A := fun w => (Exit code, w, []).

(** [try: m  except <class> as e: h e], the class given by [catches]. *)
Definition try_except {A} (m : M World A) (catches : exn -> bool)
    (h : exn -> M World A) : M World A :=
  fun w =>
    match m w with
    | (Raise e, w1, t1) =>
        if catches e
        then let '(o, w2, t2) := h e w1 in (o, w2, t1 ++ t2)
        else (Raise e, w1, t1)
    | r => r
    end.

Definition emit (e : Event) : M World unit := fun w => (Return tt, w, [e]).

(** A call that may change the world; [ev] logs it with its answer. *)
Definition call {A} (op : World -> answer A * World) (ev : answer A -> Event)
    : M World A :=
  fun w =>
    let '(r, w1) := op w in
    (match r with inl e => Raise e | inr a => Return a end, w1, [ev r]).

(** A call that only reads the world. *)
Definition query {A} (op : World -> answer A) (ev : answer A -> Event)
    : M World A :=
  call (fun w => (op w, w)) ev.
End Monad.

Definition Exception (e : exn) : bool := true.

Declare Scope py_scope.
Delimit Scope py_scope with py.
Notation "x <- m ;; k" := (bind m (fun x => k))
  (at level 100, m at next level, right associativity) : py_scope.
Notation "m ;; k" := (bind m (fun _ => k))
  (at level 100, right associativity) : py_scope.

Local Open Scope py_scope.

(** ** The script *)

Definition name_is (v : option string) (s : string) : bool :=
  match v with
  | Some x => (x =? s)%string
  | None => false
  end.

(** [f.read(8192)] on a file opened in binary mode: the next 8192 bytes, or
    what is left of the file. *)
Definition chunk_size : nat := Z.to_nat 8192.

(** [hashlib.md5()]: the object stands for the message fed to it so far;
    [update] appends, [hexdigest] is the library's MD5 of that message. *)
Definition md5_new : list byte := [].
Definition md5_update (h chunk : list byte) : list byte := h ++ chunk.

(** The loop of [get_file_md5]: [hash_md5.update(chunk)] for each chunk
    that [f.read(8192)] gives, up to the first empty one; [f] is the bytes
    not read yet. *)
Fixpoint read_chunks (fuel : nat) (h f : list byte) : list byte :=
  match fuel with
  | O => h
  | S k =>
      match firstn chunk_size f with
      | [] => h
      | chunk => read_chunks k (md5_update h chunk) (skipn chunk_size f)
      end
  end.

Arguments read_chunks : simpl never.

(** [format_bytes]: the size in MB (printed with two decimals). *)
Definition format_bytes (size : Z) : Q := (inject_Z size / inject_Z (2 ^ 20))%Q.

(** [a / b] on two [int]s. *)
Definition py_truediv {World} (a b : Z) : M World Q :=
  if b =? 0 then raise ZeroDivisionError else ret (inject_Z a / inject_Z b)%Q.

Definition newline : string := String (ascii_of_nat 10) EmptyString.

Section Script.
Context {World : Type} (sv : Services World).

Definition say (m : Message) : M World unit := emit (ESay m).

Definition sleep (seconds : Z) : M World unit :=
  fun w => (Return tt, time_sleep sv seconds w, [ESleep seconds]).

(** *** Section 1: compression *)

Definition ffmpeg_command (input_path : string) (crf : Z) (output_path : string)
    : list string :=
  [ "ffmpeg"; "-y"; "-i"; input_path; "-c:v"; "libvpx-vp9";
    "-crf"; str_of_int crf; "-b:v"; "0"; "-b:a"; "96k"; "-c:a"; "libopus";
    "-threads"; "4"; "-row-mt"; "1"; "-loglevel"; "error"; "-stats";
    output_path ].

Definition compress_video (input_path : string) (crf : Z) : M World string :=
  let output_dir := "compressed" in
  try_except (call (path_mkdir sv output_dir) (EMkdir output_dir))
    is_OSError
    (fun e => say (MsgMkdirFailed output_dir e) ;; sys_exit 1) ;;
  let output_path :=
    (output_dir ++ "/" ++ path_name sv (with_suffix sv input_path ".webm"))%string in
  let command := ffmpeg_command input_path crf output_path in
  say (MsgCompressing (path_name sv input_path) (path_name sv output_path) crf) ;;
  try_except
    (call (subprocess_run sv command) (ERun command) ;;
     say MsgCompressionFinished ;;
     ret output_path)
    (fun e => is_CalledProcessError e || is_FileNotFoundError e)
    (fun e =>
       if is_CalledProcessError e
       then say MsgFfmpegFailed ;; sys_exit 1
       else say MsgFfmpegNotFound ;; sys_exit 1).

(** *** Section 2: upload *)

Definition create_asset_folder (site_id : option string) (folder_name : string)
    : M World string :=
  folders_list <- call (assets_list_folders sv site_id) (EListFolders site_id) ;;
  let existing_folder :=
    find (fun folder => name_is (display_name folder) folder_name) folders_list in
  match existing_folder with   (* [if existing_folder:], an object is truthy *)
  | Some folder => ret (folder_id folder)
  | None =>
      say (MsgCreatingFolder folder_name) ;;
      response <- call (assets_create_folder sv site_id folder_name)
                       (ECreateFolder site_id folder_name) ;;
      ret (folder_id response)
  end.

Definition get_file_md5 (path : string) : M World string :=
  f <- query (open_rb sv path) (EOpen path) ;;
  let hash_md5 := read_chunks (S (List.length f)) md5_new f in
  ret (md5_hexdigest sv hash_md5).

(** One turn of the [for] loop of [poll_for_asset_url]: [Some u] when the
    body executes [return u], [None] when it falls through to the next
    turn. *)
Definition poll_attempt (site_id : option string) (asset : string) (delay i : Z)
    : M World (option string) :=
  try_except
    (all_assets <- call (assets_list sv site_id) (EListAssets site_id) ;;
     let target_asset := find (fun a => (asset_id a =? asset)%string) all_assets in
     returned <-
       match target_asset with   (* [if target_asset:], an object is truthy *)
       | Some a =>
           let url := py_or (py_or (original_url a) (hosted_url a)) (url a) in
           if truthy url then ret url
           else say (MsgUrlGenerating (i + 1)) ;; ret None
       | None => say (MsgNotListedYet (i + 1)) ;; ret None
       end ;;
     match returned with
     | Some u => ret (Some u)
     | None => sleep delay ;; ret None
     end)
    Exception
    (fun e => say (MsgAttemptFailed (i + 1) e) ;; sleep delay ;; ret None).

(** [for i in range(retries)], [todo] turns left, then [return None]. *)
Fixpoint poll_loop (site_id : option string) (asset : string) (delay : Z)
    (todo : nat) (i : Z) : M World (option string) :=
  match todo with
  | O => ret None
  | S k =>
      returned <- poll_attempt site_id asset delay i ;;
      match returned with
      | Some u => ret (Some u)
      | None => poll_loop site_id asset delay k (i + 1)
      end
  end.

Definition poll_for_asset_url (site_id : option string) (asset : string)
    (retries delay : Z) : M World (option string) :=
  say (MsgPolling (retries * delay)) ;;
  poll_loop site_id asset delay (Z.to_nat retries) 0.

Definition form_data (d : UploadDetails) : list (string * string) :=
  [ ("acl", acl d); ("bucket", bucket d);
    ("X-Amz-Algorithm", x_amz_algorithm d);
    ("X-Amz-Credential", x_amz_credential d); ("X-Amz-Date", x_amz_date d);
    ("key", key d); ("Policy", policy d);
    ("X-Amz-Signature", x_amz_signature d);
    ("success_action_status", success_action_status d);
    ("Content-Type", content_type d); ("Cache-Control", cache_control d) ].

Definition upload_local_asset (site_id : option string)
    (folder file_path : string) : M World unit :=
  try_except
    (let file_name := os_path_basename sv file_path in
     say (MsgPreparing file_name) ;;
     file_hash <- get_file_md5 file_path ;;
     upload_init <- call (assets_create sv site_id folder file_name file_hash)
                         (ECreateAsset site_id folder file_name file_hash) ;;
     let asset := upload_id upload_init in
     let target := upload_url upload_init in
     let d := upload_details upload_init in
     f <- query (open_rb sv file_path) (EOpen file_path) ;;
     let files := (file_name, f, content_type d) in
     say MsgUploading ;;
     status_code <- call (requests_post sv target (form_data d) files)
                         (EPost target (form_data d) files) ;;
     if status_code =? 201 then
       say MsgS3Successful ;;
       final_url <- poll_for_asset_url site_id asset 20 5 ;;
       match final_url with
       | Some u => if str_truthy u then say (MsgFileReady u) else say MsgTimedOut
       | None => say MsgTimedOut
       end
     else say (MsgFailedStatus status_code))
    Exception
    (fun e => say (MsgErrorDuringUpload e)).

(** *** Section 3: main *)

(** The module's top level, before [main()]: both variables must be set
    (and not empty). *)
Definition check_environment : M World unit :=
  fun w =>
    (if negb (truthy (os_getenv sv "WEBFLOW_API_TOKEN" w))
        || negb (truthy (os_getenv sv "SITE_ID" w))
     then say MsgMissingEnv ;; sys_exit 1
     else ret tt) w.

(** [# 1. Validate Input] *)
Definition validate_input (input_file : string) : M World unit :=
  fun w =>
    let input_path := pathlib_Path sv input_file in
    let is_file := path_is_file sv input_path w in
    (emit (EIsFile input_path is_file) ;;
     if negb is_file then say (MsgInputNotFound input_file) ;; sys_exit 1
     else ret tt) w.

(** [# 3. Compare Sizes] *)
Definition compare_sizes (input_path compressed_path : string) : M World unit :=
  original_size <- query (stat_st_size sv input_path) (EStat input_path) ;;
  new_size <- query (stat_st_size sv compressed_path) (EStat compressed_path) ;;
  ratio <- py_truediv (original_size - new_size) original_size ;;
  let saved_percent := (ratio * inject_Z 100)%Q in
  say (MsgSizeComparison (format_bytes original_size) (format_bytes new_size)
         saved_percent).

Definition confirm_prompt (compressed_path : string) : string :=
  (newline ++ "Do you want to upload '" ++ path_name sv compressed_path
   ++ "' to Webflow? (Y/n): ")%string.

(** [# 4. Ask User for Confirmation], and the upload. *)
Definition confirm_and_upload (compressed_path : string) : M World unit :=
  line <- call (input sv (confirm_prompt compressed_path))
               (EInput (confirm_prompt compressed_path)) ;;
  let confirm := lower (strip line) in
  if (confirm =? "y")%string || (confirm =? EmptyString)%string then
    fun w =>
      (let site_id := os_getenv sv "SITE_ID" w in
       let folder_name := "Video Uploads" in
       folder <- create_asset_folder site_id folder_name ;;
       if str_truthy folder
       then upload_local_asset site_id folder compressed_path
       else ret tt) w
  else say MsgCancelled.

Definition main (input_file : string) (crf : Z) : M World unit :=
  let input_path := pathlib_Path sv input_file in
  validate_input input_file ;;
  compressed_path <- compress_video input_path crf ;;
  compare_sizes input_path compressed_path ;;
  confirm_and_upload compressed_path.

(** The whole script, after [argparse] has read the command line. *)
Definition script (input_file : string) (crf : Z) : M World unit :=
  check_environment ;;
  main input_file crf.

End Script.

(** ** A simulated world

    A small concrete world to run the script in: the folders of the site,
    the answers the asset listing will give to the coming requests (an empty
    listing once they are used up), and the seconds slept so far.  What the
    other parties answer is fixed by a [Scenario]. *)

Record Sim : Type := {
  sim_folders : list AssetFolder;
  sim_listings : list (answer (list Asset));
  sim_slept : Z
}.

Record Scenario : Type := {
  sc_env : string -> option string;
  sc_is_file : bool;
  sc_mkdir : answer unit;
  sc_ffmpeg : answer unit;
  sc_size : string -> answer Z;
  sc_file : string -> answer (list byte);
  sc_input : answer string;
  sc_folders_down : option exn;      (* the folder API fails with this *)
  sc_create_asset : answer AssetUpload;
  sc_post : answer Z
}.

Definition sim_list_folders (sc : Scenario) (w : Sim)
    : answer (list AssetFolder) * Sim :=
  match sc_folders_down sc with
  | Some e => (inl e, w)
  | None => (inr (sim_folders w), w)
  end.

Definition sim_create_folder (sc : Scenario) (name : string) (w : Sim)
    : answer AssetFolder * Sim :=
  match sc_folders_down sc with
  | Some e => (inl e, w)
  | None =>
      let f := {| folder_id := ("folder-"
                     ++ str_of_int (Z.of_nat (List.length (sim_folders w))))%string;
                  display_name := Some name |} in
      (inr f, {| sim_folders := sim_folders w ++ [f];
                 sim_listings := sim_listings w;
                 sim_slept := sim_slept w |})
  end.

Definition sim_list_assets (w : Sim) : answer (list Asset) * Sim :=
  match sim_listings w with
  | [] => (inr [], w)
  | r :: rest => (r, {| sim_folders := sim_folders w;
                        sim_listings := rest;
                        sim_slept := sim_slept w |})
  end.

Definition sim_sleep (seconds : Z) (w : Sim) : Sim :=
  {| sim_folders := sim_folders w;
     sim_listings := sim_listings w;
     sim_slept := sim_slept w + seconds |}.

(** A stand-in for the digest: the length of the message, in decimal. *)
Definition sim_digest (message : list byte) : string :=
  str_of_int (Z.of_nat (List.length message)).

(** The text after the last [/]. *)
Fixpoint after_last_slash (s : string) : string :=
  match s with
  | EmptyString => EmptyString
  | String c r =>
      if existsb (Ascii.eqb "/"%char) (list_ascii_of_string r)
      then after_last_slash r
      else if Ascii.eqb c "/"%char then r else s
  end.

(** The text before the last [.] of a name that has one. *)
Fixpoint drop_suffix (s : string) : string :=
  match s with
  | EmptyString => EmptyString
  | String c r =>
      if Ascii.eqb c "."%char
         && negb (existsb (Ascii.eqb "."%char) (list_ascii_of_string r))
      then EmptyString
      else String c (drop_suffix r)
  end.

Definition sim_services (sc : Scenario) : Services Sim := {|
  assets_list_folders := fun _ => sim_list_folders sc;
  assets_create_folder := fun _ => sim_create_folder sc;
  assets_create := fun _ _ _ _ w => (sc_create_asset sc, w);
  assets_list := fun _ => sim_list_assets;
  requests_post := fun _ _ _ w => (sc_post sc, w);
  time_sleep := sim_sleep;
  os_getenv := fun name _ => sc_env sc name;
  path_is_file := fun _ _ => sc_is_file sc;
  path_mkdir := fun _ w => (sc_mkdir sc, w);
  subprocess_run := fun _ w => (sc_ffmpeg sc, w);
  stat_st_size := fun p _ => sc_size sc p;
  open_rb := fun p _ => sc_file sc p;
  input := fun _ w => (sc_input sc, w);
  md5_hexdigest := sim_digest;
  os_path_basename := after_last_slash;
  pathlib_Path := fun s => s;
  path_name := after_last_slash;
  with_suffix := fun p s => (drop_suffix p ++ s)%string
|}.

Definition sim_details (declared_status : string) : UploadDetails := {|
  acl := "public-read";
  bucket := "assets";
  x_amz_algorithm := "AWS4-HMAC-SHA256";
  x_amz_credential := "credential";
  x_amz_date := "20240101T000000Z";
  key := "clip.webm";
  policy := "policy";
  x_amz_signature := "signature";
  success_action_status := declared_status;
  content_type := "video/webm";
  cache_control := "max-age=31536000"
|}.

Definition sim_upload (declared_status : string) : AssetUpload := {|
  upload_id := "asset-1";
  upload_url := "https://s3.example/upload";
  upload_details := sim_details declared_status
|}.

(** Everything works: a 10-byte clip becomes a 4-byte one, the user
    answers [line], the upload target answers [status]. *)
Definition sim_scenario (line : string) (declared_status : string) (status : Z)
    : Scenario := {|
  sc_env := fun name =>
    if (name =? "SITE_ID")%string then Some "site-1"
    else if (name =? "WEBFLOW_API_TOKEN")%string then Some "token"
    else None;
  sc_is_file := true;
  sc_mkdir := inr tt;
  sc_ffmpeg := inr tt;
  sc_size := fun p => if (p =? "clip.mov")%string then inr 10 else inr 4;
  sc_file := fun _ => inr [x00; x01; x02; x03];
  sc_input := inr line;
  sc_folders_down := None;
  sc_create_asset := inr (sim_upload declared_status);
  sc_post := inr status
|}.

(** Variations on a scenario. *)
Definition with_input_size (size : Z) (sc : Scenario) : Scenario := {|
  sc_env := sc_env sc;
  sc_is_file := sc_is_file sc;
  sc_mkdir := sc_mkdir sc;
  sc_ffmpeg := sc_ffmpeg sc;
  sc_size := fun p => if (p =? "clip.mov")%string then inr size else sc_size sc p;
  sc_file := sc_file sc;
  sc_input := sc_input sc;
  sc_folders_down := sc_folders_down sc;
  sc_create_asset := sc_create_asset sc;
  sc_post := sc_post sc
|}.

Definition with_folders_down (e : exn) (sc : Scenario) : Scenario := {|
  sc_env := sc_env sc;
  sc_is_file := sc_is_file sc;
  sc_mkdir := sc_mkdir sc;
  sc_ffmpeg := sc_ffmpeg sc;
  sc_size := sc_size sc;
  sc_file := sc_file sc;
  sc_input := sc_input sc;
  sc_folders_down := Some e;
  sc_create_asset := sc_create_asset sc;
  sc_post := sc_post sc
|}.

Definition with_create_asset (r : answer AssetUpload) (sc : Scenario)
    : Scenario := {|
  sc_env := sc_env sc;
  sc_is_file := sc_is_file sc;
  sc_mkdir := sc_mkdir sc;
  sc_ffmpeg := sc_ffmpeg sc;
  sc_size := sc_size sc;
  sc_file := sc_file sc;
  sc_input := sc_input sc;
  sc_folders_down := sc_folders_down sc;
  sc_create_asset := r;
  sc_post := sc_post sc
|}.

Definition with_is_file (b : bool) (sc : Scenario) : Scenario := {|
  sc_env := sc_env sc;
  sc_is_file := b;
  sc_mkdir := sc_mkdir sc;
  sc_ffmpeg := sc_ffmpeg sc;
  sc_size := sc_size sc;
  sc_file := sc_file sc;
  sc_input := sc_input sc;
  sc_folders_down := sc_folders_down sc;
  sc_create_asset := sc_create_asset sc;
  sc_post := sc_post sc
|}.

Definition with_ffmpeg (r : answer unit) (sc : Scenario) : Scenario := {|
  sc_env := sc_env sc;
  sc_is_file := sc_is_file sc;
  sc_mkdir := sc_mkdir sc;
  sc_ffmpeg := r;
  sc_size := sc_size sc;
  sc_file := sc_file sc;
  sc_input := sc_input sc;
  sc_folders_down := sc_folders_down sc;
  sc_create_asset := sc_create_asset sc;
  sc_post := sc_post sc
|}.

Definition with_input (r : answer string) (sc : Scenario) : Scenario := {|
  sc_env := sc_env sc;
  sc_is_file := sc_is_file sc;
  sc_mkdir := sc_mkdir sc;
  sc_ffmpeg := sc_ffmpeg sc;
  sc_size := sc_size sc;
  sc_file := sc_file sc;
  sc_input := r;
  sc_folders_down := sc_folders_down sc;
  sc_create_asset := sc_create_asset sc;
  sc_post := sc_post sc
|}.

Definition sim_world (listings : list (answer (list Asset))) : Sim := {|
  sim_folders := [];
  sim_listings := listings;
  sim_slept := 0
|}.

Definition an_asset (id : string) (original hosted generic : option string)
    : Asset := {|
  asset_id := id;
  original_url := original;
  hosted_url := hosted;
  url := generic
|}.

(** The services of the scenario where everything works and the user
    answers [y]. *)
Definition sim_ok : Services Sim := sim_services (sim_scenario "y" "201" 201).

(** * The vocabulary of the properties *)

Section Vocabulary.
Context {World : Type} (sv : Services World).

(** ** Events by kind *)

Definition is_say (e : Event) : bool :=
  match e with ESay _ => true | _ => false end.

(** What a run of the poller can log. *)
Definition is_poll_event (e : Event) : bool :=
  match e with
  | EListAssets _ _ | ESleep _ => true
  | ESay (MsgPolling _) | ESay (MsgUrlGenerating _)
  | ESay (MsgNotListedYet _) | ESay (MsgAttemptFailed _ _) => true
  | _ => false
  end.

(** What the script logs before it measures the two files: the check of
    the environment, the check of the input path, the compression. *)
Definition is_setup_event (e : Event) : bool :=
  match e with
  | EIsFile _ _ | EMkdir _ _ | ERun _ _ => true
  | ESay MsgMissingEnv | ESay (MsgInputNotFound _) | ESay (MsgMkdirFailed _ _)
  | ESay (MsgCompressing _ _ _) | ESay MsgCompressionFinished
  | ESay MsgFfmpegFailed | ESay MsgFfmpegNotFound => true
  | _ => false
  end.

Definition is_stat (e : Event) : bool :=
  match e with EStat _ _ => true | _ => false end.

(** Neither a request to a remote party nor a read of the terminal. *)
Definition is_local_event (e : Event) : bool :=
  negb (is_remote_call e) && negb (is_input e).

(** What the script can log from the prompt on. *)
Definition is_upload_phase_event (e : Event) : bool :=
  match e with
  | EInput _ _ | EListFolders _ _ | ECreateFolder _ _ _
  | ECreateAsset _ _ _ _ _ | EListAssets _ _ | EPost _ _ _ _
  | ESleep _ | EOpen _ _ => true
  | ESay m =>
      match m with
      | MsgCreatingFolder _ | MsgPolling _ | MsgUrlGenerating _
      | MsgNotListedYet _ | MsgAttemptFailed _ _ | MsgPreparing _
      | MsgUploading | MsgS3Successful | MsgFileReady _ | MsgTimedOut
      | MsgFailedStatus _ | MsgErrorDuringUpload _ | MsgCancelled => true
      | _ => false
      end
  | _ => false
  end.

Definition is_folder_call (e : Event) : bool :=
  match e with EListFolders _ _ | ECreateFolder _ _ _ => true | _ => false end.

Definition is_create_asset (e : Event) : bool :=
  match e with ECreateAsset _ _ _ _ _ => true | _ => false end.

Definition is_post (e : Event) : bool :=
  match e with EPost _ _ _ _ => true | _ => false end.

(** A failed call of the folder resolution or of the upload initiation. *)
Definition fails_before_upload (e : Event) : bool :=
  match e with
  | EListFolders _ (inl _) | ECreateFolder _ _ (inl _)
  | ECreateAsset _ _ _ _ (inl _) => true
  | _ => false
  end.

(** ** The Availability Poller *)

(** The URL of an asset by priority, as the specification words it: the
    original URL if it is not empty, otherwise the hosted URL if it is not
    empty, otherwise the generic URL. *)
Definition url_by_priority (a : Asset) : option string :=
  if truthy (original_url a) then original_url a
  else if truthy (hosted_url a) then hosted_url a
  else url a.

(** At least one URL field of the asset is not empty. *)
Definition has_url (a : Asset) : bool :=
  truthy (original_url a) || truthy (hosted_url a) || truthy (url a).

(** The answer to a listing request does not show a URL for the asset: the
    request failed, or no entry of the listing with that id has one. *)
Definition never_exposes (asset : string) (r : answer (list Asset)) : Prop :=
  match r with
  | inl _ => True
  | inr l => forall a, In a l -> asset_id a = asset -> has_url a = false
  end.

(** The answers the service gives to [n] listing requests in a row, the
    client pausing [delay] seconds after each. *)
Fixpoint listing_answers (site : option string) (delay : Z) (n : nat) (w : World)
    : list (answer (list Asset)) :=
  match n with
  | O => []
  | S k =>
      let '(r, w1) := assets_list sv site w in
      r :: listing_answers site delay k (time_sleep sv delay w1)
  end.

(** What the loop prints about a turn that did not return. *)
Definition attempt_message (asset : string) (i : Z) (r : answer (list Asset))
    : Message :=
  match r with
  | inl e => MsgAttemptFailed (i + 1) e
  | inr l =>
      match find (fun a => (asset_id a =? asset)%string) l with
      | Some _ => MsgUrlGenerating (i + 1)
      | None => MsgNotListedYet (i + 1)
      end
  end.

(** The requests and pauses of [n] turns that never see a URL. *)
Definition fruitless_turns (site : option string) (delay : Z)
    (answers : list (answer (list Asset))) : list Event :=
  flat_map (fun r => [EListAssets site r; ESleep delay]) answers.

(** The poller's time-out as the specification words it: [n] listing
    requests, no URL, and a sleep between consecutive attempts only, that is
    [n - 1] sleeps, none after the last attempt. *)
Definition times_out_sleeping_between (n : nat)
    (run : Outcome (option string) * World * list Event) : Prop :=
  let '(o, _, t) := run in
  o = Return None
  /\ count is_list_assets t = n
  /\ count is_sleep t = (n - 1)%nat
  /\ is_sleep (last t (ESay MsgTimedOut)) = false.

(** ** The Folder Resolver *)

(** What the folder listing of the site answers in world [w]. *)
Definition folders_at (site : option string) (w : World)
    : answer (list AssetFolder) :=
  fst (assets_list_folders sv site w).

(** The folder API answers, and this client is the only writer: a listing
    request leaves the listing as it is, and a create request adds one
    folder, under the name asked for, to what was listed before. *)
Record sole_writer (site : option string) : Prop := {
  listing_is_stable : forall w,
    exists l,
      folders_at site w = inr l
      /\ folders_at site (snd (assets_list_folders sv site w)) = inr l;
  creation_adds_one : forall w name l,
    folders_at site w = inr l ->
    exists f l',
      fst (assets_create_folder sv site name w) = inr f
      /\ display_name f = Some name
      /\ folders_at site (snd (assets_create_folder sv site name w)) = inr l'
      /\ In f l'
      /\ (forall g, In g l' -> g = f \/ In g l)
}.

(** ** The Form Uploader *)

(** The digest [get_file_md5] computes for a file of contents [f]. *)
Definition digest_of (f : list byte) : string :=
  md5_hexdigest sv (read_chunks (S (List.length f)) md5_new f).

#[local] Arguments digest_of : simpl never.

(** The traces of [upload_local_asset], by how far the upload got. *)
Inductive upload_run (site : option string) (folder file_path : string)
    : list Event -> Prop :=
| upload_unreadable e :
    upload_run site folder file_path
      [ESay (MsgPreparing (os_path_basename sv file_path));
       EOpen file_path (inl e);
       ESay (MsgErrorDuringUpload e)]
| upload_not_initiated f e :
    upload_run site folder file_path
      [ESay (MsgPreparing (os_path_basename sv file_path));
       EOpen file_path (inr f);
       ECreateAsset site folder (os_path_basename sv file_path) (digest_of f)
         (inl e);
       ESay (MsgErrorDuringUpload e)]
| upload_reopen_fails f u e :
    upload_run site folder file_path
      [ESay (MsgPreparing (os_path_basename sv file_path));
       EOpen file_path (inr f);
       ECreateAsset site folder (os_path_basename sv file_path) (digest_of f)
         (inr u);
       EOpen file_path (inl e);
       ESay (MsgErrorDuringUpload e)]
| upload_post_fails f u f2 e :
    upload_run site folder file_path
      [ESay (MsgPreparing (os_path_basename sv file_path));
       EOpen file_path (inr f);
       ECreateAsset site folder (os_path_basename sv file_path) (digest_of f)
         (inr u);
       EOpen file_path (inr f2);
       ESay MsgUploading;
       EPost (upload_url u) (form_data (upload_details u))
         (os_path_basename sv file_path, f2, content_type (upload_details u))
         (inl e);
       ESay (MsgErrorDuringUpload e)]
| upload_rejected f u f2 code :
    code <> 201 ->
    upload_run site folder file_path
      [ESay (MsgPreparing (os_path_basename sv file_path));
       EOpen file_path (inr f);
       ECreateAsset site folder (os_path_basename sv file_path) (digest_of f)
         (inr u);
       EOpen file_path (inr f2);
       ESay MsgUploading;
       EPost (upload_url u) (form_data (upload_details u))
         (os_path_basename sv file_path, f2, content_type (upload_details u))
         (inr code);
       ESay (MsgFailedStatus code)]
| upload_accepted f u f2 polled final :
    Forall (fun e => is_poll_event e = true) polled ->
    (final = MsgTimedOut \/ exists cdn_url, final = MsgFileReady cdn_url) ->
    upload_run site folder file_path
      ([ESay (MsgPreparing (os_path_basename sv file_path));
        EOpen file_path (inr f);
        ECreateAsset site folder (os_path_basename sv file_path) (digest_of f)
          (inr u);
        EOpen file_path (inr f2);
        ESay MsgUploading;
        EPost (upload_url u) (form_data (upload_details u))
          (os_path_basename sv file_path, f2, content_type (upload_details u))
          (inr 201);
        ESay MsgS3Successful]
       ++ polled ++ [ESay final]).

(** The verdict on the upload as the specification words it: success is
    reported exactly when the status code of the response is the one the
    session declares in [success_action_status]; any other code is reported
    as a failure that carries the code. *)
Definition success_iff_declared_status (t : list Event) : Prop :=
  forall site folder name hash session target data file code,
    In (ECreateAsset site folder name hash (inr session)) t ->
    In (EPost target data file (inr code)) t ->
    (In (ESay MsgS3Successful) t
     <-> str_of_int code = success_action_status (upload_details session))
    /\ (str_of_int code <> success_action_status (upload_details session) ->
        In (ESay (MsgFailedStatus code)) t).

(** ** The script *)

(** The answer to the prompt counts as a yes. *)
Definition accepts (line : string) : Prop :=
  lower (strip line) = "y" \/ lower (strip line) = EmptyString.

(** The traces of [create_asset_folder], with how it ends. *)
Inductive resolver_run (site : option string) (name : string)
    : Outcome string -> list Event -> Prop :=
| resolver_listing_fails e :
    resolver_run site name (Raise e) [EListFolders site (inl e)]
| resolver_found l f :
    find (fun folder => name_is (display_name folder) name) l = Some f ->
    resolver_run site name (Return (folder_id f)) [EListFolders site (inr l)]
| resolver_create_fails l e :
    find (fun folder => name_is (display_name folder) name) l = None ->
    resolver_run site name (Raise e)
      [EListFolders site (inr l); ESay (MsgCreatingFolder name);
       ECreateFolder site name (inl e)]
| resolver_created l f :
    find (fun folder => name_is (display_name folder) name) l = None ->
    resolver_run site name (Return (folder_id f))
      [EListFolders site (inr l); ESay (MsgCreatingFolder name);
       ECreateFolder site name (inr f)].

(** The traces of step 4 of [main], the prompt and what follows. *)
Inductive confirm_run (compressed_path : string)
    : Outcome unit -> list Event -> Prop :=
| confirm_no_answer e :
    confirm_run compressed_path (Raise e)
      [EInput (confirm_prompt sv compressed_path) (inl e)]
| confirm_declined line :
    ~ accepts line ->
    confirm_run compressed_path (Return tt)
      [EInput (confirm_prompt sv compressed_path) (inr line); ESay MsgCancelled]
| confirm_unresolved line site e t :
    accepts line ->
    resolver_run site "Video Uploads" (Raise e) t ->
    confirm_run compressed_path (Raise e)
      (EInput (confirm_prompt sv compressed_path) (inr line) :: t)
| confirm_empty_id line site id t :
    accepts line ->
    resolver_run site "Video Uploads" (Return id) t ->
    str_truthy id = false ->
    confirm_run compressed_path (Return tt)
      (EInput (confirm_prompt sv compressed_path) (inr line) :: t)
| confirm_uploaded line site id t1 t2 :
    accepts line ->
    resolver_run site "Video Uploads" (Return id) t1 ->
    str_truthy id = true ->
    upload_run site id compressed_path t2 ->
    confirm_run compressed_path (Return tt)
      (EInput (confirm_prompt sv compressed_path) (inr line) :: t1 ++ t2).

(** The size report of step 3. *)
Definition size_report (original_size new_size : Z) : Message :=
  MsgSizeComparison (format_bytes original_size) (format_bytes new_size)
    ((inject_Z (original_size - new_size) / inject_Z original_size)
     * inject_Z 100)%Q.

(** The traces of the whole script, by where it ends. *)
Inductive script_run (input_file : string)
    : Outcome unit -> list Event -> Prop :=
| script_stops_in_setup o setup :
    Forall (fun e => is_setup_event e = true) setup ->
    (o = Exit 1 \/ exists e, o = Raise e) ->
    script_run input_file o setup
| script_original_unmeasured setup e :
    Forall (fun e => is_setup_event e = true) setup ->
    script_run input_file (Raise e)
      (setup ++ [EStat (pathlib_Path sv input_file) (inl e)])
| script_compressed_unmeasured setup compressed_path original_size e :
    Forall (fun e => is_setup_event e = true) setup ->
    script_run input_file (Raise e)
      (setup ++ [EStat (pathlib_Path sv input_file) (inr original_size);
                 EStat compressed_path (inl e)])
| script_divides_by_zero setup compressed_path new_size :
    Forall (fun e => is_setup_event e = true) setup ->
    script_run input_file (Raise ZeroDivisionError)
      (setup ++ [EStat (pathlib_Path sv input_file) (inr 0);
                 EStat compressed_path (inr new_size)])
| script_reaches_prompt setup compressed_path original_size new_size o t :
    Forall (fun e => is_setup_event e = true) setup ->
    original_size <> 0 ->
    confirm_run compressed_path o t ->
    script_run input_file o
      (setup ++ [EStat (pathlib_Path sv input_file) (inr original_size);
                 EStat compressed_path (inr new_size);
                 ESay (size_report original_size new_size)] ++ t).

(** The upload goes ahead: the folder resolution, its first step, starts. *)
Definition upload_proceeds (t : list Event) : Prop :=
  exists site r, In (EListFolders site r) t.

(** The claim as the specification words it: such a failure ends the
    process with exit code 1. *)
Definition remote_failure_is_fatal
    (run : Outcome unit * World * list Event) : Prop :=
  let '(o, _, t) := run in
  forall ev, In ev t -> fails_before_upload ev = true -> exit_code o = 1.

(** ** Measures of a trace *)

Definition is_run (e : Event) : bool :=
  match e with ERun _ _ => true | _ => false end.

Definition is_mkdir (e : Event) : bool :=
  match e with EMkdir _ _ => true | _ => false end.

Definition is_list_folders (e : Event) : bool :=
  match e with EListFolders _ _ => true | _ => false end.

(** The seconds spent in [time.sleep]. *)
Fixpoint slept (t : list Event) : Z :=
  match t with
  | [] => 0
  | ESleep seconds :: rest => seconds + slept rest
  | _ :: rest => slept rest
  end.

(** The last word of [upload_local_asset] on an upload. *)
Definition is_verdict (e : Event) : bool :=
  match e with
  | ESay (MsgFileReady _) | ESay MsgTimedOut | ESay (MsgFailedStatus _)
  | ESay (MsgErrorDuringUpload _) => true
  | _ => false
  end.

(** The site a request to the Webflow API is addressed to. *)
Definition addressed_to (site : option string) (e : Event) : Prop :=
  match e with
  | EListFolders s _ | ECreateFolder s _ _ | ECreateAsset s _ _ _ _
  | EListAssets s _ => s = site
  | _ => True
  end.

(** An [open] of [path], logged with what the file system answered. *)
Definition opens (path : string) (e : Event) : Prop :=
  match e with
  | EOpen p r => p = path /\ exists w, r = open_rb sv path w
  | _ => True
  end.

(** Both variables the script needs are set, and not empty. *)
Definition environment_ready (w : World) : bool :=
  truthy (os_getenv sv "WEBFLOW_API_TOKEN" w)
  && truthy (os_getenv sv "SITE_ID" w).

(** What the script can log once the video is compressed: the two size
    measurements, the size report, and the events of the upload phase. *)
Definition is_late_event (e : Event) : bool :=
  match e with
  | EStat _ _ | ESay (MsgSizeComparison _ _ _) => true
  | _ => is_upload_phase_event e
  end.

(** Where [compress_video] writes the compressed file. *)
Definition output_path_of (input_path : string) : string :=
  ("compressed" ++ "/" ++ path_name sv (with_suffix sv input_path ".webm"))%string.

End Vocabulary.

Arguments digest_of : simpl never.

(** The run in which the folder API answers 500. *)
Definition folders_down_run : Outcome unit * Sim * list Event :=
  script (sim_services
            (with_folders_down (ApiError 500) (sim_scenario "y" "201" 201)))
    "clip.mov" 32 (sim_world []).

(** The run on a path that is no file. *)
Definition missing_file_run : Outcome unit * Sim * list Event :=
  script (sim_services (with_is_file false (sim_scenario "y" "201" 201)))
    "clip.mov" 32 (sim_world []).

(** The run in which ffmpeg ends with a non-zero status. *)
Definition ffmpeg_failed_run : Outcome unit * Sim * list Event :=
  script (sim_services
            (with_ffmpeg (inl (CalledProcessError 1))
               (sim_scenario "y" "201" 201)))
    "clip.mov" 32 (sim_world []).

(** The run in which the terminal is closed at the prompt. *)
Definition no_answer_run : Outcome unit * Sim * list Event :=
  script (sim_services (with_input (inl EOFError) (sim_scenario "y" "201" 201)))
    "clip.mov" 32 (sim_world []).

(** The run in which everything works and the third listing shows the
    URL. *)
Definition happy_run : Outcome unit * Sim * list Event :=
  script sim_ok "clip.mov" 32
    (sim_world [inl RequestException; inr [];
                inr [an_asset "asset-1" None (Some "https://cdn/clip") None]]).

(** The upload alone, in the same world. *)
Definition happy_upload : Outcome unit * Sim * list Event :=
  upload_local_asset sim_ok (Some "site-1") "folder-0" "compressed/clip.webm"
    (sim_world [inl RequestException; inr [];
                inr [an_asset "asset-1" None (Some "https://cdn/clip") None]]).

(** ** Tactics *)

(** Closes the side goal of a phase that did not return: [H] says how the
    phase can end. *)
Ltac phase_stopped H :=
  repeat match type of H with
         | _ \/ _ => destruct H as [H | H]
         | exists _, _ => destruct H as [? H]
         end;
  try discriminate H; try (injection H as ->); eauto.

(** Splits a membership in a list written out, dropping the members that
    cannot be the event looked for. *)
Ltac in_cases Hin :=
  simpl in Hin;
  repeat (destruct Hin as [Hin | Hin]; [try discriminate Hin |]);
  try contradiction.

(** Goes through a trace written out, event by event. *)
Ltac trace_all :=
  repeat first [ assumption | exact I | reflexivity | apply Forall_cons
               | apply Forall_nil | apply Forall_app; split ].

(** The runs of [upload_local_asset] that never reach the polling. *)
Ltac quiet_upload :=
  intros [= <- <- <-];
  split; [trace_all |]; split; [trace_all |];
  split; [unfold count; simpl; lia |]; split; [simpl; lia |];
  split; [ let Hin := fresh "Hin" in intros Hin; in_cases Hin
         | let H := fresh "H" in intros [H | H]; exfalso; apply H; reflexivity ].

(** * Properties *)

(** ** Runs in the simulated world *)

(** The script at work: the user confirms, the folder is created, the
    upload is accepted, the first listing request fails, the second does not
    list the asset yet, the third shows its hosted URL. *)
Example script_uploads_and_resolves :
  let '(o, w, t) :=
    script sim_ok "clip.mov" 32
      (sim_world [inl RequestException; inr [];
                  inr [an_asset "asset-1" None (Some "https://cdn/clip") None]]) in
  exit_code o = 0
  /\ last t (ESay MsgCancelled) = ESay (MsgFileReady "https://cdn/clip")
  /\ count is_create_folder t = 1%nat
  /\ count is_list_assets t = 3%nat
  /\ count is_sleep t = 2%nat
  /\ sim_slept w = 10.
Proof. vm_compute. repeat split. Qed.

(** A missing input file ends the script at once, with exit code 1. *)
Example script_rejects_missing_file :
  script (sim_services
            {| sc_env := sc_env (sim_scenario "y" "201" 201);
               sc_is_file := false;
               sc_mkdir := inr tt;
               sc_ffmpeg := inr tt;
               sc_size := fun _ => inl FileNotFoundError;
               sc_file := fun _ => inl FileNotFoundError;
               sc_input := inl EOFError;
               sc_folders_down := None;
               sc_create_asset := inl (ApiError 500);
               sc_post := inl RequestException |})
    "nothing.mov" 32 (sim_world [])
  = (Exit 1, sim_world [],
     [EIsFile "nothing.mov" false; ESay (MsgInputNotFound "nothing.mov")]).
Proof. reflexivity. Qed.

(** Display names are compared as they are, letter case included. *)
Example name_is_case_sensitive :
  name_is (Some "video uploads") "Video Uploads" = false
  /\ name_is (Some "Video Uploads") "Video Uploads" = true
  /\ name_is None "Video Uploads" = false.
Proof. repeat split. Qed.

Example strip_and_lower :
  lower (strip "  Y ") = "y"
  /\ lower (strip "   ") = EmptyString
  /\ lower (strip "Yes") = "yes"
  /\ strip " a b " = "a b".
Proof. repeat split. Qed.

(** ** The monad *)

Section MonadFacts.
Context {World : Type}.

Lemma bind_Return {A B} (m : M World A) (f : A -> M World B) w a w1 t1 :
  m w = (Return a, w1, t1) ->
  bind m f w = (let '(o, w2, t2) := f a w1 in (o, w2, t1 ++ t2)).
Proof. intros H. unfold bind. rewrite H. reflexivity. Qed.

Lemma bind_Raise {A B} (m : M World A) (f : A -> M World B) w e w1 t1 :
  m w = (Raise e, w1, t1) -> bind m f w = (Raise e, w1, t1).
Proof. intros H. unfold bind. rewrite H. reflexivity. Qed.

Lemma bind_Exit {A B} (m : M World A) (f : A -> M World B) w c w1 t1 :
  m w = (Exit c, w1, t1) -> bind m f w = (Exit c, w1, t1).
Proof. intros H. unfold bind. rewrite H. reflexivity. Qed.

(** A run of [x <- m ;; f x] is a run of [m] that returns followed by a run
    of [f], or a run of [m] that an exception or [sys.exit] ends. *)
Lemma bind_inv {A B} (m : M World A) (f : A -> M World B) w o w' t :
  bind m f w = (o, w', t) ->
  (exists a w1 t1 t2,
      m w = (Return a, w1, t1) /\ f a w1 = (o, w', t2) /\ t = t1 ++ t2)
  \/ (exists e, m w = (Raise e, w', t) /\ o = Raise e)
  \/ (exists c, m w = (Exit c, w', t) /\ o = Exit c).
Proof.
  unfold bind. destruct (m w) as [[[a | e | c] w1] t1].
  - destruct (f a w1) as [[o2 w2] t2] eqn:Hf. intros H. inversion H; subst.
    left. exists a, w1, t1, t2. auto.
  - intros H. inversion H; subst. right. left. exists e. auto.
  - intros H. inversion H; subst. right. right. exists c. auto.
Qed.

Lemma count_app p (t1 t2 : list Event) :
  count p (t1 ++ t2) = (count p t1 + count p t2)%nat.
Proof. unfold count. rewrite filter_app, length_app. reflexivity. Qed.

Lemma count_zero_Forall p (t : list Event) :
  Forall (fun e => p e = false) t -> count p t = 0%nat.
Proof.
  unfold count. induction 1 as [| e t He _ IH]; simpl; [reflexivity |].
  rewrite He. exact IH.
Qed.

Lemma count_zero_not_In p (t : list Event) e :
  count p t = 0%nat -> p e = true -> ~ In e t.
Proof.
  unfold count. induction t as [| x t IH]; simpl; [tauto |].
  destruct (p x) eqn:Hx; simpl; [discriminate |].
  intros H He [-> | Hin]; [congruence | exact (IH H He Hin)].
Qed.

End MonadFacts.

(** ** The Availability Poller *)

Lemma or_chain_is_priority (a : Asset) :
  py_or (py_or (original_url a) (hosted_url a)) (url a) = url_by_priority a.
Proof.
  unfold py_or, url_by_priority.
  destruct (truthy (original_url a)) eqn:Ho; cbv iota; [now rewrite Ho |].
  destruct (truthy (hosted_url a)) eqn:Hh; reflexivity.
Qed.

Lemma priority_truthy (a : Asset) : truthy (url_by_priority a) = has_url a.
Proof.
  unfold url_by_priority, has_url.
  destruct (truthy (original_url a)) eqn:Ho; [exact Ho |].
  destruct (truthy (hosted_url a)) eqn:Hh; [exact Hh | reflexivity].
Qed.

(** In a listing whose ids are all different, the search by id finds the
    entry that carries the id. *)
Lemma find_by_id (l : list Asset) (a : Asset) :
  NoDup (map asset_id l) -> In a l ->
  find (fun x => (asset_id x =? asset_id a)%string) l = Some a.
Proof.
  induction l as [| x l IH]; simpl; [tauto |].
  intros Hnd [-> | Hin].
  - rewrite String.eqb_refl. reflexivity.
  - inversion Hnd as [| ? ? Hx Hl]; subst.
    destruct (String.eqb_spec (asset_id x) (asset_id a)) as [E | _].
    + exfalso. apply Hx. rewrite E. apply in_map. exact Hin.
    + apply IH; assumption.
Qed.

Section Poller.
Context {World : Type} (sv : Services World).

Lemma listing_answers_length site delay n w :
  List.length (listing_answers sv site delay n w) = n.
Proof.
  revert w. induction n as [| n IH]; intros w; simpl; [reflexivity |].
  destruct (assets_list sv site w) as [r w1]. simpl. rewrite IH. reflexivity.
Qed.

(** A turn whose listing shows the asset with a URL returns it at once. *)
Lemma poll_attempt_resolves site asset delay i w l w1 a :
  assets_list sv site w = (inr l, w1) ->
  find (fun x => (asset_id x =? asset)%string) l = Some a ->
  has_url a = true ->
  poll_attempt sv site asset delay i w
  = (Return (url_by_priority a), w1, [EListAssets site (inr l)]).
Proof.
  intros Hl Hf Hu. pose proof (priority_truthy a) as Ht. rewrite Hu in Ht.
  unfold poll_attempt, try_except, bind, call.
  rewrite Hl, Hf, or_chain_is_priority.
  destruct (url_by_priority a) as [u |]; [| discriminate].
  rewrite Ht. reflexivity.
Qed.

(** A turn whose answer shows no URL logs it, sleeps, and goes on. *)
Lemma poll_attempt_goes_on site asset delay i w r w1 :
  assets_list sv site w = (r, w1) ->
  never_exposes asset r ->
  poll_attempt sv site asset delay i w
  = (Return None, time_sleep sv delay w1,
     [EListAssets site r; ESay (attempt_message asset i r); ESleep delay]).
Proof.
  intros Hl Hn. unfold poll_attempt, try_except, bind, call. rewrite Hl.
  destruct r as [e | l]; simpl; [reflexivity |].
  destruct (find (fun a => (asset_id a =? asset)%string) l) as [a |] eqn:Hf;
    [| reflexivity].
  destruct (find_some _ _ Hf) as [Hin Hid].
  apply String.eqb_eq in Hid.
  rewrite or_chain_is_priority, priority_truthy, (Hn a Hin Hid). reflexivity.
Qed.

Lemma poll_loop_times_out site asset delay n : forall i w,
  Forall (never_exposes asset) (listing_answers sv site delay n w) ->
  exists w' t,
    poll_loop sv site asset delay n i w = (Return None, w', t)
    /\ filter (fun e => negb (is_say e)) t
       = fruitless_turns site delay (listing_answers sv site delay n w)
    /\ count is_list_assets t = n
    /\ count is_sleep t = n.
Proof.
  induction n as [| n IH]; intros i w H; cbn [poll_loop listing_answers] in *.
  - exists w, []. repeat split; reflexivity.
  - destruct (assets_list sv site w) as [r w1] eqn:Hl.
    inversion H as [| ? ? Hr Hrest]; subst.
    destruct (IH (i + 1) _ Hrest) as (w' & t & Hrun & Hshape & Hlist & Hsleep).
    eexists w', _. split; [| split; [| split]].
    + erewrite bind_Return by (eapply poll_attempt_goes_on; eassumption).
      cbv beta iota. rewrite Hrun. reflexivity.
    + simpl. rewrite Hshape. reflexivity.
    + unfold count in *. simpl. rewrite Hlist. reflexivity.
    + unfold count in *. simpl. rewrite Hsleep. reflexivity.
Qed.

Lemma poll_loop_after_errors site asset delay l a : forall errors n i w,
  listing_answers sv site delay n w = map inl errors ++ [inr l] ->
  find (fun x => (asset_id x =? asset)%string) l = Some a ->
  has_url a = true ->
  exists w' t,
    poll_loop sv site asset delay n i w = (Return (url_by_priority a), w', t)
    /\ count is_list_assets t = n
    /\ count is_sleep t = List.length errors.
Proof.
  induction errors as [| e errors IH]; intros n i w Hans Hf Hu.
  - destruct n as [| [| n]]; cbn [listing_answers map app] in Hans;
      try discriminate.
    + destruct (assets_list sv site w) as [r w1] eqn:Hl.
      inversion Hans; subst. exists w1, [EListAssets site (inr l)].
      split; [| split; reflexivity]. cbn [poll_loop].
      erewrite bind_Return by (eapply poll_attempt_resolves; eassumption).
      pose proof (priority_truthy a) as Ht. rewrite Hu in Ht.
      destruct (url_by_priority a) eqn:Hp; [reflexivity | discriminate].
    + destruct (assets_list sv site w) as [r w1].
      destruct (assets_list sv site (time_sleep sv delay w1)) as [r2 w2].
      discriminate.
  - destruct n as [| n]; cbn [listing_answers map app] in Hans; [discriminate |].
    destruct (assets_list sv site w) as [r w1] eqn:Hl.
    inversion Hans as [[Hr Hrest]]; subst r.
    destruct (IH n (i + 1) _ Hrest Hf Hu) as (w' & t & Hrun & Hlist & Hsleep).
    eexists w', _. split; [| split].
    + cbn [poll_loop]. erewrite bind_Return
        by (eapply poll_attempt_goes_on; [eassumption | exact I]).
      cbv beta iota. rewrite Hrun. reflexivity.
    + unfold count in *. simpl. rewrite Hlist. reflexivity.
    + unfold count in *. simpl. rewrite Hsleep. reflexivity.
Qed.

End Poller.

(** C5: when the first listing holds the target asset with at least one
    non-empty URL field (ids identify the entries of a listing), the poller
    returns within that attempt: its whole trace is the announcement and one
    listing request, with no sleep, and the URL it returns is the one chosen
    by priority (original, then hosted, then generic). *)
Theorem poller_resolves_on_first_listing {World : Type} (sv : Services World)
    (site : option string) (asset : string) (retries delay : Z)
    (w w1 : World) (l : list Asset) (a : Asset) :
  1 <= retries ->
  assets_list sv site w = (inr l, w1) ->
  NoDup (map asset_id l) ->
  In a l -> asset_id a = asset -> has_url a = true ->
  poll_for_asset_url sv site asset retries delay w
  = (Return (url_by_priority a), w1,
     [ESay (MsgPolling (retries * delay)); EListAssets site (inr l)])
  /\ truthy (url_by_priority a) = true.
Proof.
  intros Hr Hl Hnd Hin Hid Hu. split; [| now rewrite priority_truthy].
  unfold poll_for_asset_url.
  destruct (Z.to_nat retries) as [| n] eqn:Hn; [lia |].
  assert (Hf : find (fun x => (asset_id x =? asset)%string) l = Some a)
    by (subst asset; apply find_by_id; assumption).
  pose proof (poll_attempt_resolves sv site asset delay 0 w l w1 a Hl Hf Hu)
    as Hrun.
  pose proof (priority_truthy a) as Ht. rewrite Hu in Ht.
  unfold bind at 1. simpl say. unfold say, emit. cbn [poll_loop].
  unfold bind. rewrite Hrun.
  destruct (url_by_priority a); [reflexivity | discriminate].
Qed.

Lemma poller_resolves_on_first_listing_witness :
  poll_for_asset_url sim_ok None "asset-1" 20 5
    (sim_world [inr [an_asset "asset-1" None (Some "https://cdn/h") (Some "https://cdn/g")]])
  = (Return (Some "https://cdn/h"), sim_world [],
     [ESay (MsgPolling 100);
      EListAssets None
        (inr [an_asset "asset-1" None (Some "https://cdn/h") (Some "https://cdn/g")])])
  /\ truthy (Some "https://cdn/h") = true.
Proof.
  apply (poller_resolves_on_first_listing sim_ok None "asset-1" 20 5
           (sim_world [inr [an_asset "asset-1" None (Some "https://cdn/h")
                              (Some "https://cdn/g")]])
           (sim_world [])
           [an_asset "asset-1" None (Some "https://cdn/h") (Some "https://cdn/g")]
           (an_asset "asset-1" None (Some "https://cdn/h") (Some "https://cdn/g"))).
  - lia.
  - reflexivity.
  - constructor; [simpl; tauto | constructor].
  - left; reflexivity.
  - reflexivity.
  - reflexivity.
Defined.

(** C2, as stated, fails: with one attempt allowed and a listing that never
    shows the asset, the poller still sleeps after its only attempt. *)
Lemma poller_sleeps_after_last_attempt :
  1 <= 1
  /\ Forall (never_exposes "asset-1")
       (listing_answers sim_ok None 5 (Z.to_nat 1) (sim_world []))
  /\ snd (poll_for_asset_url sim_ok None "asset-1" 1 5 (sim_world []))
     = [ESay (MsgPolling 5); EListAssets None (inr []);
        ESay (MsgNotListedYet 1); ESleep 5]
  /\ ~ times_out_sleeping_between (Z.to_nat 1)
         (poll_for_asset_url sim_ok None "asset-1" 1 5 (sim_world [])).
Proof.
  split; [lia |]. split; [| split].
  - repeat constructor. simpl. tauto.
  - reflexivity.
  - vm_compute. intros (_ & _ & H & _). discriminate H.
Qed.

(** C2, amended: for every budget of at least one attempt and every run of
    listing answers that never show a URL for the target, the poller makes
    exactly [retries] listing requests and returns [None] (the time-out),
    and it sleeps the interval after every attempt, the last one included:
    apart from what it prints, its trace is each request followed by a
    sleep. *)
Theorem poller_times_out {World : Type} (sv : Services World)
    (site : option string) (asset : string) (retries delay : Z) (w : World) :
  1 <= retries ->
  Forall (never_exposes asset)
    (listing_answers sv site delay (Z.to_nat retries) w) ->
  exists w' t,
    poll_for_asset_url sv site asset retries delay w = (Return None, w', t)
    /\ count is_list_assets t = Z.to_nat retries
    /\ count is_sleep t = Z.to_nat retries
    /\ filter (fun e => negb (is_say e)) t
       = fruitless_turns site delay
           (listing_answers sv site delay (Z.to_nat retries) w).
Proof.
  intros _ H.
  destruct (poll_loop_times_out sv site asset delay _ 0 w H)
    as (w' & t & Hrun & Hshape & Hlist & Hsleep).
  exists w', (ESay (MsgPolling (retries * delay)) :: t).
  unfold poll_for_asset_url, bind, say, emit. rewrite Hrun.
  repeat split; assumption.
Qed.

Lemma poller_times_out_witness :
  exists w' t,
    poll_for_asset_url sim_ok None "asset-1" 2 5
      (sim_world [inl RequestException; inr [an_asset "asset-1" None None None]])
    = (Return None, w', t)
    /\ count is_list_assets t = 2%nat
    /\ count is_sleep t = 2%nat
    /\ filter (fun e => negb (is_say e)) t
       = [EListAssets None (inl RequestException); ESleep 5;
          EListAssets None (inr [an_asset "asset-1" None None None]); ESleep 5].
Proof.
  apply (poller_times_out sim_ok None "asset-1" 2 5
           (sim_world [inl RequestException;
                       inr [an_asset "asset-1" None None None]])).
  - lia.
  - repeat constructor. simpl. intros a [<- | []] _. reflexivity.
Defined.

(** C6: when the first [retries - 1] listing requests all fail and the last
    one answers with a listing that holds the target asset with a non-empty
    URL, the poller returns that URL (chosen by priority): each failed
    attempt costs one listing request and one sleep, none ends the loop. *)
Theorem poller_survives_errors {World : Type} (sv : Services World)
    (site : option string) (asset : string) (retries delay : Z) (w : World)
    (errors : list exn) (l : list Asset) (a : Asset) :
  1 <= retries ->
  listing_answers sv site delay (Z.to_nat retries) w
  = map inl errors ++ [inr l] ->
  NoDup (map asset_id l) ->
  In a l -> asset_id a = asset -> has_url a = true ->
  exists w' t,
    poll_for_asset_url sv site asset retries delay w
    = (Return (url_by_priority a), w', t)
    /\ truthy (url_by_priority a) = true
    /\ List.length errors = (Z.to_nat retries - 1)%nat
    /\ count is_list_assets t = Z.to_nat retries
    /\ count is_sleep t = (Z.to_nat retries - 1)%nat.
Proof.
  intros _ Hans Hnd Hin Hid Hu.
  assert (Hf : find (fun x => (asset_id x =? asset)%string) l = Some a)
    by (subst asset; apply find_by_id; assumption).
  assert (Hlen : List.length errors = (Z.to_nat retries - 1)%nat).
  { pose proof (listing_answers_length sv site delay (Z.to_nat retries) w) as E.
    rewrite Hans, length_app, length_map in E. simpl in E. lia. }
  destruct (poll_loop_after_errors sv site asset delay l a errors _ 0 w Hans Hf Hu)
    as (w' & t & Hrun & Hlist & Hsleep).
  exists w', (ESay (MsgPolling (retries * delay)) :: t).
  unfold poll_for_asset_url, bind, say, emit. rewrite Hrun.
  rewrite priority_truthy. repeat split; try assumption.
  rewrite <- Hlen. exact Hsleep.
Qed.

Lemma poller_survives_errors_witness :
  exists w' t,
    poll_for_asset_url sim_ok None "asset-1" 3 5
      (sim_world [inl RequestException; inl (ApiError 503);
                  inr [an_asset "asset-1" None None (Some "https://cdn/g")]])
    = (Return (Some "https://cdn/g"), w', t)
    /\ truthy (Some "https://cdn/g") = true
    /\ List.length [RequestException; ApiError 503] = 2%nat
    /\ count is_list_assets t = 3%nat
    /\ count is_sleep t = 2%nat.
Proof.
  apply (poller_survives_errors sim_ok None "asset-1" 3 5
           (sim_world [inl RequestException; inl (ApiError 503);
                       inr [an_asset "asset-1" None None (Some "https://cdn/g")]])
           [RequestException; ApiError 503]
           [an_asset "asset-1" None None (Some "https://cdn/g")]
           (an_asset "asset-1" None None (Some "https://cdn/g"))).
  - lia.
  - reflexivity.
  - constructor; [simpl; tauto | constructor].
  - left; reflexivity.
  - reflexivity.
  - reflexivity.
Defined.

(** ** The Folder Resolver *)

Lemma name_is_true (v : option string) (s : string) :
  name_is v s = true <-> v = Some s.
Proof.
  destruct v as [x |]; simpl; [| split; discriminate].
  rewrite String.eqb_eq. split; [intros -> | intros [= ->]]; reflexivity.
Qed.

Section Folders.
Context {World : Type} (sv : Services World).

(** The resolver on a listing that holds a folder of that name. *)
Lemma resolver_finds site name w l w1 f :
  assets_list_folders sv site w = (inr l, w1) ->
  find (fun folder => name_is (display_name folder) name) l = Some f ->
  create_asset_folder sv site name w
  = (Return (folder_id f), w1, [EListFolders site (inr l)]).
Proof.
  intros Hl Hf. unfold create_asset_folder, bind, call. rewrite Hl, Hf.
  reflexivity.
Qed.

(** The resolver on a listing that holds none, the create request
    answered. *)
Lemma resolver_creates site name w l w1 f w2 :
  assets_list_folders sv site w = (inr l, w1) ->
  find (fun folder => name_is (display_name folder) name) l = None ->
  assets_create_folder sv site name w1 = (inr f, w2) ->
  create_asset_folder sv site name w
  = (Return (folder_id f), w2,
     [EListFolders site (inr l); ESay (MsgCreatingFolder name);
      ECreateFolder site name (inr f)]).
Proof.
  intros Hl Hf Hc. unfold create_asset_folder, bind, call, say, emit.
  rewrite Hl, Hf, Hc. reflexivity.
Qed.

End Folders.

(** C4: with no other writer, resolving the same name twice in a row
    returns the same folder id both times.  If no folder of the site has
    that display name, the two calls issue exactly one create-folder request
    in total; if one has it (the very same string), the id returned is that
    of a folder with this display name and no create request is issued at
    all. *)
Theorem folder_resolution_idempotent {World : Type} (sv : Services World)
    (site : option string) (name : string) (w : World) :
  sole_writer sv site ->
  exists id w1 t1 w2 t2 l,
    folders_at sv site w = inr l
    /\ create_asset_folder sv site name w = (Return id, w1, t1)
    /\ create_asset_folder sv site name w1 = (Return id, w2, t2)
    /\ ((forall f, In f l -> display_name f <> Some name) ->
        count is_create_folder (t1 ++ t2) = 1%nat)
    /\ ((exists f, In f l /\ display_name f = Some name) ->
        count is_create_folder (t1 ++ t2) = 0%nat
        /\ exists f, In f l /\ display_name f = Some name /\ id = folder_id f).
Proof.
  intros [Hstable Hcreate].
  destruct (Hstable w) as (l & Hl & Hl1). unfold folders_at in Hl, Hl1.
  destruct (assets_list_folders sv site w) as [r w1] eqn:Ew.
  simpl in Hl, Hl1. subst r.
  destruct (find (fun folder => name_is (display_name folder) name) l)
    as [f |] eqn:Hf.
  - (* a folder of that name is listed *)
    destruct (assets_list_folders sv site w1) as [r w2] eqn:Ew1.
    simpl in Hl1. subst r.
    destruct (find_some _ _ Hf) as [Hin Hname]. apply name_is_true in Hname.
    exists (folder_id f), w1, [EListFolders site (inr l)],
      w2, [EListFolders site (inr l)], l.
    split; [unfold folders_at; now rewrite Ew |].
    split; [now apply resolver_finds |].
    split; [now apply resolver_finds |].
    split.
    + intros Hnone. exfalso. exact (Hnone f Hin Hname).
    + intros _. split; [reflexivity |]. exists f. auto.
  - (* none is: the first call creates it, the second finds it *)
    destruct (Hcreate w1 name l) as (f & l' & Hc & Hname & Hl' & Hin & Hold);
      [unfold folders_at; exact Hl1 |].
    destruct (assets_create_folder sv site name w1) as [r w2] eqn:Ec.
    simpl in Hc, Hl'. subst r. unfold folders_at in Hl'.
    destruct (assets_list_folders sv site w2) as [r w3] eqn:Ew2.
    simpl in Hl'. subst r.
    assert (Hf' : exists g,
               find (fun folder => name_is (display_name folder) name) l' = Some g).
    { destruct (find (fun folder => name_is (display_name folder) name) l')
        as [g |] eqn:Hg; [now exists g |].
      pose proof (find_none _ _ Hg f Hin) as Hno. simpl in Hno.
      apply name_is_true in Hname. congruence. }
    destruct Hf' as (g & Hg).
    assert (g = f) as ->.
    { destruct (find_some _ _ Hg) as [Hgin Hgname].
      destruct (Hold g Hgin) as [E | Hgl]; [exact E |].
      pose proof (find_none _ _ Hf g Hgl) as Hno. simpl in Hno. congruence. }
    exists (folder_id f), w2,
      [EListFolders site (inr l); ESay (MsgCreatingFolder name);
       ECreateFolder site name (inr f)],
      w3, [EListFolders site (inr l')], l.
    split; [unfold folders_at; now rewrite Ew |].
    split; [now apply (resolver_creates sv site name w l w1 f w2) |].
    split; [now apply resolver_finds |].
    split.
    + intros _. reflexivity.
    + intros (f0 & Hin0 & Hname0). exfalso.
      pose proof (find_none _ _ Hf f0 Hin0) as Hno. simpl in Hno.
      apply name_is_true in Hname0. congruence.
Qed.

Lemma folder_resolution_idempotent_witness :
  exists id w1 t1 w2 t2 l,
    folders_at sim_ok (Some "site-1") (sim_world []) = inr l
    /\ create_asset_folder sim_ok (Some "site-1") "Video Uploads" (sim_world [])
       = (Return id, w1, t1)
    /\ create_asset_folder sim_ok (Some "site-1") "Video Uploads" w1
       = (Return id, w2, t2)
    /\ ((forall f, In f l -> display_name f <> Some "Video Uploads") ->
        count is_create_folder (t1 ++ t2) = 1%nat)
    /\ ((exists f, In f l /\ display_name f = Some "Video Uploads") ->
        count is_create_folder (t1 ++ t2) = 0%nat
        /\ exists f,
             In f l /\ display_name f = Some "Video Uploads"
             /\ id = folder_id f).
Proof.
  apply (folder_resolution_idempotent sim_ok (Some "site-1") "Video Uploads"
           (sim_world [])).
  split.
  - intros w. exists (sim_folders w). split; reflexivity.
  - intros w name l Hl. injection Hl as <-.
    eexists _, _. split; [reflexivity |]. split; [reflexivity |].
    split; [reflexivity |]. simpl. split.
    + apply in_or_app. right. left. reflexivity.
    + intros g Hg. apply in_app_or in Hg.
      destruct Hg as [Hg | [<- | []]]; [right; exact Hg | left; reflexivity].
Defined.

(** ** The runs of the upload *)

Section UploadRuns.
Context {World : Type} (sv : Services World).

Lemma poll_attempt_run site asset delay i w :
  exists r w' t,
    poll_attempt sv site asset delay i w = (Return r, w', t)
    /\ Forall (fun e => is_poll_event e = true) t.
Proof.
  unfold poll_attempt, try_except, bind, call, say, sleep, emit, ret, Exception.
  destruct (assets_list sv site w) as [[e | l] w1]; simpl.
  - eexists _, _, _. split; [reflexivity |]. repeat constructor.
  - destruct (find (fun a => (asset_id a =? asset)%string) l) as [a |]; simpl.
    + destruct (truthy (py_or (py_or (original_url a) (hosted_url a)) (url a)));
        simpl.
      * destruct (py_or (py_or (original_url a) (hosted_url a)) (url a));
          simpl; eexists _, _, _; (split; [reflexivity |]); repeat constructor.
      * eexists _, _, _. split; [reflexivity |]. repeat constructor.
    + eexists _, _, _. split; [reflexivity |]. repeat constructor.
Qed.

Lemma poll_loop_run site asset delay n : forall i w,
  exists r w' t,
    poll_loop sv site asset delay n i w = (Return r, w', t)
    /\ Forall (fun e => is_poll_event e = true) t.
Proof.
  induction n as [| n IH]; intros i w; cbn [poll_loop].
  - exists None, w, []. split; [reflexivity | constructor].
  - destruct (poll_attempt_run site asset delay i w) as (r & w1 & t1 & H1 & F1).
    rewrite (bind_Return _ _ _ _ _ _ H1).
    destruct r as [u |]; cbv beta iota.
    + exists (Some u), w1, (t1 ++ []). split; [reflexivity |].
      rewrite app_nil_r. exact F1.
    + destruct (IH (i + 1) w1) as (r & w2 & t2 & H2 & F2). rewrite H2.
      exists r, w2, (t1 ++ t2). split; [reflexivity |].
      apply Forall_app. split; assumption.
Qed.

(** The poller always returns (a URL or [None]): no exception leaves it. *)
Lemma poll_run site asset retries delay w :
  exists r w' t,
    poll_for_asset_url sv site asset retries delay w = (Return r, w', t)
    /\ Forall (fun e => is_poll_event e = true) t.
Proof.
  destruct (poll_loop_run site asset delay (Z.to_nat retries) 0 w)
    as (r & w' & t & H & F).
  exists r, w', (ESay (MsgPolling (retries * delay)) :: t).
  unfold poll_for_asset_url, bind, say, emit. rewrite H.
  split; [reflexivity |]. constructor; [reflexivity | exact F].
Qed.

(** [upload_local_asset] always returns: whatever goes wrong inside is
    caught and printed. *)
Lemma upload_local_asset_run site folder file_path w o w' t :
  upload_local_asset sv site folder file_path w = (o, w', t) ->
  o = Return tt /\ upload_run sv site folder file_path t.
Proof.
  cbv [upload_local_asset try_except bind get_file_md5 query call say emit
         ret Exception].
  destruct (open_rb sv file_path w) as [e | f] eqn:Hopen.
  { intros [= <- <- <-]. split; [reflexivity | constructor]. }
  change (md5_hexdigest sv (read_chunks (S (List.length f)) md5_new f))
    with (digest_of sv f).
  destruct (assets_create sv site folder (os_path_basename sv file_path) _ w)
    as [[e | u] w1] eqn:Hcreate.
  { intros [= <- <- <-]. split; [reflexivity | apply upload_not_initiated]. }
  destruct (open_rb sv file_path w1) as [e | f2] eqn:Hopen2.
  { intros [= <- <- <-]. split; [reflexivity | apply upload_reopen_fails]. }
  destruct (requests_post sv _ _ _ w1) as [[e | code] w2] eqn:Hpost.
  { intros [= <- <- <-]. split; [reflexivity | apply upload_post_fails]. }
  destruct (code =? 201) eqn:Hcode.
  - apply Z.eqb_eq in Hcode. subst code.
    destruct (poll_run site (upload_id u) 20 5 w2) as (r & w3 & tp & Hp & Fp).
    rewrite Hp.
    destruct r as [cdn |]; [destruct (str_truthy cdn) |];
      intros [= <- <- <-]; (split; [reflexivity |]).
    + apply (upload_accepted sv _ _ _ f u f2 tp (MsgFileReady cdn) Fp).
      right. exists cdn. reflexivity.
    + apply (upload_accepted sv _ _ _ f u f2 tp MsgTimedOut Fp). left. reflexivity.
    + apply (upload_accepted sv _ _ _ f u f2 tp MsgTimedOut Fp). left. reflexivity.
  - apply Z.eqb_neq in Hcode.
    intros [= <- <- <-]. split; [reflexivity | now apply upload_rejected].
Qed.

End UploadRuns.

(** ** The Form Uploader *)

Lemma poll_event_in (polled : list Event) (e : Event) :
  Forall (fun x => is_poll_event x = true) polled ->
  In e polled -> is_poll_event e = true.
Proof. intros F Hin. rewrite Forall_forall in F. exact (F e Hin). Qed.

Lemma poll_events_count p (polled : list Event) :
  (forall e, is_poll_event e = true -> p e = false) ->
  Forall (fun x => is_poll_event x = true) polled ->
  count p polled = 0%nat.
Proof.
  intros Hp F. apply count_zero_Forall.
  eapply Forall_impl; [| exact F]. exact Hp.
Qed.

(** C1, as stated, fails: a session that declares 200 and a response with
    status 200 is reported as a failed upload. *)
Lemma declared_status_is_ignored :
  snd (upload_local_asset (sim_services (sim_scenario "y" "200" 200))
         (Some "site-1") "folder-0" "compressed/clip.webm" (sim_world []))
  = [ESay (MsgPreparing "clip.webm");
     EOpen "compressed/clip.webm" (inr [x00; x01; x02; x03]);
     ECreateAsset (Some "site-1") "folder-0" "clip.webm" "4"
       (inr (sim_upload "200"));
     EOpen "compressed/clip.webm" (inr [x00; x01; x02; x03]);
     ESay MsgUploading;
     EPost "https://s3.example/upload" (form_data (sim_details "200"))
       ("clip.webm", [x00; x01; x02; x03], "video/webm") (inr 200);
     ESay (MsgFailedStatus 200)]
  /\ ~ success_iff_declared_status
         (snd (upload_local_asset (sim_services (sim_scenario "y" "200" 200))
                 (Some "site-1") "folder-0" "compressed/clip.webm"
                 (sim_world []))).
Proof.
  split; [vm_compute; reflexivity |].
  intros H.
  destruct (H (Some "site-1") "folder-0" "clip.webm" "4" (sim_upload "200")
              "https://s3.example/upload" (form_data (sim_details "200"))
              ("clip.webm", [x00; x01; x02; x03], "video/webm") 200)
    as [[_ Hsuccess] _].
  - vm_compute. tauto.
  - vm_compute. tauto.
  - assert (Hin : In (ESay MsgS3Successful)
                    (snd (upload_local_asset
                            (sim_services (sim_scenario "y" "200" 200))
                            (Some "site-1") "folder-0" "compressed/clip.webm"
                            (sim_world []))))
      by (apply Hsuccess; reflexivity).
    vm_compute in Hin.
    repeat (destruct Hin as [Hin | Hin]; [discriminate Hin |]).
    exact Hin.
Qed.

(** C1, amended: for every upload session and every response of the upload
    target, the uploader reports success if and only if the status code is
    201, whatever status the session declares; any other code, 200 included,
    is reported as a failure that carries the code, and the asset listing is
    never polled. *)
Theorem upload_succeeds_iff_201 {World : Type} (sv : Services World)
    (site : option string) (folder file_path : string) (w w' : World)
    (o : Outcome unit) (t : list Event)
    (target : string) (data : list (string * string)) (file : FilePart)
    (code : Z) :
  upload_local_asset sv site folder file_path w = (o, w', t) ->
  In (EPost target data file (inr code)) t ->
  o = Return tt
  /\ (In (ESay MsgS3Successful) t <-> code = 201)
  /\ (code <> 201 ->
      In (ESay (MsgFailedStatus code)) t
      /\ count is_list_assets t = 0%nat
      /\ last t (ESay MsgUploading) = ESay (MsgFailedStatus code)).
Proof.
  intros Hrun Hpost.
  destruct (upload_local_asset_run sv _ _ _ _ _ _ _ Hrun) as [-> Hshape].
  split; [reflexivity |].
  inversion Hshape as [e | f e | f u e | f u f2 e | f u f2 c Hc
                       | f u f2 polled final Fp Hfinal]; subst t.
  - simpl in Hpost. intuition discriminate.
  - simpl in Hpost. intuition discriminate.
  - simpl in Hpost. intuition discriminate.
  - simpl in Hpost. intuition discriminate.
  - assert (c = code) as ->
      by (simpl in Hpost; intuition (try discriminate); congruence).
    split.
    + split; [| contradiction]. simpl. intuition discriminate.
    + intros _. split; [| split]; [simpl; tauto | reflexivity | reflexivity].
  - assert (code = 201) as ->.
    { apply in_app_or in Hpost. destruct Hpost as [Hpost | Hpost].
      - simpl in Hpost. intuition (try discriminate); congruence.
      - apply in_app_or in Hpost. destruct Hpost as [Hpost | Hpost].
        + apply (poll_event_in _ _ Fp) in Hpost. discriminate.
        + simpl in Hpost. intuition discriminate. }
    split; [| intros Hne; contradiction].
    split; [reflexivity |]. intros _. apply in_or_app. left. simpl. tauto.
Qed.

Lemma upload_succeeds_iff_201_witness :
  Return tt = Return tt
  /\ (In (ESay MsgS3Successful)
        (snd (upload_local_asset (sim_services (sim_scenario "y" "200" 200))
                (Some "site-1") "folder-0" "compressed/clip.webm"
                (sim_world [])))
      <-> 200 = 201)
  /\ (200 <> 201 ->
      In (ESay (MsgFailedStatus 200))
        (snd (upload_local_asset (sim_services (sim_scenario "y" "200" 200))
                (Some "site-1") "folder-0" "compressed/clip.webm"
                (sim_world [])))
      /\ count is_list_assets
           (snd (upload_local_asset (sim_services (sim_scenario "y" "200" 200))
                   (Some "site-1") "folder-0" "compressed/clip.webm"
                   (sim_world [])))
         = 0%nat
      /\ last
           (snd (upload_local_asset (sim_services (sim_scenario "y" "200" 200))
                   (Some "site-1") "folder-0" "compressed/clip.webm"
                   (sim_world [])))
           (ESay MsgUploading)
         = ESay (MsgFailedStatus 200)).
Proof.
  apply (upload_succeeds_iff_201 (sim_services (sim_scenario "y" "200" 200))
           (Some "site-1") "folder-0" "compressed/clip.webm"
           (sim_world []) (sim_world []) (Return tt) _
           "https://s3.example/upload" (form_data (sim_details "200"))
           ("clip.webm", [x00; x01; x02; x03], "video/webm") 200).
  - vm_compute. reflexivity.
  - vm_compute. tauto.
Defined.

(** ** The runs of the script *)

Section ScriptRuns.
Context {World : Type} (sv : Services World).

Lemma create_asset_folder_run site name w o w' t :
  create_asset_folder sv site name w = (o, w', t) -> resolver_run site name o t.
Proof.
  cbv [create_asset_folder bind call say emit ret].
  destruct (assets_list_folders sv site w) as [[e | l] w1].
  { intros [= <- <- <-]. constructor. }
  destruct (find (fun folder => name_is (display_name folder) name) l)
    as [f |] eqn:Hf.
  { intros [= <- <- <-]. now constructor. }
  destruct (assets_create_folder sv site name w1) as [[e | f] w2];
    intros [= <- <- <-]; now constructor.
Qed.

Lemma accepts_test (line : string) :
  ((lower (strip line) =? "y")%string
   || (lower (strip line) =? EmptyString)%string) = true
  <-> accepts line.
Proof.
  unfold accepts. rewrite orb_true_iff, !String.eqb_eq. reflexivity.
Qed.

Lemma confirm_and_upload_run compressed_path w o w' t :
  confirm_and_upload sv compressed_path w = (o, w', t) ->
  confirm_run sv compressed_path o t.
Proof.
  unfold confirm_and_upload. intros H.
  apply bind_inv in H.
  destruct H as [(line & w1 & t1 & t2 & Hin & Hrest & ->) | [(e & Hin & ->) | (c & Hin & ->)]].
  - assert (Ht1 : t1 = [EInput (confirm_prompt sv compressed_path) (inr line)]).
    { unfold call in Hin.
      destruct (input sv (confirm_prompt sv compressed_path) w) as [[e | s] w2];
        inversion Hin; reflexivity. }
    subst t1. cbv beta zeta in Hrest.
    destruct ((lower (strip line) =? "y")%string
              || (lower (strip line) =? EmptyString)%string) eqn:Hyes.
    + apply accepts_test in Hyes.
      apply bind_inv in Hrest.
      destruct Hrest as [(id & w2 & t3 & t4 & Hres & Hup & ->)
                        | [(e & Hres & ->) | (c & Hres & ->)]].
      * apply create_asset_folder_run in Hres.
        destruct (str_truthy id) eqn:Hid.
        -- apply upload_local_asset_run in Hup. destruct Hup as [-> Hup].
           simpl. eapply confirm_uploaded; eassumption.
        -- inversion Hup; subst. rewrite app_nil_r. simpl.
           eapply confirm_empty_id; eassumption.
      * apply create_asset_folder_run in Hres. simpl.
        eapply confirm_unresolved; eassumption.
      * apply create_asset_folder_run in Hres. inversion Hres.
    + assert (Hno : ~ accepts line)
        by (rewrite <- accepts_test, Hyes; discriminate).
      inversion Hrest; subst. simpl. now constructor.
  - unfold call in Hin.
    destruct (input sv (confirm_prompt sv compressed_path) w) as [[e' | s] w2];
      inversion Hin; subst. constructor.
  - unfold call in Hin.
    destruct (input sv (confirm_prompt sv compressed_path) w) as [[e' | s] w2];
      inversion Hin.
Qed.

End ScriptRuns.

Section ScriptFacts.
Context {World : Type} (sv : Services World).

Lemma check_environment_run w o w' t :
  check_environment sv w = (o, w', t) ->
  Forall (fun e => is_setup_event e = true) t /\ (o = Return tt \/ o = Exit 1).
Proof.
  cbv [check_environment bind say emit sys_exit ret].
  destruct (negb (truthy (os_getenv sv "WEBFLOW_API_TOKEN" w))
            || negb (truthy (os_getenv sv "SITE_ID" w)));
    intros [= <- <- <-]; split; auto; repeat constructor.
Qed.

Lemma validate_input_run input_file w o w' t :
  validate_input sv input_file w = (o, w', t) ->
  Forall (fun e => is_setup_event e = true) t /\ (o = Return tt \/ o = Exit 1).
Proof.
  cbv [validate_input bind say emit sys_exit ret].
  destruct (path_is_file sv (pathlib_Path sv input_file) w); cbv [negb app];
    intros [= <- <- <-]; split; auto; repeat constructor.
Qed.

Lemma compress_video_run input_path crf w o w' t :
  compress_video sv input_path crf w = (o, w', t) ->
  Forall (fun e => is_setup_event e = true) t
  /\ ((exists compressed_path, o = Return compressed_path)
      \/ o = Exit 1 \/ exists e, o = Raise e).
Proof.
  cbv [compress_video try_except bind call say emit sys_exit ret].
  destruct (path_mkdir sv "compressed" w) as [[e | []] w1].
  { destruct (is_OSError e); intros [= <- <- <-];
      (split; [repeat constructor | eauto]). }
  match goal with
  | |- context [subprocess_run sv ?c w1] =>
      destruct (subprocess_run sv c w1) as [[e | []] w2]
  end.
  { destruct (is_CalledProcessError e); cbv [orb];
      [| destruct (is_FileNotFoundError e)];
      intros [= <- <- <-]; (split; [repeat constructor | eauto]). }
  intros [= <- <- <-]. split; [repeat constructor | eauto].
Qed.

(** The runs of step 3 of [main]. *)
Lemma compare_sizes_run input_path compressed_path w o w' t :
  compare_sizes sv input_path compressed_path w = (o, w', t) ->
  (exists e, o = Raise e /\ t = [EStat input_path (inl e)])
  \/ (exists a e,
         o = Raise e
         /\ t = [EStat input_path (inr a); EStat compressed_path (inl e)])
  \/ (exists b,
         o = Raise ZeroDivisionError
         /\ t = [EStat input_path (inr 0); EStat compressed_path (inr b)])
  \/ (exists a b,
         a <> 0 /\ o = Return tt
         /\ t = [EStat input_path (inr a); EStat compressed_path (inr b);
                 ESay (size_report a b)]).
Proof.
  cbv [compare_sizes bind query call say emit ret py_truediv raise].
  destruct (stat_st_size sv input_path w) as [e | a].
  { intros [= <- <- <-]. left. eauto. }
  destruct (stat_st_size sv compressed_path w) as [e | b].
  { intros [= <- <- <-]. right. left. eauto. }
  destruct (a =? 0) eqn:Ha.
  - apply Z.eqb_eq in Ha. subst a. intros [= <- <- <-].
    right. right. left. eauto.
  - apply Z.eqb_neq in Ha. intros [= <- <- <-].
    right. right. right. exists a, b. auto.
Qed.

(** Every run of the script is one of those [script_run] lists. *)
Lemma script_runs input_file crf w o w' t :
  script sv input_file crf w = (o, w', t) -> script_run sv input_file o t.
Proof.
  unfold script, main. intros H.
  apply bind_inv in H.
  destruct H as [([] & w1 & t1 & t2 & Henv & H & ->)
                | [(e & Henv & ->) | (c & Henv & ->)]];
    apply check_environment_run in Henv; destruct Henv as [F1 Ho1];
    try solve [apply script_stops_in_setup; [exact F1 | phase_stopped Ho1]].
  cbv zeta in H. apply bind_inv in H.
  destruct H as [([] & w2 & t3 & t4 & Hval & H & ->)
                | [(e & Hval & ->) | (c & Hval & ->)]];
    apply validate_input_run in Hval; destruct Hval as [F2 Ho2];
    try solve [apply script_stops_in_setup;
               [apply Forall_app; auto | phase_stopped Ho2]].
  apply bind_inv in H.
  destruct H as [(compressed_path & w3 & t5 & t6 & Hcmp & H & ->)
                | [(e & Hcmp & ->) | (c & Hcmp & ->)]];
    apply compress_video_run in Hcmp; destruct Hcmp as [F3 Ho3];
    try solve [apply script_stops_in_setup;
               [repeat (apply Forall_app; split); auto | phase_stopped Ho3]].
  assert (F : Forall (fun e => is_setup_event e = true) (t1 ++ t3 ++ t5))
    by (repeat (apply Forall_app; split); auto).
  replace (t1 ++ t3 ++ t5 ++ t6) with ((t1 ++ t3 ++ t5) ++ t6)
    by (rewrite <- !app_assoc; reflexivity).
  revert F. generalize (t1 ++ t3 ++ t5). intros setup F.
  apply bind_inv in H.
  destruct H as [([] & w4 & t7 & t8 & Hsz & H & ->)
                | [(e & Hsz & ->) | (c & Hsz & ->)]];
    apply compare_sizes_run in Hsz;
    destruct Hsz as [(e1 & Ho & Ht) | [(a & e1 & Ho & Ht)
                    | [(b & Ho & Ht) | (a & b & Ha & Ho & Ht)]]];
    try discriminate Ho; subst.
  - apply confirm_and_upload_run in H. now apply script_reaches_prompt.
  - inversion Ho; subst. now apply script_original_unmeasured.
  - inversion Ho; subst. now apply script_compressed_unmeasured.
  - inversion Ho; subst. now apply script_divides_by_zero.
Qed.

End ScriptFacts.

(** ** The confirmation prompt *)

Lemma Forall_class_in (q : Event -> bool) (t : list Event) (e : Event) :
  Forall (fun x => q x = true) t -> In e t -> q e = true.
Proof. intros F Hin. rewrite Forall_forall in F. exact (F e Hin). Qed.

Lemma count_zero_class (q p : Event -> bool) (t : list Event) :
  (forall e, q e = true -> p e = false) ->
  Forall (fun x => q x = true) t ->
  count p t = 0%nat.
Proof.
  intros Hq F. apply count_zero_Forall.
  eapply Forall_impl; [| exact F]. exact Hq.
Qed.

Lemma setup_is_local (e : Event) :
  is_setup_event e = true -> is_local_event e = true.
Proof. destruct e as [| | | | | | m | | | | | |]; try destruct m; (discriminate || reflexivity). Qed.

Lemma poll_event_not_input (e : Event) :
  is_poll_event e = true -> is_input e = false.
Proof. destruct e; (discriminate || reflexivity). Qed.

Section Prompt.
Context {World : Type} (sv : Services World).

Lemma resolver_run_no_input site name o t :
  resolver_run site name o t -> count is_input t = 0%nat.
Proof. intros H. inversion H; reflexivity. Qed.

Lemma upload_run_no_input site folder file_path t :
  upload_run sv site folder file_path t -> count is_input t = 0%nat.
Proof.
  intros H. inversion H; try reflexivity.
  rewrite !count_app.
  rewrite (count_zero_class is_poll_event is_input polled)
    by (assumption || exact poll_event_not_input).
  reflexivity.
Qed.

(** A resolver run starts with a folder listing request. *)
Lemma resolver_run_lists site name o t :
  resolver_run site name o t -> exists r rest, t = EListFolders site r :: rest.
Proof. intros H. inversion H; eauto. Qed.

(** What follows from the line read at the prompt: a decline ends the run
    at once; anything else starts the folder resolution. *)
Lemma confirm_run_answered compressed_path o t prompt line :
  confirm_run sv compressed_path o t ->
  In (EInput prompt (inr line)) t ->
  (~ accepts line /\ o = Return tt
   /\ t = [EInput (confirm_prompt sv compressed_path) (inr line);
           ESay MsgCancelled])
  \/ (accepts line
      /\ exists site r rest,
           t = EInput (confirm_prompt sv compressed_path) (inr line)
               :: EListFolders site r :: rest).
Proof.
  intros Hrun Hin.
  inversion Hrun as [e | line0 Hno | line0 site e t1 Hyes Hres
                     | line0 site id t1 Hyes Hres Hid
                     | line0 site id t1 t2 Hyes Hres Hid Hup]; subst.
  - simpl in Hin. intuition discriminate.
  - left. assert (line0 = line) as ->
      by (simpl in Hin; intuition (try discriminate); congruence).
    auto.
  - right. destruct Hin as [Hin | Hin].
    + injection Hin as _ ->. split; [exact Hyes |].
      destruct (resolver_run_lists _ _ _ _ Hres) as (r & rest & ->). eauto.
    + exfalso. apply resolver_run_no_input in Hres.
      refine (count_zero_not_In _ _ _ Hres _ Hin); reflexivity.
  - right. destruct Hin as [Hin | Hin].
    + injection Hin as _ ->. split; [exact Hyes |].
      destruct (resolver_run_lists _ _ _ _ Hres) as (r & rest & ->). eauto.
    + exfalso. apply resolver_run_no_input in Hres.
      refine (count_zero_not_In _ _ _ Hres _ Hin); reflexivity.
  - right. destruct Hin as [Hin | Hin].
    + injection Hin as _ ->. split; [exact Hyes |].
      destruct (resolver_run_lists _ _ _ _ Hres) as (r & rest & ->).
      simpl. eauto.
    + exfalso. apply in_app_or in Hin. destruct Hin as [Hin | Hin].
      * apply resolver_run_no_input in Hres.
        refine (count_zero_not_In _ _ _ Hres _ Hin); reflexivity.
      * apply upload_run_no_input in Hup.
        refine (count_zero_not_In _ _ _ Hup _ Hin); reflexivity.
Qed.

(** A run of the script that logs a remote request or a read of the
    terminal: everything before the prompt is local, the rest is a run of
    step 4, and the event belongs to it. *)
Lemma script_run_upload_phase input_file o t ev :
  script_run sv input_file o t ->
  In ev t ->
  is_local_event ev = false ->
  exists before compressed_path after,
    t = before ++ after
    /\ Forall (fun e => is_local_event e = true) before
    /\ confirm_run sv compressed_path o after
    /\ In ev after.
Proof.
  intros Hrun Hin Hev.
  assert (Hsetup : forall setup,
             Forall (fun e => is_setup_event e = true) setup ->
             ~ In ev setup).
  { intros setup F Hs. apply (Forall_class_in _ _ _ F) in Hs.
    apply setup_is_local in Hs. congruence. }
  assert (Hstats : forall l,
             Forall (fun e => is_local_event e = true) l -> ~ In ev l).
  { intros l F Hs. apply (Forall_class_in _ _ _ F) in Hs. congruence. }
  inversion Hrun as [o0 setup F Ho | setup e F | setup cp a e F
                     | setup cp b F | setup cp a b o0 tc F Ha Hc]; subst.
  - exfalso. exact (Hsetup _ F Hin).
  - exfalso. apply in_app_or in Hin. destruct Hin as [Hin | Hin];
      [exact (Hsetup _ F Hin) |].
    refine (Hstats _ _ Hin). repeat constructor.
  - exfalso. apply in_app_or in Hin. destruct Hin as [Hin | Hin];
      [exact (Hsetup _ F Hin) |].
    refine (Hstats _ _ Hin). repeat constructor.
  - exfalso. apply in_app_or in Hin. destruct Hin as [Hin | Hin];
      [exact (Hsetup _ F Hin) |].
    refine (Hstats _ _ Hin). repeat constructor.
  - exists (setup ++ [EStat (pathlib_Path sv input_file) (inr a);
                      EStat cp (inr b); ESay (size_report a b)]), cp, tc.
    split; [now rewrite <- app_assoc |]. split; [| split; [exact Hc |]].
    + apply Forall_app. split; [| repeat constructor].
      eapply Forall_impl; [| exact F]. exact setup_is_local.
    + apply in_app_or in Hin. destruct Hin as [Hin | Hin];
        [exfalso; exact (Hsetup _ F Hin) |].
      apply in_app_or in Hin. destruct Hin as [Hin | Hin]; [| exact Hin].
      exfalso. refine (Hstats _ _ Hin). repeat constructor.
Qed.

End Prompt.

Lemma local_event_not_remote (e : Event) :
  is_local_event e = true -> is_remote_call e = false.
Proof. unfold is_local_event. destruct (is_remote_call e); [discriminate | reflexivity]. Qed.

Lemma n_declines : ~ accepts "n".
Proof. unfold accepts. vm_compute. intros [H | H]; discriminate H. Qed.

Lemma yes_declines : ~ accepts "yes".
Proof. unfold accepts. vm_compute. intros [H | H]; discriminate H. Qed.

(** C8: in every run in which the user answers the prompt with [n], no
    request at all is made to the Webflow API or to the upload target (no
    folder listing or creation, no upload initiation, no form upload, no
    asset listing), and the process exits with code 0. *)
Theorem declined_upload_makes_no_call {World : Type} (sv : Services World)
    (input_file : string) (crf : Z) (w w' : World) (o : Outcome unit)
    (t : list Event) (prompt : string) :
  script sv input_file crf w = (o, w', t) ->
  In (EInput prompt (inr "n")) t ->
  count is_remote_call t = 0%nat /\ exit_code o = 0.
Proof.
  intros Hrun Hin. apply script_runs in Hrun.
  destruct (script_run_upload_phase sv _ _ _ _ Hrun Hin eq_refl)
    as (before & cp & after & -> & Fb & Hc & Hin').
  destruct (confirm_run_answered sv _ _ _ _ _ Hc Hin')
    as [(_ & -> & ->) | (Hyes & _)]; [| exfalso; exact (n_declines Hyes)].
  split; [| reflexivity].
  rewrite count_app.
  rewrite (count_zero_class is_local_event is_remote_call before)
    by (assumption || exact local_event_not_remote).
  reflexivity.
Qed.

Lemma declined_upload_makes_no_call_witness :
  count is_remote_call
    (snd (script (sim_services (sim_scenario "n" "201" 201)) "clip.mov" 32
            (sim_world [])))
  = 0%nat
  /\ exit_code (Return tt) = 0.
Proof.
  apply (declined_upload_makes_no_call
           (sim_services (sim_scenario "n" "201" 201)) "clip.mov" 32
           (sim_world []) (sim_world []) (Return tt) _
           (confirm_prompt (sim_services (sim_scenario "n" "201" 201))
              "compressed/clip.webm")).
  - vm_compute. reflexivity.
  - vm_compute. tauto.
Defined.

(** C9: the upload proceeds if and only if the line read at the prompt,
    stripped of surrounding whitespace and lower-cased, is exactly [y] or
    empty; with any other line the script prints that the upload is
    cancelled, makes no remote request and ends normally, and [yes] is
    such a line. *)
Theorem upload_proceeds_iff_y_or_empty {World : Type} (sv : Services World)
    (input_file : string) (crf : Z) (w w' : World) (o : Outcome unit)
    (t : list Event) (prompt line : string) :
  script sv input_file crf w = (o, w', t) ->
  In (EInput prompt (inr line)) t ->
  (upload_proceeds t
   <-> lower (strip line) = "y" \/ lower (strip line) = EmptyString)
  /\ (~ (lower (strip line) = "y" \/ lower (strip line) = EmptyString) ->
      In (ESay MsgCancelled) t
      /\ count is_remote_call t = 0%nat
      /\ o = Return tt)
  /\ ~ (lower (strip "yes") = "y" \/ lower (strip "yes") = EmptyString).
Proof.
  intros Hrun Hin. apply script_runs in Hrun.
  destruct (script_run_upload_phase sv _ _ _ _ Hrun Hin eq_refl)
    as (before & cp & after & -> & Fb & Hc & Hin').
  assert (Hcount : count is_remote_call before = 0%nat)
    by (apply (count_zero_class is_local_event);
        [exact local_event_not_remote | exact Fb]).
  split; [| split; [| exact yes_declines]].
  - destruct (confirm_run_answered sv _ _ _ _ _ Hc Hin')
      as [(Hno & _ & ->) | (Hyes & site & r & rest & ->)].
    + split; [| intros Hyes; exfalso; exact (Hno Hyes)].
      intros (site & r & Hl). exfalso.
      apply in_app_or in Hl. destruct Hl as [Hl | Hl].
      * refine (count_zero_not_In _ _ _ Hcount _ Hl); reflexivity.
      * simpl in Hl. intuition discriminate.
    + split; [intros _; exact Hyes |].
      intros _. exists site, r. apply in_or_app. right. simpl. tauto.
  - intros Hno.
    destruct (confirm_run_answered sv _ _ _ _ _ Hc Hin')
      as [(_ & -> & ->) | (Hyes & _)]; [| exfalso; exact (Hno Hyes)].
    split; [apply in_or_app; right; simpl; tauto |].
    split; [| reflexivity].
    rewrite count_app, Hcount. reflexivity.
Qed.

Lemma upload_proceeds_iff_y_or_empty_witness :
  (upload_proceeds
     (snd (script (sim_services (sim_scenario " Y " "201" 201)) "clip.mov" 32
             (sim_world [])))
   <-> lower (strip " Y ") = "y" \/ lower (strip " Y ") = EmptyString)
  /\ (~ (lower (strip " Y ") = "y" \/ lower (strip " Y ") = EmptyString) ->
      In (ESay MsgCancelled)
        (snd (script (sim_services (sim_scenario " Y " "201" 201)) "clip.mov"
                32 (sim_world [])))
      /\ count is_remote_call
           (snd (script (sim_services (sim_scenario " Y " "201" 201))
                   "clip.mov" 32 (sim_world [])))
         = 0%nat
      /\ Return tt = Return tt)
  /\ ~ (lower (strip "yes") = "y" \/ lower (strip "yes") = EmptyString).
Proof.
  apply (upload_proceeds_iff_y_or_empty
           (sim_services (sim_scenario " Y " "201" 201)) "clip.mov" 32
           (sim_world [])
           (snd (fst (script (sim_services (sim_scenario " Y " "201" 201))
                        "clip.mov" 32 (sim_world []))))
           (Return tt) _
           (confirm_prompt (sim_services (sim_scenario " Y " "201" 201))
              "compressed/clip.webm")
           " Y ").
  - vm_compute. reflexivity.
  - vm_compute. tauto.
Defined.

(** ** The size comparison *)

Lemma poll_event_in_upload_phase (e : Event) :
  is_poll_event e = true -> is_upload_phase_event e = true.
Proof.
  destruct e as [| | | | | | m | | | | | |]; try destruct m;
    (discriminate || reflexivity).
Qed.

Lemma setup_event_not_stat (e : Event) :
  is_setup_event e = true -> is_stat e = false.
Proof. destruct e; (discriminate || reflexivity). Qed.

Lemma upload_phase_event_not_stat (e : Event) :
  is_upload_phase_event e = true -> is_stat e = false.
Proof. destruct e; (discriminate || reflexivity). Qed.

Lemma filter_nil_class (q p : Event -> bool) (t : list Event) :
  (forall e, q e = true -> p e = false) ->
  Forall (fun x => q x = true) t ->
  filter p t = [].
Proof.
  intros Hq F. induction F as [| e t He _ IH]; simpl; [reflexivity |].
  rewrite (Hq e He). exact IH.
Qed.

Section Sizes.
Context {World : Type} (sv : Services World).

Lemma resolver_run_events site name o t :
  resolver_run site name o t ->
  Forall (fun e => is_upload_phase_event e = true) t.
Proof. intros H. inversion H; repeat constructor. Qed.

Lemma upload_run_events site folder file_path t :
  upload_run sv site folder file_path t ->
  Forall (fun e => is_upload_phase_event e = true) t.
Proof.
  intros H. inversion H as [| | | | | f u f2 polled final Fp Hfinal];
    try solve [repeat constructor].
  apply Forall_app. split; [repeat constructor |].
  apply Forall_app. split.
  - eapply Forall_impl; [| exact Fp]. exact poll_event_in_upload_phase.
  - destruct Hfinal as [-> | (cdn & ->)]; repeat constructor.
Qed.

Lemma confirm_run_events compressed_path o t :
  confirm_run sv compressed_path o t ->
  Forall (fun e => is_upload_phase_event e = true) t.
Proof.
  intros H.
  inversion H as [e | line Hno | line site e t1 Hyes Hres
                  | line site id t1 Hyes Hres Hid
                  | line site id t1 t2 Hyes Hres Hid Hup]; subst.
  - repeat constructor.
  - repeat constructor.
  - constructor; [reflexivity | exact (resolver_run_events _ _ _ _ Hres)].
  - constructor; [reflexivity | exact (resolver_run_events _ _ _ _ Hres)].
  - constructor; [reflexivity |]. apply Forall_app. split.
    + exact (resolver_run_events _ _ _ _ Hres).
    + exact (upload_run_events _ _ _ _ Hup).
Qed.

(** A run of step 4 reads the terminal. *)
Lemma confirm_run_prompts compressed_path o t :
  confirm_run sv compressed_path o t ->
  exists r rest, t = EInput (confirm_prompt sv compressed_path) r :: rest.
Proof. intros H. inversion H; eauto. Qed.

End Sizes.

(** C10: in a run that measures the input file at zero bytes (and the
    compressed file at any size), the size comparison divides by that zero:
    the script ends with [ZeroDivisionError], exit code 1, before the
    confirmation prompt is shown.  When the input file is measured at any
    other size the comparison is printed and the prompt is shown. *)
Theorem size_comparison_needs_nonempty_input {World : Type}
    (sv : Services World) (input_file : string) (crf : Z) (w w' : World)
    (o : Outcome unit) (t : list Event)
    (input_path compressed_path : string) (original_size new_size : Z) :
  script sv input_file crf w = (o, w', t) ->
  filter is_stat t
  = [EStat input_path (inr original_size); EStat compressed_path (inr new_size)] ->
  (original_size = 0 ->
   o = Raise ZeroDivisionError /\ exit_code o = 1
   /\ count is_input t = 0%nat)
  /\ (original_size <> 0 ->
      In (ESay (size_report original_size new_size)) t
      /\ exists prompt r, In (EInput prompt r) t).
Proof.
  intros Hrun Hstat. apply script_runs in Hrun.
  assert (Hsetup : forall setup,
             Forall (fun e => is_setup_event e = true) setup ->
             filter is_stat setup = [] /\ count is_input setup = 0%nat).
  { intros setup F. split.
    - exact (filter_nil_class _ _ _ setup_event_not_stat F).
    - apply (count_zero_class is_setup_event); [| exact F].
      intros e He. apply setup_is_local in He. unfold is_local_event in He.
      destruct (is_input e); [| reflexivity].
      rewrite andb_false_r in He. discriminate. }
  inversion Hrun as [o0 setup F Ho | setup e F | setup cp a e F
                     | setup cp b F | setup cp a b o0 tc F Ha Hc]; subst;
    destruct (Hsetup _ F) as [Hnil Hnone];
    rewrite ?filter_app, ?Hnil in Hstat; simpl in Hstat;
    try discriminate Hstat.
  - injection Hstat as _ <- _ <-. split; [| intros Hne; contradiction].
    intros _. split; [reflexivity |]. split; [reflexivity |].
    rewrite count_app, Hnone. reflexivity.
  - rewrite (filter_nil_class _ _ _ upload_phase_event_not_stat
               (confirm_run_events sv _ _ _ Hc)) in Hstat.
    injection Hstat as _ <- _ <-.
    split; [intros Hz; contradiction |]. intros _. split.
    + apply in_or_app. right. simpl. tauto.
    + destruct (confirm_run_prompts sv _ _ _ Hc) as (r & rest & ->).
      exists (confirm_prompt sv cp), r.
      apply in_or_app. right. simpl. tauto.
Qed.

Lemma size_comparison_needs_nonempty_input_witness :
  (0 = 0 ->
   @Raise unit ZeroDivisionError = Raise ZeroDivisionError
   /\ exit_code (@Raise unit ZeroDivisionError) = 1
   /\ count is_input
        (snd (script (sim_services (with_input_size 0 (sim_scenario "y" "201" 201)))
                "clip.mov" 32 (sim_world [])))
      = 0%nat)
  /\ (0 <> 0 ->
      In (ESay (size_report 0 4))
        (snd (script (sim_services (with_input_size 0 (sim_scenario "y" "201" 201)))
                "clip.mov" 32 (sim_world [])))
      /\ exists prompt r,
           In (EInput prompt r)
             (snd (script
                     (sim_services (with_input_size 0 (sim_scenario "y" "201" 201)))
                     "clip.mov" 32 (sim_world [])))).
Proof.
  apply (size_comparison_needs_nonempty_input
           (sim_services (with_input_size 0 (sim_scenario "y" "201" 201)))
           "clip.mov" 32 (sim_world []) (sim_world [])
           (Raise ZeroDivisionError) _ "clip.mov" "compressed/clip.webm" 0 4).
  - vm_compute. reflexivity.
  - vm_compute. reflexivity.
Defined.

(** ** Failures of the remote service *)

(** C3, as stated, fails: when the upload initiation is refused the script
    prints the error and ends normally, with exit code 0. *)
Lemma failed_initiation_exits_0 :
  In (ECreateAsset (Some "site-1") "folder-0" "clip.webm" "4"
        (inl (ApiError 401)))
     (snd (script (sim_services
                     (with_create_asset (inl (ApiError 401))
                        (sim_scenario "y" "201" 201)))
             "clip.mov" 32 (sim_world [])))
  /\ exit_code
       (fst (fst (script (sim_services
                            (with_create_asset (inl (ApiError 401))
                               (sim_scenario "y" "201" 201)))
                    "clip.mov" 32 (sim_world []))))
     = 0
  /\ ~ remote_failure_is_fatal
         (script (sim_services
                    (with_create_asset (inl (ApiError 401))
                       (sim_scenario "y" "201" 201)))
            "clip.mov" 32 (sim_world [])).
Proof.
  split; [vm_compute; tauto |]. split; [vm_compute; reflexivity |].
  intros H.
  assert (E : script (sim_services
                        (with_create_asset (inl (ApiError 401))
                           (sim_scenario "y" "201" 201)))
                "clip.mov" 32 (sim_world [])
              = (Return tt,
                 snd (fst (script (sim_services
                                     (with_create_asset (inl (ApiError 401))
                                        (sim_scenario "y" "201" 201)))
                             "clip.mov" 32 (sim_world []))),
                 snd (script (sim_services
                                (with_create_asset (inl (ApiError 401))
                                   (sim_scenario "y" "201" 201)))
                        "clip.mov" 32 (sim_world []))))
    by (vm_compute; reflexivity).
  rewrite E in H. unfold remote_failure_is_fatal in H.
  specialize (H (ECreateAsset (Some "site-1") "folder-0" "clip.webm" "4"
                   (inl (ApiError 401)))).
  assert (Hexit : exit_code (Return tt) = 1).
  { apply H; [vm_compute; tauto | reflexivity]. }
  discriminate Hexit.
Qed.

Lemma poll_event_not_initiation (e : Event) :
  is_poll_event e = true ->
  (is_folder_call e || is_create_asset e || is_post e) = false.
Proof. destruct e; (discriminate || reflexivity). Qed.

Section RemoteFailures.
Context {World : Type} (sv : Services World).

Lemma resolver_listing_failed site name o t s e :
  resolver_run site name o t ->
  In (EListFolders s (inl e)) t ->
  o = Raise e /\ count is_remote_call t = 1%nat.
Proof.
  intros H Hin. inversion H; subst; simpl in Hin;
    intuition (try discriminate); congruence.
Qed.

Lemma resolver_creation_failed site name o t s n e :
  resolver_run site name o t ->
  In (ECreateFolder s n (inl e)) t ->
  o = Raise e
  /\ count is_create_folder t = 1%nat
  /\ count is_remote_call t = 2%nat.
Proof.
  intros H Hin. inversion H; subst; simpl in Hin;
    intuition (try discriminate); congruence.
Qed.

Lemma resolver_run_no_initiation site name o t :
  resolver_run site name o t -> count is_create_asset t = 0%nat.
Proof. intros H. inversion H; reflexivity. Qed.

Lemma upload_run_no_folder_call site folder file_path t :
  upload_run sv site folder file_path t -> count is_folder_call t = 0%nat.
Proof.
  intros H. inversion H; try reflexivity.
  rewrite !count_app.
  rewrite (count_zero_class is_poll_event is_folder_call polled);
    [reflexivity | | assumption].
  intros e He. apply poll_event_not_initiation in He.
  destruct (is_folder_call e); [discriminate | reflexivity].
Qed.

Lemma upload_initiation_failed site folder file_path t s d n h e :
  upload_run sv site folder file_path t ->
  In (ECreateAsset s d n h (inl e)) t ->
  In (ESay (MsgErrorDuringUpload e)) t
  /\ count is_create_asset t = 1%nat
  /\ count is_post t = 0%nat
  /\ count is_list_assets t = 0%nat.
Proof.
  intros H Hin.
  inversion H as [| | | | | f u f2 polled final Fp Hfinal]; subst;
    try (simpl in Hin; intuition (try discriminate);
         match goal with
         | E : ECreateAsset _ _ _ _ _ = ECreateAsset _ _ _ _ _ |- _ =>
             injection E as _ _ _ _ ->
         end; simpl; tauto).
  exfalso. apply in_app_or in Hin. destruct Hin as [Hin | Hin];
    [simpl in Hin; intuition discriminate |].
  apply in_app_or in Hin. destruct Hin as [Hin | Hin];
    [| simpl in Hin; intuition discriminate].
  apply (poll_event_in _ _ Fp) in Hin. discriminate.
Qed.

(** From the prompt on: a failed folder listing ends the run with its
    exception, and is the only remote request of the run. *)
Lemma confirm_listing_failed compressed_path o t s e :
  confirm_run sv compressed_path o t ->
  In (EListFolders s (inl e)) t ->
  o = Raise e /\ count is_remote_call t = 1%nat.
Proof.
  intros H Hin.
  inversion H as [e0 | line Hno | line site e0 t1 Hyes Hres
                  | line site id t1 Hyes Hres Hid
                  | line site id t1 t2 Hyes Hres Hid Hup]; subst;
    try (simpl in Hin; intuition discriminate);
    destruct Hin as [Hin | Hin]; try discriminate Hin.
  - destruct (resolver_listing_failed _ _ _ _ _ _ Hres Hin) as [[= ->] Hc].
    split; [reflexivity | exact Hc].
  - destruct (resolver_listing_failed _ _ _ _ _ _ Hres Hin) as [Hr _].
    discriminate Hr.
  - exfalso. apply in_app_or in Hin. destruct Hin as [Hin | Hin].
    + destruct (resolver_listing_failed _ _ _ _ _ _ Hres Hin) as [Hr _].
      discriminate Hr.
    + apply upload_run_no_folder_call in Hup.
      refine (count_zero_not_In _ _ _ Hup _ Hin); reflexivity.
Qed.

(** A failed folder creation ends the run with its exception: the listing
    and the creation are the only remote requests of the run. *)
Lemma confirm_creation_failed compressed_path o t s n e :
  confirm_run sv compressed_path o t ->
  In (ECreateFolder s n (inl e)) t ->
  o = Raise e
  /\ count is_create_folder t = 1%nat
  /\ count is_remote_call t = 2%nat.
Proof.
  intros H Hin.
  inversion H as [e0 | line Hno | line site e0 t1 Hyes Hres
                  | line site id t1 Hyes Hres Hid
                  | line site id t1 t2 Hyes Hres Hid Hup]; subst;
    try (simpl in Hin; intuition discriminate);
    destruct Hin as [Hin | Hin]; try discriminate Hin.
  - destruct (resolver_creation_failed _ _ _ _ _ _ _ Hres Hin)
      as ([= ->] & Hc & Hr).
    split; [reflexivity | split; [exact Hc | exact Hr]].
  - destruct (resolver_creation_failed _ _ _ _ _ _ _ Hres Hin) as [Hr _].
    discriminate Hr.
  - exfalso. apply in_app_or in Hin. destruct Hin as [Hin | Hin].
    + destruct (resolver_creation_failed _ _ _ _ _ _ _ Hres Hin) as [Hr _].
      discriminate Hr.
    + apply upload_run_no_folder_call in Hup.
      refine (count_zero_not_In _ _ _ Hup _ Hin); reflexivity.
Qed.

(** A failed upload initiation is caught: the run ends normally, having
    printed the error, with one initiation request, no form upload and no
    polling. *)
Lemma confirm_initiation_failed compressed_path o t s d n h e :
  confirm_run sv compressed_path o t ->
  In (ECreateAsset s d n h (inl e)) t ->
  o = Return tt
  /\ In (ESay (MsgErrorDuringUpload e)) t
  /\ count is_create_asset t = 1%nat
  /\ count is_post t = 0%nat
  /\ count is_list_assets t = 0%nat.
Proof.
  intros H Hin.
  inversion H as [e0 | line Hno | line site e0 t1 Hyes Hres
                  | line site id t1 Hyes Hres Hid
                  | line site id t1 t2 Hyes Hres Hid Hup]; subst;
    try (simpl in Hin; intuition discriminate);
    destruct Hin as [Hin | Hin]; try discriminate Hin.
  - exfalso. apply resolver_run_no_initiation in Hres.
    refine (count_zero_not_In _ _ _ Hres _ Hin); reflexivity.
  - exfalso. apply resolver_run_no_initiation in Hres.
    refine (count_zero_not_In _ _ _ Hres _ Hin); reflexivity.
  - apply in_app_or in Hin. destruct Hin as [Hin | Hin].
    + exfalso. apply resolver_run_no_initiation in Hres.
      refine (count_zero_not_In _ _ _ Hres _ Hin); reflexivity.
    + destruct (upload_initiation_failed _ _ _ _ _ _ _ _ _ Hup Hin)
        as (Hsay & Hca & Hpo & Hla).
      split; [reflexivity |]. split; [right; apply in_or_app; right; exact Hsay |].
      change (EInput (confirm_prompt sv compressed_path) (inr line) :: t1 ++ t2)
        with ([EInput (confirm_prompt sv compressed_path) (inr line)]
              ++ t1 ++ t2).
      rewrite !count_app, Hca, Hpo, Hla.
      rewrite (resolver_run_no_initiation _ _ _ _ Hres).
      inversion Hres; subst; repeat split; reflexivity.
Qed.

End RemoteFailures.

Lemma local_events_count (p : Event -> bool) (before : list Event) :
  (forall e, p e = true -> is_remote_call e = true) ->
  Forall (fun e => is_local_event e = true) before ->
  count p before = 0%nat.
Proof.
  intros Hp F. apply (count_zero_class is_local_event); [| exact F].
  intros e He. apply local_event_not_remote in He.
  destruct (p e) eqn:Hpe; [| reflexivity].
  apply Hp in Hpe. congruence.
Qed.

(** C3, amended: a failure of the remote service is not retried.  During
    folder resolution (the listing or the creation of the folder) it is
    fatal: the exception leaves the script, the process exits with code 1
    and no further request is made.  During upload initiation it is caught:
    the script prints the error, makes no further request (no form upload,
    no polling) and the process ends normally, with exit code 0. *)
Theorem remote_failures_before_upload {World : Type} (sv : Services World)
    (input_file : string) (crf : Z) (w w' : World) (o : Outcome unit)
    (t : list Event) :
  script sv input_file crf w = (o, w', t) ->
  (forall site e,
      In (EListFolders site (inl e)) t ->
      o = Raise e /\ exit_code o = 1 /\ count is_remote_call t = 1%nat)
  /\ (forall site name e,
         In (ECreateFolder site name (inl e)) t ->
         o = Raise e /\ exit_code o = 1
         /\ count is_create_folder t = 1%nat
         /\ count is_remote_call t = 2%nat)
  /\ (forall site folder name hash e,
         In (ECreateAsset site folder name hash (inl e)) t ->
         o = Return tt /\ exit_code o = 0
         /\ In (ESay (MsgErrorDuringUpload e)) t
         /\ count is_create_asset t = 1%nat
         /\ count is_post t = 0%nat
         /\ count is_list_assets t = 0%nat).
Proof.
  intros Hrun. apply script_runs in Hrun.
  split; [| split].
  - intros site e Hin.
    destruct (script_run_upload_phase sv _ _ _ _ Hrun Hin eq_refl)
      as (before & cp & after & -> & Fb & Hc & Hin').
    destruct (confirm_listing_failed sv _ _ _ _ _ Hc Hin') as [-> Hcount].
    split; [reflexivity |]. split; [reflexivity |].
    rewrite count_app, Hcount, (local_events_count _ _ (fun e H => H) Fb).
    reflexivity.
  - intros site name e Hin.
    destruct (script_run_upload_phase sv _ _ _ _ Hrun Hin eq_refl)
      as (before & cp & after & -> & Fb & Hc & Hin').
    destruct (confirm_creation_failed sv _ _ _ _ _ _ Hc Hin')
      as (-> & Hcf & Hcount).
    split; [reflexivity |]. split; [reflexivity |].
    rewrite !count_app, Hcf, Hcount,
      (local_events_count is_remote_call _ (fun e H => H) Fb),
      (local_events_count is_create_folder before); auto.
    intros ev; destruct ev; (discriminate || reflexivity).
  - intros site folder name hash e Hin.
    destruct (script_run_upload_phase sv _ _ _ _ Hrun Hin eq_refl)
      as (before & cp & after & -> & Fb & Hc & Hin').
    destruct (confirm_initiation_failed sv _ _ _ _ _ _ _ _ Hc Hin')
      as (-> & Hsay & Hca & Hpo & Hla).
    split; [reflexivity |]. split; [reflexivity |].
    split; [apply in_or_app; right; exact Hsay |].
    rewrite !count_app, Hca, Hpo, Hla,
      (local_events_count is_create_asset before),
      (local_events_count is_post before),
      (local_events_count is_list_assets before); auto;
      intros ev; destruct ev; (discriminate || reflexivity).
Qed.

Lemma remote_failures_before_upload_witness :
  (forall site e,
      In (EListFolders site (inl e)) (snd folders_down_run) ->
      @Raise unit (ApiError 500) = Raise e
      /\ exit_code (@Raise unit (ApiError 500)) = 1
      /\ count is_remote_call (snd folders_down_run) = 1%nat)
  /\ (forall site name e,
         In (ECreateFolder site name (inl e)) (snd folders_down_run) ->
         @Raise unit (ApiError 500) = Raise e
         /\ exit_code (@Raise unit (ApiError 500)) = 1
         /\ count is_create_folder (snd folders_down_run) = 1%nat
         /\ count is_remote_call (snd folders_down_run) = 2%nat)
  /\ (forall site folder name hash e,
         In (ECreateAsset site folder name hash (inl e)) (snd folders_down_run) ->
         @Raise unit (ApiError 500) = Return tt
         /\ exit_code (@Raise unit (ApiError 500)) = 0
         /\ In (ESay (MsgErrorDuringUpload e)) (snd folders_down_run)
         /\ count is_create_asset (snd folders_down_run) = 1%nat
         /\ count is_post (snd folders_down_run) = 0%nat
         /\ count is_list_assets (snd folders_down_run) = 0%nat).
Proof.
  apply (remote_failures_before_upload
           (sim_services
              (with_folders_down (ApiError 500) (sim_scenario "y" "201" 201)))
           "clip.mov" 32 (sim_world []) (sim_world [])
           (Raise (ApiError 500)) (snd folders_down_run)).
  vm_compute. reflexivity.
Defined.

(** ** The Content Hasher *)

Lemma chunk_size_positive : (0 < chunk_size)%nat.
Proof. unfold chunk_size. lia. Qed.

Lemma read_chunks_step (k : nat) (h f : list byte) :
  read_chunks (S k) h f
  = match firstn chunk_size f with
    | [] => h
    | chunk => read_chunks k (md5_update h chunk) (skipn chunk_size f)
    end.
Proof. reflexivity. Qed.

(** Reading by chunks feeds the hash the whole file, in order, whatever
    its length: the fuel [get_file_md5] gives the loop is enough. *)
Lemma read_chunks_all (fuel : nat) : forall h f : list byte,
  (List.length f < fuel)%nat -> read_chunks fuel h f = h ++ f.
Proof.
  induction fuel as [| k IH]; intros h f Hlen; [lia |].
  rewrite read_chunks_step.
  pose proof chunk_size_positive as Hpos.
  pose proof (firstn_skipn chunk_size f) as Hsplit.
  pose proof (length_skipn chunk_size f) as Hskip.
  destruct (firstn chunk_size f) as [| b chunk] eqn:Hfirst.
  - destruct f as [| b f]; [now rewrite app_nil_r |].
    destruct chunk_size; [lia | discriminate Hfirst].
  - rewrite IH.
    + unfold md5_update. rewrite <- app_assoc, Hsplit. reflexivity.
    + assert (Hne : List.length f <> 0%nat).
      { destruct f as [| b' f]; [now rewrite firstn_nil in Hfirst |].
        discriminate. }
      lia.
Qed.

(** X1: the digest of a file is the library's MD5 of exactly its bytes: it
    depends on the contents alone, not on how they fall into chunks, and a
    second call on the unmodified file returns the same string. *)
Theorem digest_is_md5_of_contents {World : Type} (sv : Services World)
    (path : string) (w : World) (f : list byte) :
  open_rb sv path w = inr f ->
  get_file_md5 sv path w
  = (Return (md5_hexdigest sv f), w, [EOpen path (inr f)])
  /\ forall w2,
       open_rb sv path w2 = inr f ->
       fst (fst (get_file_md5 sv path w2)) = fst (fst (get_file_md5 sv path w)).
Proof.
  assert (H : forall w0, open_rb sv path w0 = inr f ->
                get_file_md5 sv path w0
                = (Return (md5_hexdigest sv f), w0, [EOpen path (inr f)])).
  { intros w0 Hopen. unfold get_file_md5, bind, query, call, ret.
    rewrite Hopen. rewrite read_chunks_all by lia. reflexivity. }
  intros Hopen. split; [exact (H w Hopen) |].
  intros w2 Hopen2. rewrite (H w Hopen), (H w2 Hopen2). reflexivity.
Qed.

Lemma digest_is_md5_of_contents_witness :
  get_file_md5 sim_ok "compressed/clip.webm" (sim_world [])
  = (Return (sim_digest [x00; x01; x02; x03]), sim_world [],
     [EOpen "compressed/clip.webm" (inr [x00; x01; x02; x03])])
  /\ forall w2,
       open_rb sim_ok "compressed/clip.webm" w2 = inr [x00; x01; x02; x03] ->
       fst (fst (get_file_md5 sim_ok "compressed/clip.webm" w2))
       = fst (fst (get_file_md5 sim_ok "compressed/clip.webm" (sim_world []))).
Proof.
  apply (digest_is_md5_of_contents sim_ok "compressed/clip.webm"
           (sim_world []) [x00; x01; x02; x03]).
  reflexivity.
Defined.

(** ** Bounds and totality *)

Section Bounds.
Context {World : Type} (sv : Services World).

(** One turn of the loop makes one listing request and sleeps at most
    once; it sleeps exactly when it does not return a URL. *)
Lemma poll_attempt_cost site asset delay i w :
  exists r w' t,
    poll_attempt sv site asset delay i w = (Return r, w', t)
    /\ count is_list_assets t = 1%nat
    /\ count is_sleep t = match r with Some _ => 0%nat | None => 1%nat end.
Proof.
  unfold poll_attempt, try_except, bind, call, say, sleep, emit, ret, Exception.
  destruct (assets_list sv site w) as [[e | l] w1]; simpl.
  - eexists None, _, _. repeat split.
  - destruct (find (fun a => (asset_id a =? asset)%string) l) as [a |]; simpl.
    + destruct (truthy (py_or (py_or (original_url a) (hosted_url a)) (url a)));
        simpl.
      * destruct (py_or (py_or (original_url a) (hosted_url a)) (url a));
          simpl; [eexists (Some _), _, _ | eexists None, _, _]; repeat split.
      * eexists None, _, _. repeat split.
    + eexists None, _, _. repeat split.
Qed.

Lemma poll_loop_cost site asset delay n : forall i w,
  exists r w' t,
    poll_loop sv site asset delay n i w = (Return r, w', t)
    /\ (count is_list_assets t <= n)%nat
    /\ (count is_sleep t <= count is_list_assets t)%nat
    /\ (r = None -> count is_list_assets t = n /\ count is_sleep t = n).
Proof.
  induction n as [| n IH]; intros i w; cbn [poll_loop].
  - exists None, w, []. repeat split; unfold count; simpl; lia.
  - destruct (poll_attempt_cost site asset delay i w)
      as (r & w1 & t1 & H1 & Hl1 & Hs1).
    rewrite (bind_Return _ _ _ _ _ _ H1).
    destruct r as [u |]; cbv beta iota in Hs1 |- *.
    + exists (Some u), w1, (t1 ++ []).
      split; [reflexivity |]. rewrite app_nil_r.
      repeat split; try lia; discriminate.
    + destruct (IH (i + 1) w1) as (r & w2 & t2 & H2 & Hl2 & Hs2 & Hn2).
      rewrite H2. exists r, w2, (t1 ++ t2). split; [reflexivity |].
      rewrite !count_app. split; [lia |]. split; [lia |].
      intros Hr. destruct (Hn2 Hr). lia.
Qed.

End Bounds.


(** X3: [upload_local_asset] never lets an exception out and never exits
    the process: a failed hash, a refused initiation, a transport error, a
    rejected upload and a polling time-out all end in a normal return. *)
Theorem upload_always_returns {World : Type} (sv : Services World)
    (site : option string) (folder file_path : string) (w : World) :
  exists w' t,
    upload_local_asset sv site folder file_path w = (Return tt, w', t).
Proof.
  destruct (upload_local_asset sv site folder file_path w) as [[o w'] t] eqn:H.
  destruct (upload_local_asset_run sv _ _ _ _ _ _ _ H) as [-> _].
  exists w', t. reflexivity.
Qed.

(** * More of the script *)

(** ** The poller, in general *)

Lemma slept_app (t1 t2 : list Event) : slept (t1 ++ t2) = slept t1 + slept t2.
Proof.
  induction t1 as [| e t1 IH]; simpl; [reflexivity |].
  destruct e; rewrite IH; lia.
Qed.

Section PollerInGeneral.
Context {World : Type} (sv : Services World).

(** The loop returns at the first turn whose listing shows the URL. *)
Lemma poll_loop_first_exposure site asset delay l a : forall earlier n i w,
  listing_answers sv site delay (S (List.length earlier)) w
  = earlier ++ [inr l] ->
  Forall (never_exposes asset) earlier ->
  (List.length earlier < n)%nat ->
  find (fun x => (asset_id x =? asset)%string) l = Some a ->
  has_url a = true ->
  exists w' t,
    poll_loop sv site asset delay n i w = (Return (url_by_priority a), w', t)
    /\ count is_list_assets t = S (List.length earlier)
    /\ count is_sleep t = List.length earlier
    /\ slept t = Z.of_nat (List.length earlier) * delay.
Proof.
  induction earlier as [| r earlier IH]; intros n i w Hans Hnever Hn Hf Hu;
    (destruct n as [| n]; [simpl in Hn; lia |]);
    cbn [listing_answers List.length app] in Hans;
    destruct (assets_list sv site w) as [r0 w1] eqn:Hl.
  - injection Hans as ->. exists w1, [EListAssets site (inr l)].
    split; [| repeat split; reflexivity]. cbn [poll_loop].
    erewrite bind_Return by (eapply poll_attempt_resolves; eassumption).
    pose proof (priority_truthy a) as Ht. rewrite Hu in Ht.
    destruct (url_by_priority a); [reflexivity | discriminate].
  - injection Hans as -> Hrest.
    inversion Hnever as [| ? ? Hr Hearlier]; subst.
    assert (Hn' : (List.length earlier < n)%nat) by (simpl in Hn; lia).
    destruct (IH n (i + 1) _ Hrest Hearlier Hn' Hf Hu)
      as (w' & t & Hrun & Hlist & Hsleep & Hslept).
    eexists w', _. split; [| split; [| split]].
    + cbn [poll_loop].
      erewrite bind_Return by (eapply poll_attempt_goes_on; eassumption).
      cbv beta iota. rewrite Hrun. reflexivity.
    + unfold count in *. simpl. rewrite Hlist. reflexivity.
    + unfold count in *. simpl. rewrite Hsleep. reflexivity.
    + cbn [app slept List.length]. rewrite Hslept, Nat2Z.inj_succ. lia.
Qed.

(** A turn that returns a URL read it off the listing it just got. *)
Lemma poll_attempt_source site asset delay i w u w' t :
  poll_attempt sv site asset delay i w = (Return (Some u), w', t) ->
  exists l a,
    t = [EListAssets site (inr l)]
    /\ find (fun x => (asset_id x =? asset)%string) l = Some a
    /\ url_by_priority a = Some u
    /\ str_truthy u = true.
Proof.
  unfold poll_attempt, try_except, bind, call, say, sleep, emit, ret, Exception.
  destruct (assets_list sv site w) as [[e | l] w1]; simpl; [discriminate |].
  destruct (find (fun a => (asset_id a =? asset)%string) l) as [a |] eqn:Hf;
    simpl; [| discriminate].
  rewrite or_chain_is_priority.
  destruct (truthy (url_by_priority a)) eqn:Ht; simpl; [| discriminate].
  destruct (url_by_priority a) as [v |] eqn:Hp; simpl; [| discriminate].
  intros [= -> <- <-]. exists l, a. auto.
Qed.

Lemma poll_loop_source site asset delay n : forall i w u w' t,
  poll_loop sv site asset delay n i w = (Return (Some u), w', t) ->
  exists l a before,
    t = before ++ [EListAssets site (inr l)]
    /\ find (fun x => (asset_id x =? asset)%string) l = Some a
    /\ url_by_priority a = Some u
    /\ str_truthy u = true.
Proof.
  induction n as [| n IH]; intros i w u w' t; cbn [poll_loop];
    [discriminate |].
  intros H. apply bind_inv in H.
  destruct H as [(r & w1 & t1 & t2 & Hatt & Hrest & ->)
                | [(e & Hatt & Ho) | (c & Hatt & Ho)]]; try discriminate Ho.
  destruct r as [v |].
  - injection Hrest as -> <- <-.
    destruct (poll_attempt_source _ _ _ _ _ _ _ _ Hatt)
      as (l & a & -> & Hf & Hp & Hu).
    exists l, a, []. auto.
  - destruct (IH _ _ _ _ _ Hrest) as (l & a & before & -> & Hf & Hp & Hu).
    exists l, a, (t1 ++ before). rewrite app_assoc. auto.
Qed.

(** What the turns of the loop cost in sleep. *)
Lemma poll_attempt_sleep site asset delay i w :
  exists r w' t,
    poll_attempt sv site asset delay i w = (Return r, w', t)
    /\ slept t = match r with Some _ => 0 | None => delay end.
Proof.
  unfold poll_attempt, try_except, bind, call, say, sleep, emit, ret, Exception.
  destruct (assets_list sv site w) as [[e | l] w1]; simpl.
  - eexists None, _, _. split; [reflexivity | simpl; lia].
  - destruct (find (fun a => (asset_id a =? asset)%string) l) as [a |]; simpl.
    + destruct (truthy (py_or (py_or (original_url a) (hosted_url a)) (url a)));
        simpl.
      * destruct (py_or (py_or (original_url a) (hosted_url a)) (url a));
          simpl; [eexists (Some _), _, _ | eexists None, _, _];
          (split; [reflexivity | simpl; lia]).
      * eexists None, _, _. split; [reflexivity | simpl; lia].
    + eexists None, _, _. split; [reflexivity | simpl; lia].
Qed.

Lemma poll_loop_sleep site asset delay n : forall i w,
  0 <= delay ->
  exists r w' t,
    poll_loop sv site asset delay n i w = (Return r, w', t)
    /\ 0 <= slept t <= Z.of_nat n * delay
    /\ (r = None -> slept t = Z.of_nat n * delay)
    /\ (count is_list_assets t <= n)%nat.
Proof.
  induction n as [| n IH]; intros i w Hd; cbn [poll_loop].
  - exists None, w, []. repeat split; simpl; try lia. unfold count. simpl. lia.
  - destruct (poll_attempt_sleep site asset delay i w)
      as (r & w1 & t1 & H1 & Hs1).
    destruct (poll_attempt_cost sv site asset delay i w)
      as (r' & w1' & t1' & H1' & Hl1 & _).
    rewrite H1 in H1'. injection H1' as <- <- <-.
    rewrite (bind_Return _ _ _ _ _ _ H1).
    destruct r as [u |]; cbv beta iota.
    + exists (Some u), w1, (t1 ++ []). split; [reflexivity |].
      rewrite app_nil_r. repeat split; try nia; discriminate.
    + destruct (IH (i + 1) w1 Hd) as (r & w2 & t2 & H2 & Hs2 & Hn2 & Hl2).
      rewrite H2. exists r, w2, (t1 ++ t2). split; [reflexivity |].
      rewrite slept_app, count_app. repeat split; try nia.
      intros Hr. rewrite (Hn2 Hr). nia.
Qed.

End PollerInGeneral.

(** X4: the poller returns at the first attempt whose listing shows the
    target asset with a URL: when the answers before it show none (failed,
    asset not listed, or listed without a URL) and the budget allows that
    many attempts, it returns the URL chosen by priority after exactly that
    many listing requests, having slept once after each earlier one. *)
Theorem poller_resolves_at_first_exposure {World : Type} (sv : Services World)
    (site : option string) (asset : string) (retries delay : Z) (w : World)
    (earlier : list (answer (list Asset))) (l : list Asset) (a : Asset) :
  listing_answers sv site delay (S (List.length earlier)) w
  = earlier ++ [inr l] ->
  Forall (never_exposes asset) earlier ->
  Z.of_nat (List.length earlier) < retries ->
  NoDup (map asset_id l) ->
  In a l -> asset_id a = asset -> has_url a = true ->
  exists w' t,
    poll_for_asset_url sv site asset retries delay w
    = (Return (url_by_priority a), w', t)
    /\ count is_list_assets t = S (List.length earlier)
    /\ count is_sleep t = List.length earlier
    /\ slept t = Z.of_nat (List.length earlier) * delay.
Proof.
  intros Hans Hnever Hk Hnd Hin Hid Hu.
  assert (Hf : find (fun x => (asset_id x =? asset)%string) l = Some a)
    by (subst asset; apply find_by_id; assumption).
  assert (Hn : (List.length earlier < Z.to_nat retries)%nat) by lia.
  destruct (poll_loop_first_exposure sv site asset delay l a earlier
              (Z.to_nat retries) 0 w Hans Hnever Hn Hf Hu)
    as (w' & t & Hrun & Hlist & Hsleep & Hslept).
  exists w', (ESay (MsgPolling (retries * delay)) :: t).
  unfold poll_for_asset_url, bind, say, emit. rewrite Hrun.
  repeat split; assumption.
Qed.

Lemma poller_resolves_at_first_exposure_witness :
  exists w' t,
    poll_for_asset_url sim_ok None "asset-1" 20 5
      (sim_world [inl RequestException; inr [an_asset "asset-1" None None None];
                  inr [an_asset "asset-1" None (Some "https://cdn/h") None]])
    = (Return (Some "https://cdn/h"), w', t)
    /\ count is_list_assets t = 3%nat
    /\ count is_sleep t = 2%nat
    /\ slept t = 2 * 5.
Proof.
  apply (poller_resolves_at_first_exposure sim_ok None "asset-1" 20 5
           (sim_world [inl RequestException;
                       inr [an_asset "asset-1" None None None];
                       inr [an_asset "asset-1" None (Some "https://cdn/h") None]])
           [inl RequestException; inr [an_asset "asset-1" None None None]]
           [an_asset "asset-1" None (Some "https://cdn/h") None]
           (an_asset "asset-1" None (Some "https://cdn/h") None)).
  - reflexivity.
  - repeat constructor. simpl. intros a [<- | []] _. reflexivity.
  - simpl. lia.
  - constructor; [simpl; tauto | constructor].
  - left; reflexivity.
  - reflexivity.
  - reflexivity.
Defined.

(** X5: a URL the poller returns is never empty and is read off the last
    listing it received: that listing is the last event of the run, it holds
    an entry with the target id, and the URL is one of the three URL fields
    of the first such entry, the one chosen by priority. *)
Theorem poller_url_comes_from_listing {World : Type} (sv : Services World)
    (site : option string) (asset : string) (retries delay : Z)
    (w w' : World) (u : string) (t : list Event) :
  poll_for_asset_url sv site asset retries delay w = (Return (Some u), w', t) ->
  u <> EmptyString
  /\ exists l a before,
       t = before ++ [EListAssets site (inr l)]
       /\ In a l /\ asset_id a = asset
       /\ find (fun x => (asset_id x =? asset)%string) l = Some a
       /\ url_by_priority a = Some u
       /\ In (Some u) [original_url a; hosted_url a; url a].
Proof.
  unfold poll_for_asset_url, say, emit. intros H. apply bind_inv in H.
  destruct H as [([] & w1 & t1 & t2 & Hsay & Hloop & ->)
                | [(e & Hsay & Ho) | (c & Hsay & Ho)]]; try discriminate Ho.
  injection Hsay as <- <-.
  destruct (poll_loop_source sv _ _ _ _ _ _ _ _ _ Hloop)
    as (l & a & before & -> & Hf & Hp & Hu).
  split.
  - intros ->. discriminate Hu.
  - exists l, a, (ESay (MsgPolling (retries * delay)) :: before).
    destruct (find_some _ _ Hf) as [Hin Hid]. apply String.eqb_eq in Hid.
    repeat split; try assumption.
    unfold url_by_priority in Hp. simpl.
    destruct (truthy (original_url a)); [auto |].
    destruct (truthy (hosted_url a)); auto.
Qed.

Lemma poller_url_comes_from_listing_witness :
  "https://cdn/g" <> EmptyString
  /\ exists l a before,
       [ESay (MsgPolling 100);
        EListAssets None
          (inr [an_asset "other" (Some "https://cdn/o") None None;
                an_asset "asset-1" (Some EmptyString) None (Some "https://cdn/g")])]
       = before ++ [EListAssets None (inr l)]
       /\ In a l /\ asset_id a = "asset-1"
       /\ find (fun x => (asset_id x =? "asset-1")%string) l = Some a
       /\ url_by_priority a = Some "https://cdn/g"
       /\ In (Some "https://cdn/g") [original_url a; hosted_url a; url a].
Proof.
  apply (poller_url_comes_from_listing sim_ok None "asset-1" 20 5
           (sim_world [inr [an_asset "other" (Some "https://cdn/o") None None;
                            an_asset "asset-1" (Some EmptyString) None
                              (Some "https://cdn/g")]])
           (sim_world []) "https://cdn/g").
  reflexivity.
Defined.



(** ** The folder resolver, in general *)

(** X7: [create_asset_folder] lists the folders of the site once and sends
    at most one create request, always for the name and the site it was
    given and only when no folder of the listing has that display name.
    When it returns, the id is that of a listed folder with that display
    name (and nothing was created) or the id the create request gave. *)
Theorem resolver_creates_only_missing {World : Type} (sv : Services World)
    (site : option string) (name : string) (w w' : World)
    (o : Outcome string) (t : list Event) :
  create_asset_folder sv site name w = (o, w', t) ->
  count is_list_folders t = 1%nat
  /\ (count is_create_folder t <= 1)%nat
  /\ (forall s n r,
         In (ECreateFolder s n r) t ->
         s = site /\ n = name
         /\ exists l,
              In (EListFolders site (inr l)) t
              /\ forall f, In f l -> display_name f <> Some name)
  /\ (forall id,
         o = Return id ->
         (count is_create_folder t = 0%nat
          /\ exists l f,
               In (EListFolders site (inr l)) t
               /\ In f l /\ display_name f = Some name /\ id = folder_id f)
         \/ (exists f,
                In (ECreateFolder site name (inr f)) t /\ id = folder_id f)).
Proof.
  intros Hrun. apply create_asset_folder_run in Hrun.
  assert (Hnone : forall l,
             find (fun folder => name_is (display_name folder) name) l = None ->
             forall f, In f l -> display_name f <> Some name).
  { intros l Hf f Hin Hname. pose proof (find_none _ _ Hf f Hin) as Hno.
    simpl in Hno. apply name_is_true in Hname. congruence. }
  inversion Hrun as [e | l f Hf | l e Hf | l f Hf]; subst;
    (split; [reflexivity |]); (split; [unfold count; simpl; lia |]); split.
  - intros s n r Hin. simpl in Hin. intuition discriminate.
  - intros id Ho. discriminate Ho.
  - intros s n r Hin. simpl in Hin. intuition discriminate.
  - intros id [= <-]. left. split; [reflexivity |].
    destruct (find_some _ _ Hf) as [Hin Hname]. apply name_is_true in Hname.
    exists l, f. simpl. auto.
  - intros s n r Hin. simpl in Hin.
    destruct Hin as [Hin | [Hin | [Hin | []]]]; try discriminate Hin.
    injection Hin as <- <- _. split; [reflexivity |]. split; [reflexivity |].
    exists l. split; [simpl; auto | exact (Hnone l Hf)].
  - intros id Ho. discriminate Ho.
  - intros s n r Hin. simpl in Hin.
    destruct Hin as [Hin | [Hin | [Hin | []]]]; try discriminate Hin.
    injection Hin as <- <- _. split; [reflexivity |]. split; [reflexivity |].
    exists l. split; [simpl; auto | exact (Hnone l Hf)].
  - intros id [= <-]. right. exists f. simpl. auto.
Qed.

Lemma resolver_creates_only_missing_witness :
  count is_list_folders
    (snd (create_asset_folder sim_ok (Some "site-1") "Video Uploads"
            (sim_world [])))
  = 1%nat
  /\ (count is_create_folder
        (snd (create_asset_folder sim_ok (Some "site-1") "Video Uploads"
                (sim_world [])))
      <= 1)%nat
  /\ (forall s n r,
         In (ECreateFolder s n r)
           (snd (create_asset_folder sim_ok (Some "site-1") "Video Uploads"
                   (sim_world []))) ->
         s = Some "site-1" /\ n = "Video Uploads"
         /\ exists l,
              In (EListFolders (Some "site-1") (inr l))
                (snd (create_asset_folder sim_ok (Some "site-1")
                        "Video Uploads" (sim_world [])))
              /\ forall f, In f l -> display_name f <> Some "Video Uploads")
  /\ (forall id,
         Return "folder-0" = Return id ->
         (count is_create_folder
            (snd (create_asset_folder sim_ok (Some "site-1") "Video Uploads"
                    (sim_world [])))
          = 0%nat
          /\ exists l f,
               In (EListFolders (Some "site-1") (inr l))
                 (snd (create_asset_folder sim_ok (Some "site-1")
                         "Video Uploads" (sim_world [])))
               /\ In f l /\ display_name f = Some "Video Uploads"
               /\ id = folder_id f)
         \/ (exists f,
                In (ECreateFolder (Some "site-1") "Video Uploads" (inr f))
                  (snd (create_asset_folder sim_ok (Some "site-1")
                          "Video Uploads" (sim_world [])))
                /\ id = folder_id f)).
Proof.
  apply (resolver_creates_only_missing sim_ok (Some "site-1") "Video Uploads"
           (sim_world [])
           (snd (fst (create_asset_folder sim_ok (Some "site-1")
                        "Video Uploads" (sim_world []))))
           (Return "folder-0") _).
  reflexivity.
Defined.

(** ** The compression *)

Section Compression.
Context {World : Type} (sv : Services World).

(** The runs of [compress_video], by where it ends. *)
Lemma compress_video_cases input_path crf w o w' t :
  compress_video sv input_path crf w = (o, w', t) ->
  let output_path := output_path_of sv input_path in
  let command := ffmpeg_command input_path crf output_path in
  let announce :=
    ESay (MsgCompressing (path_name sv input_path) (path_name sv output_path)
            crf) in
  (exists e,
      is_OSError e = true /\ o = Exit 1
      /\ t = [EMkdir "compressed" (inl e); ESay (MsgMkdirFailed "compressed" e)])
  \/ (exists e,
         is_OSError e = false /\ o = Raise e
         /\ t = [EMkdir "compressed" (inl e)])
  \/ (exists e,
         is_CalledProcessError e = true /\ o = Exit 1
         /\ t = [EMkdir "compressed" (inr tt); announce;
                 ERun command (inl e); ESay MsgFfmpegFailed])
  \/ (exists e,
         is_CalledProcessError e = false /\ is_FileNotFoundError e = true
         /\ o = Exit 1
         /\ t = [EMkdir "compressed" (inr tt); announce;
                 ERun command (inl e); ESay MsgFfmpegNotFound])
  \/ (exists e,
         is_CalledProcessError e = false /\ is_FileNotFoundError e = false
         /\ o = Raise e
         /\ t = [EMkdir "compressed" (inr tt); announce; ERun command (inl e)])
  \/ (o = Return output_path
      /\ t = [EMkdir "compressed" (inr tt); announce;
              ERun command (inr tt); ESay MsgCompressionFinished]).
Proof.
  cbv [compress_video try_except bind call say emit sys_exit ret output_path_of].
  destruct (path_mkdir sv "compressed" w) as [[e | []] w1].
  { destruct (is_OSError e) eqn:He; intros [= <- <- <-]; cbv zeta;
      [left | right; left]; exists e; auto. }
  match goal with
  | |- context [subprocess_run sv ?c w1] =>
      destruct (subprocess_run sv c w1) as [[e | []] w2]
  end.
  { destruct (is_CalledProcessError e) eqn:Hc; cbv [orb];
      [| destruct (is_FileNotFoundError e) eqn:Hf];
      intros [= <- <- <-]; cbv zeta; right; right;
      [left | right; left | right; right; left]; exists e; auto. }
  intros [= <- <- <-]. cbv zeta. do 5 right. auto.
Qed.

End Compression.

(** X8: [compress_video] returns only after the output directory was made
    and ffmpeg ended well, and what it returns is the path of the [.webm]
    file under [compressed/].  If making the directory fails with an
    [OSError], ffmpeg is not run and the process exits with code 1; a
    non-zero exit of ffmpeg or a missing ffmpeg exits with code 1 as well;
    any other exception leaves the function. *)
Theorem compress_video_outcomes {World : Type} (sv : Services World)
    (input_path : string) (crf : Z) (w w' : World) (o : Outcome string)
    (t : list Event) :
  compress_video sv input_path crf w = (o, w', t) ->
  (forall p,
      o = Return p ->
      p = output_path_of sv input_path
      /\ In (EMkdir "compressed" (inr tt)) t
      /\ In (ERun (ffmpeg_command input_path crf p) (inr tt)) t)
  /\ (forall d e,
         In (EMkdir d (inl e)) t ->
         count is_run t = 0%nat
         /\ o = (if is_OSError e then Exit 1 else Raise e))
  /\ (forall c e,
         In (ERun c (inl e)) t ->
         o = (if is_CalledProcessError e || is_FileNotFoundError e
              then Exit 1 else Raise e))
  /\ (count is_run t <= 1)%nat
  /\ count is_remote_call t = 0%nat.
Proof.
  intros Hrun. apply compress_video_cases in Hrun. cbv zeta in Hrun.
  destruct Hrun as [(e & He & -> & ->) | [(e & He & -> & ->)
                   | [(e & Hc & -> & ->) | [(e & Hc & Hf & -> & ->)
                   | [(e & Hc & Hf & -> & ->) | (-> & ->)]]]]];
    (split; [| split; [| split; [| split]]]);
    try (intros p Hp; discriminate Hp);
    try (unfold count; simpl; lia);
    try (intros x e' Hin; simpl in Hin;
         repeat (destruct Hin as [Hin | Hin]; [try discriminate Hin |]);
         try contradiction;
         injection Hin as _ <-; rewrite ?He, ?Hc, ?Hf; auto).
  intros p [= <-]. split; [reflexivity |]. split; simpl; tauto.
Qed.

Lemma compress_video_outcomes_witness :
  (forall p,
      Return "compressed/clip.webm" = Return p ->
      p = output_path_of sim_ok "clip.mov"
      /\ In (EMkdir "compressed" (inr tt))
           (snd (compress_video sim_ok "clip.mov" 32 (sim_world [])))
      /\ In (ERun (ffmpeg_command "clip.mov" 32 p) (inr tt))
           (snd (compress_video sim_ok "clip.mov" 32 (sim_world []))))
  /\ (forall d e,
         In (EMkdir d (inl e))
           (snd (compress_video sim_ok "clip.mov" 32 (sim_world []))) ->
         count is_run (snd (compress_video sim_ok "clip.mov" 32 (sim_world [])))
         = 0%nat
         /\ Return "compressed/clip.webm"
            = (if is_OSError e then Exit 1 else Raise e))
  /\ (forall c e,
         In (ERun c (inl e))
           (snd (compress_video sim_ok "clip.mov" 32 (sim_world []))) ->
         Return "compressed/clip.webm"
         = (if is_CalledProcessError e || is_FileNotFoundError e
            then Exit 1 else Raise e))
  /\ (count is_run (snd (compress_video sim_ok "clip.mov" 32 (sim_world [])))
      <= 1)%nat
  /\ count is_remote_call
       (snd (compress_video sim_ok "clip.mov" 32 (sim_world [])))
     = 0%nat.
Proof.
  apply (compress_video_outcomes sim_ok "clip.mov" 32 (sim_world [])
           (sim_world []) (Return "compressed/clip.webm") _).
  reflexivity.
Defined.

(** ** The stages of the script *)

Lemma upload_phase_event_is_late (e : Event) :
  is_upload_phase_event e = true -> is_late_event e = true.
Proof. destruct e as [| | | | | | m | | | | | |]; try destruct m; (discriminate || reflexivity). Qed.

Lemma late_event_not_setup (e : Event) :
  is_late_event e = true ->
  is_run e = false /\ is_mkdir e = false
  /\ (forall p b, e <> EIsFile p b) /\ e <> ESay MsgMissingEnv.
Proof.
  destruct e as [| | | | | | m | | | | | |]; try destruct m;
    try discriminate; repeat split; intros; discriminate.
Qed.

Section Stages.
Context {World : Type} (sv : Services World).

Lemma check_environment_exact w :
  check_environment sv w
  = if environment_ready sv w then (Return tt, w, [])
    else (Exit 1, w, [ESay MsgMissingEnv]).
Proof.
  cbv [check_environment environment_ready bind say emit sys_exit ret].
  destruct (truthy (os_getenv sv "WEBFLOW_API_TOKEN" w));
    destruct (truthy (os_getenv sv "SITE_ID" w)); reflexivity.
Qed.

Lemma validate_input_exact input_file w :
  validate_input sv input_file w
  = if path_is_file sv (pathlib_Path sv input_file) w
    then (Return tt, w, [EIsFile (pathlib_Path sv input_file) true])
    else (Exit 1, w,
          [EIsFile (pathlib_Path sv input_file) false;
           ESay (MsgInputNotFound input_file)]).
Proof.
  cbv [validate_input bind say emit sys_exit ret].
  destruct (path_is_file sv (pathlib_Path sv input_file) w); reflexivity.
Qed.

(** What follows the compression logs late events only. *)
Lemma after_compression_events input_path compressed_path w o w' t :
  bind (compare_sizes sv input_path compressed_path)
    (fun _ => confirm_and_upload sv compressed_path) w = (o, w', t) ->
  Forall (fun e => is_late_event e = true) t.
Proof.
  intros H. apply bind_inv in H.
  destruct H as [([] & w1 & t1 & t2 & Hsz & H & ->)
                | [(e & Hsz & ->) | (c & Hsz & ->)]];
    apply compare_sizes_run in Hsz;
    destruct Hsz as [(e1 & Ho & ->) | [(a & e1 & Ho & ->)
                    | [(b & Ho & ->) | (a & b & Ha & Ho & ->)]]];
    try discriminate Ho; try (repeat constructor).
  apply confirm_and_upload_run in H. apply confirm_run_events in H.
  eapply Forall_impl; [| exact H]. exact upload_phase_event_is_late.
Qed.

(** The script stage by stage: the environment, the input path, the
    compression, then the rest. *)
Lemma script_stages input_file crf w o w' t :
  script sv input_file crf w = (o, w', t) ->
  let input_path := pathlib_Path sv input_file in
  (environment_ready sv w = false
   /\ o = Exit 1 /\ w' = w /\ t = [ESay MsgMissingEnv])
  \/ (environment_ready sv w = true
      /\ path_is_file sv input_path w = false
      /\ o = Exit 1 /\ w' = w
      /\ t = [EIsFile input_path false; ESay (MsgInputNotFound input_file)])
  \/ (environment_ready sv w = true
      /\ path_is_file sv input_path w = true
      /\ exists oc wc tc,
           compress_video sv input_path crf w = (oc, wc, tc)
           /\ ((t = EIsFile input_path true :: tc
                /\ ((oc = Exit 1 /\ o = Exit 1)
                    \/ exists e, oc = Raise e /\ o = Raise e))
               \/ (oc = Return (output_path_of sv input_path)
                   /\ exists rest,
                        t = EIsFile input_path true :: tc ++ rest
                        /\ Forall (fun e => is_late_event e = true) rest
                        /\ bind (compare_sizes sv input_path
                                   (output_path_of sv input_path))
                             (fun _ => confirm_and_upload sv
                                         (output_path_of sv input_path)) wc
                           = (o, w', rest)))).
Proof.
  unfold script, main. intros H. cbv zeta.
  apply bind_inv in H. rewrite check_environment_exact in H.
  destruct (environment_ready sv w) eqn:Henv.
  2:{ left. destruct H as [(a & w1 & t1 & t2 & Hc & _) | [(e & Hc & _)
                          | (c & [= <- <- <-] & ->)]]; try discriminate Hc.
      auto. }
  right.
  destruct H as [([] & w1 & t1 & t2 & [= <- <-] & H & ->)
                | [(e & Hc & _) | (c & Hc & _)]]; try discriminate Hc.
  cbv zeta in H. apply bind_inv in H. rewrite validate_input_exact in H.
  destruct (path_is_file sv (pathlib_Path sv input_file) w) eqn:Hfile.
  2:{ left. destruct H as [(a & w3 & t3 & t4 & Hc & _) | [(e & Hc & _)
                          | (c & [= <- <- <-] & ->)]]; try discriminate Hc.
      auto. }
  right. split; [reflexivity |]. split; [reflexivity |].
  destruct H as [([] & w3 & t3 & t4 & [= <- <-] & H & ->)
                | [(e & Hc & _) | (c & Hc & _)]]; try discriminate Hc.
  apply bind_inv in H.
  destruct H as [(cp & w5 & t5 & t6 & Hcmp & H & ->)
                | [(e & Hcmp & ->) | (c & Hcmp & ->)]].
  - exists (Return cp), w5, t5. split; [exact Hcmp |]. right.
    pose proof (compress_video_cases sv _ _ _ _ _ _ Hcmp) as Hcases.
    cbv zeta in Hcases.
    destruct Hcases as [(e & _ & Ho & _) | [(e & _ & Ho & _)
                       | [(e & _ & Ho & _) | [(e & _ & _ & Ho & _)
                       | [(e & _ & _ & Ho & _) | (Ho & _)]]]]];
      try discriminate Ho.
    injection Ho as ->. split; [reflexivity |].
    exists t6. split; [reflexivity |].
    split; [exact (after_compression_events _ _ _ _ _ _ H) | exact H].
  - eexists _, _, _. split; [exact Hcmp |]. left.
    split; [reflexivity |]. right. eauto.
  - eexists _, _, _. split; [exact Hcmp |]. left.
    pose proof (compress_video_cases sv _ _ _ _ _ _ Hcmp) as Hcases.
    cbv zeta in Hcases.
    destruct Hcases as [(e & _ & Ho & _) | [(e & _ & Ho & _)
                       | [(e & _ & Ho & _) | [(e & _ & _ & Ho & _)
                       | [(e & _ & _ & Ho & _) | (Ho & _)]]]]];
      try discriminate Ho; injection Ho as ->; auto.
Qed.

End Stages.

(** X9: the script stops at once, with exit code 1 and nothing done but
    printing the error, exactly when [WEBFLOW_API_TOKEN] or [SITE_ID] is
    unset or empty: the input path is not even looked at. *)
Theorem script_needs_environment {World : Type} (sv : Services World)
    (input_file : string) (crf : Z) (w : World) :
  environment_ready sv w = false
  <-> script sv input_file crf w = (Exit 1, w, [ESay MsgMissingEnv]).
Proof.
  split.
  - intros Henv. unfold script, bind. rewrite check_environment_exact, Henv.
    reflexivity.
  - intros Hrun. apply script_stages in Hrun. cbv zeta in Hrun.
    destruct Hrun as [(Henv & _) | [(_ & _ & _ & _ & Ht)
                     | (_ & _ & oc & wc & tc & _ & [(Ht & _)
                                                   | (_ & rest & Ht & _)])]];
      [exact Henv | discriminate Ht | discriminate Ht | discriminate Ht].
Qed.

Section Validation.
Context {World : Type} (sv : Services World).

(** In a run that compressed the video, the events of the compression. *)
Lemma compression_events input_path crf w oc wc tc c r :
  compress_video sv input_path crf w = (oc, wc, tc) ->
  In (ERun c r) tc ->
  In (EMkdir "compressed" (inr tt)) tc
  /\ c = ffmpeg_command input_path crf (output_path_of sv input_path)
  /\ count is_run tc = 1%nat
  /\ (forall e, r = inl e ->
        oc = (if is_CalledProcessError e || is_FileNotFoundError e
              then Exit 1 else Raise e)
        /\ count is_remote_call tc = 0%nat
        /\ count is_stat tc = 0%nat /\ count is_input tc = 0%nat).
Proof.
  intros Hcmp Hin. apply compress_video_cases in Hcmp. cbv zeta in Hcmp.
  destruct Hcmp as [(e & He & -> & ->) | [(e & He & -> & ->)
                   | [(e & Hc & -> & ->) | [(e & Hc & Hf & -> & ->)
                   | [(e & Hc & Hf & -> & ->) | (-> & ->)]]]]];
    simpl in Hin;
    repeat (destruct Hin as [Hin | Hin]; [try discriminate Hin |]);
    try contradiction;
    pose proof (f_equal (fun ev => match ev with ERun c0 _ => c0 | _ => [] end)
                  Hin) as Ec;
    pose proof (f_equal (fun ev => match ev with
                                   | ERun _ r0 => r0
                                   | _ => inr tt
                                   end) Hin) as Er;
    cbv beta iota in Ec, Er; subst c r; clear Hin;
    (split; [simpl; tauto |]); (split; [reflexivity |]);
    (split; [reflexivity |]); intros e' He';
    try discriminate He'; injection He' as <-;
    rewrite ?Hc, ?Hf; repeat split.
Qed.

Lemma late_events_count (p : Event -> bool) (rest : list Event) :
  (forall e, is_late_event e = true -> p e = false) ->
  Forall (fun e => is_late_event e = true) rest ->
  count p rest = 0%nat.
Proof. intros Hp F. exact (count_zero_class is_late_event p rest Hp F). Qed.

End Validation.

(** X10: ffmpeg is run at most once in a run of the script, and only on a
    path that was checked to be a file, after the output directory was
    made, with the command built from that path and the CRF given; when the
    path is no file the script prints so and exits with code 1 without
    making the directory or running ffmpeg. *)
Theorem compression_needs_checked_input {World : Type} (sv : Services World)
    (input_file : string) (crf : Z) (w w' : World) (o : Outcome unit)
    (t : list Event) :
  script sv input_file crf w = (o, w', t) ->
  (forall p,
      In (EIsFile p false) t ->
      o = Exit 1
      /\ t = [EIsFile (pathlib_Path sv input_file) false;
              ESay (MsgInputNotFound input_file)])
  /\ (forall c r,
         In (ERun c r) t ->
         In (EIsFile (pathlib_Path sv input_file) true) t
         /\ In (EMkdir "compressed" (inr tt)) t
         /\ c = ffmpeg_command (pathlib_Path sv input_file) crf
                  (output_path_of sv (pathlib_Path sv input_file))
         /\ count is_run t = 1%nat).
Proof.
  intros Hrun. apply script_stages in Hrun. cbv zeta in Hrun.
  destruct Hrun as [(_ & -> & _ & ->) | [(_ & _ & -> & _ & ->)
                   | (_ & _ & oc & wc & tc & Hcmp & Hrest)]].
  - split.
    + intros p [Hin | []]. discriminate Hin.
    + intros c r [Hin | []]. discriminate Hin.
  - split; [intros p _; auto |].
    intros c r [Hin | [Hin | []]]; discriminate Hin.
  - assert (Hnofile : forall p b, ~ In (EIsFile p b) tc).
    { intros p b Hin.
      pose proof (compress_video_cases sv _ _ _ _ _ _ Hcmp) as Hc.
      cbv zeta in Hc.
      destruct Hc as [(e & _ & _ & ->) | [(e & _ & _ & ->)
                     | [(e & _ & _ & ->) | [(e & _ & _ & _ & ->)
                     | [(e & _ & _ & _ & ->) | (_ & ->)]]]]];
        simpl in Hin; intuition discriminate. }
    destruct Hrest as [(-> & _) | (-> & rest & -> & Frest & _)].
    + split.
      * intros p [Hin | Hin]; [discriminate Hin |].
        exfalso. exact (Hnofile _ _ Hin).
      * intros c r [Hin | Hin]; [discriminate Hin |].
        destruct (compression_events sv _ _ _ _ _ _ _ _ Hcmp Hin)
          as (Hmk & -> & Hone & _).
        split; [left; reflexivity |]. split; [right; exact Hmk |].
        split; [reflexivity |].
        change (EIsFile (pathlib_Path sv input_file) true :: tc)
          with ([EIsFile (pathlib_Path sv input_file) true] ++ tc).
        rewrite count_app, Hone. reflexivity.
    + assert (Hlate : forall e, In e rest -> is_late_event e = true)
        by (intros e; exact (Forall_class_in _ _ _ Frest)).
      split.
      * intros p [Hin | Hin]; [discriminate Hin |].
        exfalso. apply in_app_or in Hin. destruct Hin as [Hin | Hin];
          [exact (Hnofile _ _ Hin) |].
        apply Hlate, late_event_not_setup in Hin.
        destruct Hin as (_ & _ & Hno & _). exact (Hno _ _ eq_refl).
      * intros c r [Hin | Hin]; [discriminate Hin |].
        apply in_app_or in Hin. destruct Hin as [Hin | Hin].
        -- destruct (compression_events sv _ _ _ _ _ _ _ _ Hcmp Hin)
             as (Hmk & -> & Hone & _).
           split; [left; reflexivity |].
           split; [right; apply in_or_app; left; exact Hmk |].
           split; [reflexivity |].
           change (EIsFile (pathlib_Path sv input_file) true :: tc ++ rest)
             with ([EIsFile (pathlib_Path sv input_file) true] ++ tc ++ rest).
           rewrite !count_app, Hone, (late_events_count is_run rest); auto.
           intros e He. apply late_event_not_setup in He. tauto.
        -- exfalso. apply Hlate, late_event_not_setup in Hin.
           destruct Hin as (Hno & _). discriminate Hno.
Qed.

Lemma compression_needs_checked_input_witness :
  (forall p,
      In (EIsFile p false) (snd missing_file_run) ->
      @Exit unit 1 = Exit 1
      /\ snd missing_file_run
         = [EIsFile (pathlib_Path
                       (sim_services
                          (with_is_file false (sim_scenario "y" "201" 201)))
                       "clip.mov") false;
            ESay (MsgInputNotFound "clip.mov")])
  /\ (forall c r,
         In (ERun c r) (snd missing_file_run) ->
         In (EIsFile "clip.mov" true) (snd missing_file_run)
         /\ In (EMkdir "compressed" (inr tt)) (snd missing_file_run)
         /\ c = ffmpeg_command "clip.mov" 32 "compressed/clip.webm"
         /\ count is_run (snd missing_file_run) = 1%nat).
Proof.
  apply (compression_needs_checked_input
           (sim_services (with_is_file false (sim_scenario "y" "201" 201)))
           "clip.mov" 32 (sim_world []) (sim_world []) (Exit 1)
           (snd missing_file_run)).
  reflexivity.
Defined.

(** X11: a failure of the compression ends the script with exit code 1
    before anything is measured, asked or sent.  An [OSError] when making
    the output directory, a non-zero exit of ffmpeg and a missing ffmpeg end
    it through [sys.exit(1)]; any other exception leaves the script
    uncaught. *)
Theorem failed_compression_stops_script {World : Type} (sv : Services World)
    (input_file : string) (crf : Z) (w w' : World) (o : Outcome unit)
    (t : list Event) :
  script sv input_file crf w = (o, w', t) ->
  (forall d e,
      In (EMkdir d (inl e)) t ->
      o = (if is_OSError e then Exit 1 else Raise e)
      /\ exit_code o = 1
      /\ count is_run t = 0%nat /\ count is_stat t = 0%nat
      /\ count is_input t = 0%nat /\ count is_remote_call t = 0%nat)
  /\ (forall c e,
         In (ERun c (inl e)) t ->
         o = (if is_CalledProcessError e || is_FileNotFoundError e
              then Exit 1 else Raise e)
         /\ exit_code o = 1
         /\ count is_stat t = 0%nat
         /\ count is_input t = 0%nat /\ count is_remote_call t = 0%nat).
Proof.
  intros Hrun. apply script_stages in Hrun. cbv zeta in Hrun.
  destruct Hrun as [(_ & -> & _ & ->) | [(_ & _ & -> & _ & ->)
                   | (_ & _ & oc & wc & tc & Hcmp & Hrest)]].
  - split; intros x e Hin; in_cases Hin.
  - split; intros x e Hin; in_cases Hin.
  - pose proof (compress_video_cases sv _ _ _ _ _ _ Hcmp) as Hc.
    cbv zeta in Hc.
    destruct Hrest as [(-> & Ho) | (-> & rest & -> & Frest & _)].
    + destruct Hc as [(e & He & Hoc & ->) | [(e & He & Hoc & ->)
                     | [(e & Hce & Hoc & ->) | [(e & Hce & Hfe & Hoc & ->)
                     | [(e & Hce & Hfe & Hoc & ->) | (Hoc & ->)]]]]];
        subst oc;
        (destruct Ho as [(Hoc & ->) | (e0 & Hoc & ->)];
         try discriminate Hoc; try (injection Hoc as <-));
        split; intros x e' Hin; in_cases Hin;
        injection Hin as _ <-; rewrite ?He, ?Hce, ?Hfe;
        repeat split.
    + assert (Hlate : forall e, In e rest -> is_late_event e = true)
        by (intros e; exact (Forall_class_in _ _ _ Frest)).
      destruct Hc as [(e & _ & Hoc & _) | [(e & _ & Hoc & _)
                     | [(e & _ & Hoc & _) | [(e & _ & _ & Hoc & _)
                     | [(e & _ & _ & Hoc & _) | (_ & ->)]]]]];
        try discriminate Hoc.
      split; intros x e' Hin; exfalso;
        (destruct Hin as [Hin | Hin]; [discriminate Hin |]);
        (apply in_app_or in Hin; destruct Hin as [Hin | Hin];
         [in_cases Hin |]);
        apply Hlate, late_event_not_setup in Hin;
        destruct Hin as (Hr & Hm & _); discriminate.
Qed.

Lemma failed_compression_stops_script_witness :
  (forall d e,
      In (EMkdir d (inl e)) (snd ffmpeg_failed_run) ->
      @Exit unit 1 = (if is_OSError e then Exit 1 else Raise e)
      /\ exit_code (@Exit unit 1) = 1
      /\ count is_run (snd ffmpeg_failed_run) = 0%nat
      /\ count is_stat (snd ffmpeg_failed_run) = 0%nat
      /\ count is_input (snd ffmpeg_failed_run) = 0%nat
      /\ count is_remote_call (snd ffmpeg_failed_run) = 0%nat)
  /\ (forall c e,
         In (ERun c (inl e)) (snd ffmpeg_failed_run) ->
         @Exit unit 1
         = (if is_CalledProcessError e || is_FileNotFoundError e
            then Exit 1 else Raise e)
         /\ exit_code (@Exit unit 1) = 1
         /\ count is_stat (snd ffmpeg_failed_run) = 0%nat
         /\ count is_input (snd ffmpeg_failed_run) = 0%nat
         /\ count is_remote_call (snd ffmpeg_failed_run) = 0%nat).
Proof.
  apply (failed_compression_stops_script
           (sim_services
              (with_ffmpeg (inl (CalledProcessError 1))
                 (sim_scenario "y" "201" 201)))
           "clip.mov" 32 (sim_world []) (sim_world []) (Exit 1)
           (snd ffmpeg_failed_run)).
  reflexivity.
Defined.

(** ** Consent, folder and exit code *)

Lemma upload_phase_remote_or_not (e : Event) :
  is_setup_event e = true -> is_input e = false.
Proof.
  intros He. apply setup_is_local in He. unfold is_local_event in He.
  destruct (is_input e); [| reflexivity].
  rewrite andb_false_r in He. discriminate.
Qed.

Section Consent.
Context {World : Type} (sv : Services World).

Lemma upload_run_initiation site folder file_path t s d n h r :
  upload_run sv site folder file_path t ->
  In (ECreateAsset s d n h r) t ->
  s = site /\ d = folder /\ n = os_path_basename sv file_path
  /\ exists f,
       In (EOpen file_path (inr f)) t /\ h = md5_hexdigest sv f.
Proof.
  intros Hrun Hin.
  assert (Hd : forall f, digest_of sv f = md5_hexdigest sv f).
  { intros f. unfold digest_of. rewrite read_chunks_all by lia. reflexivity. }
  inversion Hrun as [e | f e | f u e | f u f2 e | f u f2 c Hc
                     | f u f2 polled final Fp Hfinal]; subst.
  - in_cases Hin.
  - in_cases Hin. injection Hin as <- <- <- <- _.
    repeat split. exists f. split; [simpl; tauto | apply Hd].
  - in_cases Hin. injection Hin as <- <- <- <- _.
    repeat split. exists f. split; [simpl; tauto | apply Hd].
  - in_cases Hin. injection Hin as <- <- <- <- _.
    repeat split. exists f. split; [simpl; tauto | apply Hd].
  - in_cases Hin. injection Hin as <- <- <- <- _.
    repeat split. exists f. split; [simpl; tauto | apply Hd].
  - apply in_app_or in Hin. destruct Hin as [Hin | Hin].
    + in_cases Hin. injection Hin as <- <- <- <- _.
      repeat split. exists f. split; [simpl; tauto | apply Hd].
    + exfalso. apply in_app_or in Hin. destruct Hin as [Hin | Hin].
      * apply (poll_event_in _ _ Fp) in Hin. discriminate.
      * in_cases Hin.
Qed.

(** From the prompt on: what a run that contacts a remote party, or that
    got no line at the prompt, looks like. *)
Lemma confirm_run_consent compressed_path o t :
  confirm_run sv compressed_path o t ->
  count is_input t = 1%nat
  /\ (count is_remote_call t <> 0%nat ->
      exists line,
        In (EInput (confirm_prompt sv compressed_path) (inr line)) t
        /\ accepts line)
  /\ (forall prompt e,
         In (EInput prompt (inl e)) t ->
         o = Raise e /\ count is_remote_call t = 0%nat)
  /\ (o = Return tt \/ exists e, o = Raise e)
  /\ (o = Return tt ->
      exists line, In (EInput (confirm_prompt sv compressed_path) (inr line)) t).
Proof.
  intros Hrun.
  inversion Hrun as [e | line Hno | line site e t1 Hyes Hres
                     | line site id t1 Hyes Hres Hid
                     | line site id t1 t2 Hyes Hres Hid Hup]; subst.
  - split; [reflexivity |]. split; [intros H; exfalso; apply H; reflexivity |].
    split; [| split; [eauto | discriminate]].
    intros prompt e' Hin. in_cases Hin. injection Hin as _ <-. auto.
  - split; [reflexivity |]. split; [intros H; exfalso; apply H; reflexivity |].
    split; [| split; [auto |]].
    + intros prompt e' Hin. in_cases Hin.
    + intros _. exists line. simpl. tauto.
  - pose proof (resolver_run_no_input _ _ _ _ Hres) as Hni.
    split; [unfold count in *; simpl; rewrite Hni; reflexivity |].
    split; [intros _; exists line; simpl; tauto |].
    split; [| split; [eauto | discriminate]].
    intros prompt e' [Hin | Hin]; [discriminate Hin |].
    exfalso. refine (count_zero_not_In _ _ _ Hni _ Hin). reflexivity.
  - pose proof (resolver_run_no_input _ _ _ _ Hres) as Hni.
    split; [unfold count in *; simpl; rewrite Hni; reflexivity |].
    split; [intros _; exists line; simpl; tauto |].
    split; [| split; [auto | intros _; exists line; simpl; tauto]].
    intros prompt e' [Hin | Hin]; [discriminate Hin |].
    exfalso. refine (count_zero_not_In _ _ _ Hni _ Hin). reflexivity.
  - pose proof (resolver_run_no_input _ _ _ _ Hres) as Hni.
    pose proof (upload_run_no_input sv _ _ _ _ Hup) as Hnu.
    split.
    { change (EInput (confirm_prompt sv compressed_path) (inr line) :: t1 ++ t2)
        with ([EInput (confirm_prompt sv compressed_path) (inr line)]
              ++ t1 ++ t2).
      rewrite !count_app, Hni, Hnu. reflexivity. }
    split; [intros _; exists line; simpl; tauto |].
    split; [| split; [auto | intros _; exists line; simpl; tauto]].
    intros prompt e' [Hin | Hin]; [discriminate Hin |].
    exfalso. apply in_app_or in Hin. destruct Hin as [Hin | Hin].
    + refine (count_zero_not_In _ _ _ Hni _ Hin). reflexivity.
    + refine (count_zero_not_In _ _ _ Hnu _ Hin). reflexivity.
Qed.

(** In a run of step 4, an upload initiation follows a folder resolution
    that returned a non-empty id, and is made for that folder and for the
    file given. *)
Lemma confirm_run_initiation compressed_path o t s d n h r :
  confirm_run sv compressed_path o t ->
  In (ECreateAsset s d n h r) t ->
  d <> EmptyString
  /\ ((exists l f,
          In (EListFolders s (inr l)) t
          /\ In f l /\ display_name f = Some "Video Uploads"
          /\ d = folder_id f)
      \/ (exists f,
             In (ECreateFolder s "Video Uploads" (inr f)) t /\ d = folder_id f))
  /\ n = os_path_basename sv compressed_path
  /\ exists f,
       In (EOpen compressed_path (inr f)) t /\ h = md5_hexdigest sv f.
Proof.
  intros Hrun Hin.
  inversion Hrun as [e | line Hno | line site e t1 Hyes Hres
                     | line site id t1 Hyes Hres Hid
                     | line site id t1 t2 Hyes Hres Hid Hup]; subst;
    try (in_cases Hin; fail);
    (destruct Hin as [Hin | Hin]; [discriminate Hin |]);
    try (exfalso; apply resolver_run_no_initiation in Hres;
         refine (count_zero_not_In _ _ _ Hres _ Hin); reflexivity).
  apply in_app_or in Hin. destruct Hin as [Hin | Hin];
    [exfalso; apply resolver_run_no_initiation in Hres;
     refine (count_zero_not_In _ _ _ Hres _ Hin); reflexivity |].
  destruct (upload_run_initiation _ _ _ _ _ _ _ _ _ Hup Hin)
    as (-> & -> & -> & f & Hopen & ->).
  split; [intros ->; discriminate Hid |].
  split; [| split; [reflexivity |]].
  - inversion Hres as [| l f0 Hf | | l f0 Hf]; subst.
    + left. destruct (find_some _ _ Hf) as [Hl Hname].
      apply name_is_true in Hname. exists l, f0.
      split; [right; left; reflexivity | auto].
    + right. exists f0. split; [| reflexivity].
      right. apply in_or_app. left. simpl. tauto.
  - exists f. split; [| reflexivity].
    right. apply in_or_app. right. exact Hopen.
Qed.

End Consent.

(** X12: no request goes to the Webflow API or to the upload target unless
    the user was asked and the answer counts as a yes; the user is asked at
    most once, and when the prompt cannot be read (end of input) the
    exception leaves the script, exit code 1, with no request made. *)
Theorem remote_calls_need_consent {World : Type} (sv : Services World)
    (input_file : string) (crf : Z) (w w' : World) (o : Outcome unit)
    (t : list Event) :
  script sv input_file crf w = (o, w', t) ->
  (count is_input t <= 1)%nat
  /\ (count is_remote_call t <> 0%nat ->
      exists prompt line, In (EInput prompt (inr line)) t /\ accepts line)
  /\ (forall prompt e,
         In (EInput prompt (inl e)) t ->
         o = Raise e /\ exit_code o = 1 /\ count is_remote_call t = 0%nat).
Proof.
  intros Hrun. apply script_runs in Hrun.
  assert (Hsetup : forall setup,
             Forall (fun e => is_setup_event e = true) setup ->
             count is_input setup = 0%nat
             /\ count is_remote_call setup = 0%nat).
  { intros setup F. split.
    - exact (count_zero_class _ _ _ upload_phase_remote_or_not F).
    - apply (count_zero_class is_setup_event); [| exact F].
      intros e He. apply setup_is_local in He.
      exact (local_event_not_remote _ He). }
  inversion Hrun as [o0 setup F Ho | setup e F | setup cp a e F
                     | setup cp b F | setup cp a b o0 tc F Ha Hc]; subst;
    destruct (Hsetup _ F) as [Hi Hr].
  - split; [lia |]. split; [intros H; contradiction |].
    intros prompt e Hin. exfalso.
    refine (count_zero_not_In _ _ _ Hi _ Hin). reflexivity.
  - rewrite !count_app, Hi, Hr.
    split; [unfold count; simpl; lia |]. split; [intros H; exfalso; apply H; reflexivity |].
    intros prompt e' Hin. exfalso. apply in_app_or in Hin.
    destruct Hin as [Hin | Hin]; [| in_cases Hin].
    refine (count_zero_not_In _ _ _ Hi _ Hin). reflexivity.
  - rewrite !count_app, Hi, Hr.
    split; [unfold count; simpl; lia |]. split; [intros H; exfalso; apply H; reflexivity |].
    intros prompt e' Hin. exfalso. apply in_app_or in Hin.
    destruct Hin as [Hin | Hin]; [| in_cases Hin].
    refine (count_zero_not_In _ _ _ Hi _ Hin). reflexivity.
  - rewrite !count_app, Hi, Hr.
    split; [unfold count; simpl; lia |]. split; [intros H; exfalso; apply H; reflexivity |].
    intros prompt e' Hin. exfalso. apply in_app_or in Hin.
    destruct Hin as [Hin | Hin]; [| in_cases Hin].
    refine (count_zero_not_In _ _ _ Hi _ Hin). reflexivity.
  - destruct (confirm_run_consent sv _ _ _ Hc)
      as (Hone & Hyes & Hnone & _ & _).
    rewrite !count_app, Hi, Hr, Hone.
    split; [unfold count at 1; simpl; lia |]. split.
    + intros Hcount. destruct Hyes as (line & Hin & Hacc).
      * intros Hz. apply Hcount. rewrite Hz. reflexivity.
      * exists (confirm_prompt sv cp), line. split; [| exact Hacc].
        apply in_or_app. right. apply in_or_app. right. exact Hin.
    + intros prompt e Hin.
      apply in_app_or in Hin. destruct Hin as [Hin | Hin];
        [exfalso; refine (count_zero_not_In _ _ _ Hi _ Hin); reflexivity |].
      apply in_app_or in Hin. destruct Hin as [Hin | Hin]; [in_cases Hin |].
      destruct (Hnone _ _ Hin) as [-> Hz].
      split; [reflexivity |]. split; [reflexivity |]. rewrite Hz. reflexivity.
Qed.

Lemma remote_calls_need_consent_witness :
  (count is_input (snd no_answer_run) <= 1)%nat
  /\ (count is_remote_call (snd no_answer_run) <> 0%nat ->
      exists prompt line,
        In (EInput prompt (inr line)) (snd no_answer_run) /\ accepts line)
  /\ (forall prompt e,
         In (EInput prompt (inl e)) (snd no_answer_run) ->
         @Raise unit EOFError = Raise e
         /\ exit_code (@Raise unit EOFError) = 1
         /\ count is_remote_call (snd no_answer_run) = 0%nat).
Proof.
  apply (remote_calls_need_consent
           (sim_services (with_input (inl EOFError) (sim_scenario "y" "201" 201)))
           "clip.mov" 32 (sim_world []) (sim_world []) (Raise EOFError)
           (snd no_answer_run)).
  reflexivity.
Defined.



(** X13: an upload is only ever initiated for the compressed file and into
    the resolved folder: the request carries the base name of the file
    [compress_video] wrote, the MD5 digest of the bytes read from that very
    file (not of the original), and a non-empty folder id that is the id of
    a listed folder named [Video Uploads] or the id the create request for
    that name returned. *)
Theorem upload_is_for_compressed_file {World : Type} (sv : Services World)
    (input_file : string) (crf : Z) (w w' : World) (o : Outcome unit)
    (t : list Event) (site : option string) (folder name hash : string)
    (r : answer AssetUpload) :
  script sv input_file crf w = (o, w', t) ->
  In (ECreateAsset site folder name hash r) t ->
  folder <> EmptyString
  /\ ((exists l f,
          In (EListFolders site (inr l)) t
          /\ In f l /\ display_name f = Some "Video Uploads"
          /\ folder = folder_id f)
      \/ (exists f,
             In (ECreateFolder site "Video Uploads" (inr f)) t
             /\ folder = folder_id f))
  /\ name = os_path_basename sv (output_path_of sv (pathlib_Path sv input_file))
  /\ exists bytes,
       In (EOpen (output_path_of sv (pathlib_Path sv input_file)) (inr bytes)) t
       /\ hash = md5_hexdigest sv bytes.
Proof.
  intros Hrun Hin. apply script_stages in Hrun. cbv zeta in Hrun.
  destruct Hrun as [(_ & -> & _ & ->) | [(_ & _ & -> & _ & ->)
                   | (_ & _ & oc & wc & tc & Hcmp & Hrest)]];
    [in_cases Hin | in_cases Hin |].
  assert (Htc : ~ In (ECreateAsset site folder name hash r) tc).
  { intros Hc. pose proof (compress_video_run sv _ _ _ _ _ _ Hcmp) as [F _].
    apply (Forall_class_in _ _ _ F) in Hc. discriminate Hc. }
  destruct Hrest as [(-> & _) | (-> & rest & -> & _ & Hlate)].
  { destruct Hin as [Hin | Hin]; [discriminate Hin | contradiction]. }
  destruct Hin as [Hin | Hin]; [discriminate Hin |].
  apply in_app_or in Hin. destruct Hin as [Hin | Hin]; [contradiction |].
  apply bind_inv in Hlate.
  destruct Hlate as [([] & w1 & t1 & t2 & Hsz & Hconf & ->)
                    | [(e & Hsz & ->) | (c & Hsz & ->)]];
    apply compare_sizes_run in Hsz;
    destruct Hsz as [(e1 & Ho & ->) | [(a & e1 & Ho & ->)
                    | [(b & Ho & ->) | (a & b & Ha & Ho & ->)]]];
    try discriminate Ho; try (in_cases Hin; fail).
  apply in_app_or in Hin. destruct Hin as [Hin | Hin]; [in_cases Hin |].
  apply confirm_and_upload_run in Hconf.
  destruct (confirm_run_initiation sv _ _ _ _ _ _ _ _ Hconf Hin)
    as (Hne & Hfolder & Hname & bytes & Hopen & Hhash).
  assert (Hlift : forall ev,
             In ev t2 ->
             In ev (EIsFile (pathlib_Path sv input_file) true
                      :: tc
                         ++ [EStat (pathlib_Path sv input_file) (inr a);
                             EStat (output_path_of sv (pathlib_Path sv input_file))
                               (inr b);
                             ESay (size_report a b)] ++ t2)).
  { intros ev Hev. right. apply in_or_app. right. apply in_or_app. right.
    exact Hev. }
  split; [exact Hne |]. split; [| split; [exact Hname |]].
  - destruct Hfolder as [(l & f & Hl & Hf & Hn & Hid) | (f & Hc & Hid)].
    + left. exists l, f. auto.
    + right. exists f. auto.
  - exists bytes. auto.
Qed.

Lemma upload_is_for_compressed_file_witness :
  "folder-0" <> EmptyString
  /\ ((exists l f,
          In (EListFolders (Some "site-1") (inr l)) (snd happy_run)
          /\ In f l /\ display_name f = Some "Video Uploads"
          /\ "folder-0" = folder_id f)
      \/ (exists f,
             In (ECreateFolder (Some "site-1") "Video Uploads" (inr f))
               (snd happy_run)
             /\ "folder-0" = folder_id f))
  /\ "clip.webm"
     = os_path_basename sim_ok
         (output_path_of sim_ok (pathlib_Path sim_ok "clip.mov"))
  /\ exists bytes,
       In (EOpen (output_path_of sim_ok (pathlib_Path sim_ok "clip.mov"))
             (inr bytes))
         (snd happy_run)
       /\ "4" = md5_hexdigest sim_ok bytes.
Proof.
  apply (upload_is_for_compressed_file sim_ok "clip.mov" 32
           (sim_world [inl RequestException; inr [];
                       inr [an_asset "asset-1" None (Some "https://cdn/clip")
                              None]])
           (snd (fst happy_run)) (Return tt) (snd happy_run)
           (Some "site-1") "folder-0" "clip.webm" "4"
           (inr (sim_upload "201"))).
  - vm_compute. reflexivity.
  - vm_compute. tauto.
Defined.

(** ** The upload, in general *)

Lemma poll_event_not_open (path : string) {World : Type} (sv : Services World)
    (e : Event) :
  is_poll_event e = true -> opens sv path e.
Proof. destruct e; (discriminate || (intros _; exact I)). Qed.

Section UploadInGeneral.
Context {World : Type} (sv : Services World).

(** Every listing request of the poller is addressed to the site given. *)
Lemma poll_attempt_site site asset delay i w :
  Forall (addressed_to site) (snd (poll_attempt sv site asset delay i w)).
Proof.
  unfold poll_attempt, try_except, bind, call, say, sleep, emit, ret, Exception.
  destruct (assets_list sv site w) as [[e | l] w1]; simpl.
  - repeat constructor.
  - destruct (find (fun a => (asset_id a =? asset)%string) l) as [a |]; simpl.
    + destruct (truthy (py_or (py_or (original_url a) (hosted_url a)) (url a)));
        simpl.
      * destruct (py_or (py_or (original_url a) (hosted_url a)) (url a));
          simpl; repeat constructor.
      * repeat constructor.
    + repeat constructor.
Qed.

Lemma poll_loop_site site asset delay n : forall i w,
  Forall (addressed_to site) (snd (poll_loop sv site asset delay n i w)).
Proof.
  induction n as [| n IH]; intros i w; cbn [poll_loop]; [constructor |].
  pose proof (poll_attempt_site site asset delay i w) as F1.
  destruct (poll_attempt_run sv site asset delay i w) as (r & w1 & t1 & H1 & _).
  rewrite H1 in F1. rewrite (bind_Return _ _ _ _ _ _ H1).
  destruct r as [u |]; cbv beta iota.
  - simpl. rewrite app_nil_r. exact F1.
  - pose proof (IH (i + 1) w1) as F2.
    destruct (poll_loop sv site asset delay n (i + 1) w1) as [[o2 w2] t2].
    simpl in *. apply Forall_app. split; assumption.
Qed.

Lemma poll_site site asset retries delay w :
  Forall (addressed_to site)
    (snd (poll_for_asset_url sv site asset retries delay w)).
Proof.
  pose proof (poll_loop_site site asset delay (Z.to_nat retries) 0 w) as F.
  unfold poll_for_asset_url, bind, say, emit.
  destruct (poll_loop sv site asset delay (Z.to_nat retries) 0 w)
    as [[o2 w2] t2].
  destruct o2; simpl in *; constructor; exact I || exact F.
Qed.

(** The budget of the polling inside [upload_local_asset]: 20 attempts,
    5 seconds apart. *)
Lemma default_poll_budget site asset w :
  exists r w' t,
    poll_for_asset_url sv site asset 20 5 w = (Return r, w', t)
    /\ (count is_list_assets t <= 20)%nat
    /\ 0 <= slept t <= 100
    /\ Forall (fun e => is_poll_event e = true) t
    /\ Forall (addressed_to site) t
    /\ (r = None -> count is_list_assets t = 20%nat /\ slept t = 100).
Proof.
  pose proof (poll_site site asset 20 5 w) as Fsite.
  destruct (poll_run sv site asset 20 5 w) as (r & w' & t & Hrun & Fp).
  rewrite Hrun in Fsite. simpl in Fsite.
  destruct (poll_loop_sleep sv site asset 5 (Z.to_nat 20) 0 w ltac:(lia))
    as (r2 & w2 & t2 & Hloop & Hs & Hn & Hl).
  destruct (poll_loop_cost sv site asset 5 (Z.to_nat 20) 0 w)
    as (r3 & w3 & t3 & Hloop3 & _ & _ & Hnone).
  rewrite Hloop in Hloop3. injection Hloop3 as <- <- <-.
  unfold poll_for_asset_url, bind, say, emit in Hrun. rewrite Hloop in Hrun.
  injection Hrun as <- <- <-.
  exists r2, w2, (ESay (MsgPolling (20 * 5)) :: t2).
  unfold poll_for_asset_url, bind, say, emit. rewrite Hloop.
  split; [reflexivity |].
  change (Z.of_nat (Z.to_nat 20) * 5) with 100 in *.
  change (Z.to_nat 20) with 20%nat in *.
  split; [exact Hl |]. split; [exact Hs |]. split; [exact Fp |].
  split; [exact Fsite |].
  intros Hr. split; [exact (proj1 (Hnone Hr)) | exact (Hn Hr)].
Qed.

(** What [open] logs is what the file system answered. *)
Lemma opens_answer path w : opens sv path (EOpen path (open_rb sv path w)).
Proof. split; [reflexivity | exists w; reflexivity]. Qed.

(** The runs of [upload_local_asset] once more, keeping what the trace
    relation leaves out: the worlds in which the file was opened, and the
    budget and the addressee of the polling. *)
Lemma upload_local_asset_details site folder file_path w o w' t :
  upload_local_asset sv site folder file_path w = (o, w', t) ->
  Forall (opens sv file_path) t
  /\ Forall (addressed_to site) t
  /\ (count is_list_assets t <= 20)%nat
  /\ 0 <= slept t <= 100
  /\ (In (ESay MsgTimedOut) t ->
      count is_list_assets t = 20%nat /\ slept t = 100)
  /\ (count is_list_assets t <> 0%nat \/ slept t <> 0 ->
      exists target data file, In (EPost target data file (inr 201)) t).
Proof.
  cbv [upload_local_asset try_except bind get_file_md5 query call say emit
         ret Exception].
  pose proof (opens_answer file_path w) as Ho1.
  destruct (open_rb sv file_path w) as [e | f]; [quiet_upload |].
  destruct (assets_create sv site folder (os_path_basename sv file_path) _ w)
    as [[e | u] w1]; [quiet_upload |].
  pose proof (opens_answer file_path w1) as Ho2.
  destruct (open_rb sv file_path w1) as [e | f2]; [quiet_upload |].
  destruct (requests_post sv _ _ _ w1) as [[e | code] w2]; [quiet_upload |].
  destruct (code =? 201) eqn:Hcode; [| quiet_upload].
  apply Z.eqb_eq in Hcode. subst code.
  destruct (default_poll_budget site (upload_id u) w2)
    as (r & w3 & tp & Hp & Hl & Hs & Fp & Fsite & Hnone).
  rewrite Hp.
  assert (Fopen : Forall (opens sv file_path) tp).
  { eapply Forall_impl; [| exact Fp]. intros a. apply poll_event_not_open. }
  assert (Hpoll : ~ In (ESay MsgTimedOut) tp).
  { intros Hin. apply (poll_event_in _ _ Fp) in Hin. discriminate. }
  assert (Hsome : forall cdn, r = Some cdn -> str_truthy cdn = true).
  { intros cdn ->.
    unfold poll_for_asset_url, bind, say, emit in Hp.
    destruct (poll_loop sv site (upload_id u) 5 (Z.to_nat 20) 0 w2)
      as [[o2 w4] t2] eqn:Hloop.
    destruct o2 as [r2 | e2 | c2]; try discriminate Hp.
    injection Hp as -> _ _.
    destruct (poll_loop_source sv _ _ _ _ _ _ _ _ _ Hloop)
      as (l & a & before & _ & _ & _ & Hu).
    exact Hu. }
  intros Hrun.
  assert (exists final,
             t = [ESay (MsgPreparing (os_path_basename sv file_path));
                  EOpen file_path (inr f);
                  ECreateAsset site folder (os_path_basename sv file_path)
                    (md5_hexdigest sv
                       (read_chunks (S (List.length f)) md5_new f))
                    (inr u);
                  EOpen file_path (inr f2); ESay MsgUploading;
                  EPost (upload_url u) (form_data (upload_details u))
                    (os_path_basename sv file_path, f2,
                     content_type (upload_details u)) (inr 201);
                  ESay MsgS3Successful] ++ tp ++ [ESay final]
             /\ (final = MsgTimedOut -> r = None)) as (final & -> & Hfinal).
  { destruct r as [cdn |].
    - rewrite (Hsome cdn eq_refl) in Hrun. injection Hrun as _ _ <-.
      eexists. split; [reflexivity | discriminate].
    - injection Hrun as _ _ <-. eexists. split; [reflexivity | reflexivity]. }
  clear Hrun.
  rewrite !count_app, !slept_app.
  split; [trace_all |]. split; [trace_all |].
  change (count is_list_assets [ESay final]) with 0%nat.
  match goal with
  | |- context [count is_list_assets (?a :: ?b :: ?l)] =>
      change (count is_list_assets (a :: b :: l)) with 0%nat
  end.
  cbn [slept].
  split; [lia |]. split; [lia |]. split.
  - intros Hin. apply in_app_or in Hin.
    destruct Hin as [Hin | Hin]; [in_cases Hin |].
    apply in_app_or in Hin. destruct Hin as [Hin | Hin]; [contradiction |].
    destruct Hin as [Hin | []]. injection Hin as Hm.
    destruct (Hnone (Hfinal Hm)) as [H1 H2].
    lia.
  - intros _. eexists _, _, _. apply in_or_app. left. simpl.
    do 5 right. left. reflexivity.
Qed.

End UploadInGeneral.

Section UploadTraces.
Context {World : Type} (sv : Services World).

(** A POST happens once at most, after a successful initiation, and carries
    what the initiation answered. *)
Lemma upload_run_post site folder file_path t :
  upload_run sv site folder file_path t ->
  (count is_post t <= 1)%nat
  /\ forall target data file r,
       In (EPost target data file r) t ->
       exists hash session bytes,
         In (ECreateAsset site folder (os_path_basename sv file_path) hash
               (inr session)) t
         /\ In (EOpen file_path (inr bytes)) t
         /\ target = upload_url session
         /\ data = form_data (upload_details session)
         /\ file = (os_path_basename sv file_path, bytes,
                    content_type (upload_details session)).
Proof.
  intros Hrun.
  inversion Hrun as [e | f e | f u e | f u f2 e | f u f2 c Hc
                     | f u f2 polled final Fp Hfinal]; subst.
  1-3: split; [unfold count; simpl; lia |];
       intros target data file r Hin; in_cases Hin.
  1-2: split; [unfold count; simpl; lia |];
       intros target data file r Hin; in_cases Hin;
       injection Hin as <- <- <- _; eexists _, u, f2; simpl; tauto.
  split.
  - rewrite !count_app. unfold count at 1 3. simpl.
    rewrite (count_zero_class is_poll_event is_post polled); [lia | | exact Fp].
    intros [] H; (reflexivity || discriminate H).
  - intros target data file r Hin.
    apply in_app_or in Hin. destruct Hin as [Hin | Hin].
    + in_cases Hin. injection Hin as <- <- <- _. eexists _, u, f2.
      repeat split; try reflexivity; apply in_or_app; left; simpl; tauto.
    + exfalso. apply in_app_or in Hin. destruct Hin as [Hin | Hin].
      * apply (poll_event_in _ _ Fp) in Hin. discriminate.
      * in_cases Hin.
Qed.

(** An upload says one last word, and says it last. *)
Lemma upload_run_verdict site folder file_path t :
  upload_run sv site folder file_path t ->
  exists before m,
    t = ESay (MsgPreparing (os_path_basename sv file_path)) :: before
        ++ [ESay m]
    /\ is_verdict (ESay m) = true
    /\ count is_verdict before = 0%nat.
Proof.
  intros Hrun.
  inversion Hrun as [e | f e | f u e | f u f2 e | f u f2 c Hc
                     | f u f2 polled final Fp Hfinal]; subst.
  - exists [EOpen file_path (inl e)]. eexists. repeat split.
  - eexists [_; _]. eexists. repeat split.
  - eexists [_; _; _]. eexists. repeat split.
  - eexists [_; _; _; _; _]. eexists. repeat split.
  - eexists [_; _; _; _; _]. eexists. repeat split.
  - eexists ([_; _; _; _; _; _] ++ polled), final. split; [| split].
    + simpl. reflexivity.
    + destruct Hfinal as [-> | [cdn ->]]; reflexivity.
    + rewrite count_app. unfold count at 1. simpl.
      apply (count_zero_class is_poll_event is_verdict polled); [| exact Fp].
      intros [] H; try reflexivity; try discriminate H.
      destruct m; (reflexivity || discriminate H).
Qed.

End UploadTraces.

Section OneSite.
Context {World : Type} (sv : Services World).

Lemma resolver_run_site site name o t :
  resolver_run site name o t -> Forall (addressed_to site) t.
Proof. intros H. inversion H; subst; trace_all. Qed.

Lemma setup_event_site site (t : list Event) :
  Forall (fun e => is_setup_event e = true) t -> Forall (addressed_to site) t.
Proof.
  intros F. eapply Forall_impl; [| exact F].
  intros [] H; (discriminate H || exact I).
Qed.

(** The site is read once, when the user has agreed, and every request
    that follows is addressed to it. *)
Lemma confirm_and_upload_site compressed_path w o w' t :
  confirm_and_upload sv compressed_path w = (o, w', t) ->
  exists w0, Forall (addressed_to (os_getenv sv "SITE_ID" w0)) t.
Proof.
  unfold confirm_and_upload. intros H.
  apply bind_inv in H.
  destruct H as [(line & w1 & t1 & t2 & Hin & Hrest & ->)
                | [(e & Hin & ->) | (c & Hin & ->)]].
  - assert (Ht1 : t1 = [EInput (confirm_prompt sv compressed_path) (inr line)]).
    { unfold call in Hin.
      destruct (input sv (confirm_prompt sv compressed_path) w) as [[e | s] w2];
        inversion Hin; reflexivity. }
    subst t1. cbv beta zeta in Hrest.
    destruct ((lower (strip line) =? "y")%string
              || (lower (strip line) =? EmptyString)%string).
    + exists w1. apply bind_inv in Hrest.
      destruct Hrest as [(id & w2 & t3 & t4 & Hres & Hup & ->)
                        | [(e & Hres & ->) | (c & Hres & ->)]];
        apply create_asset_folder_run, resolver_run_site in Hres.
      * destruct (str_truthy id).
        -- apply upload_local_asset_details in Hup.
           destruct Hup as (_ & Hup & _). trace_all.
        -- inversion Hup; subst. trace_all.
      * trace_all.
      * trace_all.
    + exists w. inversion Hrest; subst. trace_all.
  - exists w. unfold call in Hin.
    destruct (input sv (confirm_prompt sv compressed_path) w) as [[e' | s] w2];
      inversion Hin; subst. trace_all.
  - unfold call in Hin.
    destruct (input sv (confirm_prompt sv compressed_path) w) as [[e' | s] w2];
      inversion Hin.
Qed.

End OneSite.

(** X15: the POST of an upload carries what the initiation answered: it
    goes to the [upload_url] of the session, with the eleven form fields of
    its [upload_details], and the file part is the base name of the file,
    the bytes read when the file was opened again and the session's content
    type; and an upload sends one POST at most. *)
Theorem upload_posts_what_initiation_answered {World : Type}
    (sv : Services World) (site : option string) (folder file_path : string)
    (w w' : World) (o : Outcome unit) (t : list Event)
    (target : string) (data : list (string * string)) (file : FilePart)
    (r : answer Z) :
  upload_local_asset sv site folder file_path w = (o, w', t) ->
  In (EPost target data file r) t ->
  (count is_post t = 1)%nat
  /\ exists hash session bytes,
       In (ECreateAsset site folder (os_path_basename sv file_path) hash
             (inr session)) t
       /\ In (EOpen file_path (inr bytes)) t
       /\ target = upload_url session
       /\ data = form_data (upload_details session)
       /\ file = (os_path_basename sv file_path, bytes,
                  content_type (upload_details session)).
Proof.
  intros Hrun Hin. apply upload_local_asset_run in Hrun.
  destruct Hrun as [_ Hrun].
  destruct (upload_run_post sv _ _ _ _ Hrun) as [Hone Hpost].
  split; [| exact (Hpost _ _ _ _ Hin)].
  assert (count is_post t <> 0)%nat; [| lia].
  intros Hz. refine (count_zero_not_In _ _ _ Hz _ Hin). reflexivity.
Qed.

Lemma upload_posts_what_initiation_answered_witness :
  (count is_post (snd happy_upload) = 1)%nat
  /\ exists hash session bytes,
       In (ECreateAsset (Some "site-1") "folder-0"
             (os_path_basename sim_ok "compressed/clip.webm") hash
             (inr session)) (snd happy_upload)
       /\ In (EOpen "compressed/clip.webm" (inr bytes)) (snd happy_upload)
       /\ "https://s3.example/upload" = upload_url session
       /\ form_data (sim_details "201") = form_data (upload_details session)
       /\ ("clip.webm", [x00; x01; x02; x03], "video/webm")
          = (os_path_basename sim_ok "compressed/clip.webm", bytes,
             content_type (upload_details session)).
Proof.
  apply (upload_posts_what_initiation_answered sim_ok (Some "site-1")
           "folder-0" "compressed/clip.webm"
           (sim_world [inl RequestException; inr [];
                       inr [an_asset "asset-1" None (Some "https://cdn/clip")
                              None]])
           (snd (fst happy_upload)) (Return tt) (snd happy_upload)
           "https://s3.example/upload" (form_data (sim_details "201"))
           ("clip.webm", [x00; x01; x02; x03], "video/webm") (inr 201)).
  - vm_compute. reflexivity.
  - vm_compute. tauto.
Defined.

(** X16: the file is read twice, once for the digest and once for the POST.
    When the file system answers every [open] of the file alike, the digest
    the initiation declares is the MD5 digest of the very bytes the POST
    sends. *)
Theorem declared_digest_is_of_posted_bytes {World : Type}
    (sv : Services World) (site : option string) (folder file_path : string)
    (w w' : World) (o : Outcome unit) (t : list Event)
    (s : option string) (d n hash : string) (r : answer AssetUpload)
    (target : string) (data : list (string * string))
    (name : string) (bytes : list byte) (ct : string) (code : answer Z) :
  (forall w1 w2, open_rb sv file_path w1 = open_rb sv file_path w2) ->
  upload_local_asset sv site folder file_path w = (o, w', t) ->
  In (ECreateAsset s d n hash r) t ->
  In (EPost target data (name, bytes, ct) code) t ->
  hash = md5_hexdigest sv bytes.
Proof.
  intros Hstable Hrun Hinit Hpost.
  destruct (upload_local_asset_details sv _ _ _ _ _ _ _ Hrun) as [Fo _].
  apply upload_local_asset_run in Hrun. destruct Hrun as [_ Hrun].
  destruct (upload_run_initiation sv _ _ _ _ _ _ _ _ _ Hrun Hinit)
    as (_ & _ & _ & f & Hf & ->).
  destruct (upload_run_post sv _ _ _ _ Hrun) as [_ Hp].
  destruct (Hp _ _ _ _ Hpost) as (h2 & u & f2 & _ & Hf2 & _ & _ & Hfile).
  injection Hfile as _ -> _.
  rewrite Forall_forall in Fo.
  destruct (Fo _ Hf) as [_ [w1 H1]]. destruct (Fo _ Hf2) as [_ [w2 H2]].
  rewrite (Hstable w1 w2) in H1. rewrite <- H2 in H1.
  injection H1 as ->. reflexivity.
Qed.

Lemma declared_digest_is_of_posted_bytes_witness :
  "4" = md5_hexdigest sim_ok [x00; x01; x02; x03].
Proof.
  apply (declared_digest_is_of_posted_bytes sim_ok (Some "site-1")
           "folder-0" "compressed/clip.webm"
           (sim_world [inl RequestException; inr [];
                       inr [an_asset "asset-1" None (Some "https://cdn/clip")
                              None]])
           (snd (fst happy_upload)) (Return tt) (snd happy_upload)
           (Some "site-1") "folder-0" "clip.webm" "4"
           (inr (sim_upload "201"))
           "https://s3.example/upload" (form_data (sim_details "201"))
           "clip.webm" [x00; x01; x02; x03] "video/webm" (inr 201)).
  - intros w1 w2. reflexivity.
  - vm_compute. reflexivity.
  - vm_compute. tauto.
  - vm_compute. tauto.
Defined.

(** X17: the polling inside an upload keeps to its budget of 20 attempts
    5 seconds apart: an upload sends at most 20 listing requests and sleeps
    at most 100 seconds; it reports a timeout only after all 20 requests and
    the full 100 seconds; and it polls only after a POST answered with
    status 201. *)
Theorem upload_polling_budget {World : Type} (sv : Services World)
    (site : option string) (folder file_path : string) (w w' : World)
    (o : Outcome unit) (t : list Event) :
  upload_local_asset sv site folder file_path w = (o, w', t) ->
  (count is_list_assets t <= 20)%nat
  /\ 0 <= slept t <= 100
  /\ (In (ESay MsgTimedOut) t ->
      count is_list_assets t = 20%nat /\ slept t = 100)
  /\ (count is_list_assets t <> 0%nat \/ slept t <> 0 ->
      exists target data file, In (EPost target data file (inr 201)) t).
Proof.
  intros Hrun.
  destruct (upload_local_asset_details sv _ _ _ _ _ _ _ Hrun)
    as (_ & _ & Hl & Hs & Hto & Hpost).
  auto.
Qed.

Lemma upload_polling_budget_witness :
  (count is_list_assets (snd happy_upload) <= 20)%nat
  /\ 0 <= slept (snd happy_upload) <= 100
  /\ (In (ESay MsgTimedOut) (snd happy_upload) ->
      count is_list_assets (snd happy_upload) = 20%nat
      /\ slept (snd happy_upload) = 100)
  /\ (count is_list_assets (snd happy_upload) <> 0%nat
      \/ slept (snd happy_upload) <> 0 ->
      exists target data file,
        In (EPost target data file (inr 201)) (snd happy_upload)).
Proof.
  apply (upload_polling_budget sim_ok (Some "site-1") "folder-0"
           "compressed/clip.webm"
           (sim_world [inl RequestException; inr [];
                       inr [an_asset "asset-1" None (Some "https://cdn/clip")
                              None]])
           (snd (fst happy_upload)) (Return tt)).
  vm_compute. reflexivity.
Defined.

(** X18: an upload announces itself first and says exactly one last word,
    at the very end: the CDN URL, the timeout, the refused status or the
    exception caught; nothing is logged after it. *)
Theorem upload_ends_with_one_verdict {World : Type} (sv : Services World)
    (site : option string) (folder file_path : string) (w w' : World)
    (o : Outcome unit) (t : list Event) :
  upload_local_asset sv site folder file_path w = (o, w', t) ->
  exists before m,
    t = ESay (MsgPreparing (os_path_basename sv file_path)) :: before
        ++ [ESay m]
    /\ is_verdict (ESay m) = true
    /\ count is_verdict before = 0%nat.
Proof.
  intros Hrun. apply upload_local_asset_run in Hrun.
  destruct Hrun as [_ Hrun]. exact (upload_run_verdict sv _ _ _ _ Hrun).
Qed.

Lemma upload_ends_with_one_verdict_witness :
  exists before m,
    snd happy_upload
    = ESay (MsgPreparing (os_path_basename sim_ok "compressed/clip.webm"))
        :: before ++ [ESay m]
    /\ is_verdict (ESay m) = true
    /\ count is_verdict before = 0%nat.
Proof.
  apply (upload_ends_with_one_verdict sim_ok (Some "site-1") "folder-0"
           "compressed/clip.webm"
           (sim_world [inl RequestException; inr [];
                       inr [an_asset "asset-1" None (Some "https://cdn/clip")
                              None]])
           (snd (fst happy_upload)) (Return tt)).
  vm_compute. reflexivity.
Defined.

(** X19: all the requests a run of the script sends to the Webflow API,
    for the folders, the initiation and the polling, are addressed to one
    site: the value of [SITE_ID] read after the user has agreed. *)
Theorem script_addresses_one_site {World : Type} (sv : Services World)
    (input_file : string) (crf : Z) (w w' : World) (o : Outcome unit)
    (t : list Event) :
  script sv input_file crf w = (o, w', t) ->
  exists w0, Forall (addressed_to (os_getenv sv "SITE_ID" w0)) t.
Proof.
  intros Hrun. apply script_stages in Hrun. cbv zeta in Hrun.
  destruct Hrun as [(_ & _ & _ & ->) | [(_ & _ & _ & _ & ->)
                   | (_ & _ & oc & wc & tc & Hcmp & Hrest)]];
    [exists w; trace_all | exists w; trace_all |].
  pose proof (compress_video_run sv _ _ _ _ _ _ Hcmp) as [F _].
  destruct Hrest as [(-> & _) | (_ & rest & -> & _ & Hlate)].
  { exists w. constructor; [exact I |].
    apply setup_event_site. exact F. }
  apply bind_inv in Hlate.
  destruct Hlate as [([] & w1 & t1 & t2 & Hsz & Hconf & ->)
                    | [(e & Hsz & ->) | (c & Hsz & ->)]];
    apply compare_sizes_run in Hsz;
    destruct Hsz as [(e1 & Ho & ->) | [(a & e1 & Ho & ->)
                    | [(b & Ho & ->) | (a & b & Ha & Ho & ->)]]];
    try discriminate Ho;
    try (exists w; constructor; [exact I |]; apply Forall_app; split;
         [apply setup_event_site; exact F | trace_all]; fail).
  destruct (confirm_and_upload_site sv _ _ _ _ _ Hconf) as [w0 Hsite].
  exists w0. constructor; [exact I |]. apply Forall_app. split.
  - apply setup_event_site. exact F.
  - trace_all.
Qed.

Lemma script_addresses_one_site_witness :
  exists w0, Forall (addressed_to (os_getenv sim_ok "SITE_ID" w0))
               (snd happy_run).
Proof.
  apply (script_addresses_one_site sim_ok "clip.mov" 32
           (sim_world [inl RequestException; inr [];
                       inr [an_asset "asset-1" None (Some "https://cdn/clip")
                              None]])
           (snd (fst happy_run)) (Return tt)).
  vm_compute. reflexivity.
Defined.
